(** * Yoga-Tracker: a shallow embedding of [main.py]

    The application collects before/after assessment scores, plots them,
    asks a chat-completion service for a narrative report and a meal plan,
    and lays both out as PDF documents.  This file embeds the Python code
    of [main.py] function by function and proves properties of it.

    Conventions.
    - A Python [dict] with string keys is a [gmap string pyval].
    - Code that may raise returns an [outcome]; the constructor [Raise]
      carries the exception, [OutOfFuel] marks a loop that was cut off
      by the step budget of the model (it is not a Python result).
    - Calls into Streamlit, Groq, Plotly and ReportLab are events: each
      call is appended to a log and its answer is taken from a [world]. *)

From Stdlib Require Import QArith Ascii String.
From stdpp Require Import gmap strings list fin_maps pretty.

Local Open Scope string_scope.
Local Open Scope list_scope.
Local Open Scope Z_scope.

(** ** Python values and exceptions *)

Inductive pyval :=
| PNone
| PInt (n : Z)
| PStr (s : string)
| PList (l : list string).

Global Instance pyval_eq_dec : EqDecision pyval.
Proof. solve_decision. Defined.

Abbreviation dict := (gmap string pyval).

(** The exception classes the program can meet.  [BaseOnly] stands for
    the classes that derive from [BaseException] but not from
    [Exception] (KeyboardInterrupt, SystemExit, and Streamlit's script
    control exceptions raised by [st.stop]). *)
Inductive exn_class :=
| KeyError | TypeError | IndexError | ValueError | AttributeError
| OtherException
| BaseOnly.

Record exn := Exn { exn_cls : exn_class; exn_msg : string }.

(** [isinstance(e, Exception)] *)
Definition is_Exception (e : exn) : bool :=
  match exn_cls e with BaseOnly => false | _ => true end.

Inductive outcome (A : Type) :=
| Ok (a : A)
| Raise (e : exn)
| OutOfFuel.
Arguments Ok {A} a.
Arguments Raise {A} e.
Arguments OutOfFuel {A}.

Definition obind {A B} (x : outcome A) (f : A -> outcome B) : outcome B :=
  match x with
  | Ok a => f a
  | Raise e => Raise e
  | OutOfFuel => OutOfFuel
  end.

Global Instance outcome_ret : MRet outcome := fun A a => Ok a.
Global Instance outcome_bind : MBind outcome := fun A B f x => obind x f.

(** ** Strings *)

Definition nl : string := String (ascii_of_nat 10) "".
Definition dquote : ascii := ascii_of_nat 34.
Definition squote : ascii := ascii_of_nat 39.
Definition backslash : ascii := ascii_of_nat 92.

(** [sep.join(l)] *)
Fixpoint join (sep : string) (l : list string) : string :=
  match l with
  | [] => ""
  | [x] => x
  | x :: l' => x +:+ sep +:+ join sep l'
  end.

Fixpoint chars (s : string) : list string :=
  match s with
  | "" => []
  | String c s' => String c "" :: chars s'
  end.

(** [s.startswith(p)] *)
Fixpoint startswith (p s : string) : bool :=
  match p, s with
  | "", _ => true
  | String a p', String b s' => if decide (a = b) then startswith p' s' else false
  | String _ _, "" => false
  end.

(** [sub in s] *)
Fixpoint py_in (sub s : string) : bool :=
  startswith sub s ||
  match s with
  | "" => false
  | String _ s' => py_in sub s'
  end.

(** [any(w in s for w in ws)] *)
Definition any_in (ws : list string) (s : string) : bool :=
  existsb (fun w => py_in w s) ws.

(** [str.isspace] on one character, for the ASCII range: tab, line feed,
    vertical tab, form feed, carriage return, the four separators
    0x1c-0x1f and the space. *)
Definition is_space (c : ascii) : bool :=
  let n := nat_of_ascii c in
  ((9 <=? n)%nat && (n <=? 13)%nat) || ((28 <=? n)%nat && (n <=? 32)%nat).

Fixpoint lstrip (s : string) : string :=
  match s with
  | String c s' => if is_space c then lstrip s' else s
  | "" => ""
  end.

(** Strips trailing white space: a character is kept when something
    that is kept follows it or when it is not white space. *)
Fixpoint rstrip (s : string) : string :=
  match s with
  | "" => ""
  | String c s' =>
      match rstrip s' with
      | "" => if is_space c then "" else String c ""
      | r => String c r
      end
  end.

(** [s.strip()] *)
Definition strip (s : string) : string := rstrip (lstrip s).

(** [s.split(c)] for a separator of one character. *)
Fixpoint split_on (c : ascii) (s : string) : list string :=
  match s with
  | "" => [""]
  | String a s' =>
      if decide (a = c) then "" :: split_on c s'
      else match split_on c s' with
           | w :: ws => String a w :: ws
           | [] => [String a ""]
           end
  end.

(** [s.split('\n\n')]: the separator is matched from left to right
    without overlap. *)
Fixpoint split_blank (s : string) : list string :=
  match s with
  | "" => [""]
  | String a s' =>
      match s' with
      | String b s'' =>
          if bool_decide (a = ascii_of_nat 10) && bool_decide (b = ascii_of_nat 10)
          then "" :: split_blank s''
          else match split_blank s' with
               | w :: ws => String a w :: ws
               | [] => [String a ""]
               end
      | "" => [String a ""]
      end
  end.

(** [s.split('\n', 1)]: at most one split. *)
Fixpoint split_once (c : ascii) (s : string) : list string :=
  match s with
  | "" => [""]
  | String a s' =>
      if decide (a = c) then [""; s']
      else match split_once c s' with
           | w :: ws => String a w :: ws
           | [] => [String a ""]
           end
  end.

(** [c.isdigit()] on an ASCII character. *)
Definition isdigit (c : ascii) : bool :=
  let n := nat_of_ascii c in (48 <=? n)%nat && (n <=? 57)%nat.


(** Every character of [s] passes the test [P]. *)
Fixpoint all_chars (P : ascii -> bool) (s : string) : bool :=
  match s with
  | "" => true
  | String c s' => P c && all_chars P s'
  end.

(** The two characters with which markup starts in the text of a
    ReportLab paragraph: the [<] of a tag and the [&] of an entity. *)
Definition markup_char (c : ascii) : bool :=
  bool_decide (c = ascii_of_nat 60) || bool_decide (c = ascii_of_nat 38).

(** The text holds no markup: neither [<] nor [&] occurs in it. *)
Definition plain_text (s : string) : bool :=
  all_chars (fun c => negb (markup_char c)) s.

(** ** Operations on Python values *)

(** [bool(v)] *)
Definition truthy (v : pyval) : bool :=
  match v with
  | PNone => false
  | PInt n => negb (n =? 0)
  | PStr s => negb (String.eqb s "")
  | PList l => match l with [] => false | _ => true end
  end.

Definition type_name (v : pyval) : string :=
  match v with
  | PNone => "NoneType"
  | PInt _ => "int"
  | PStr _ => "str"
  | PList _ => "list"
  end.

Definition hex_digit (n : nat) : ascii :=
  if (n <? 10)%nat then ascii_of_nat (48 + n) else ascii_of_nat (87 + n).

(** One character of [repr(s)] when the surrounding quote is [q].
    Bytes above 127 belong to printable non-ASCII text and are kept. *)
Definition repr_char (q c : ascii) : string :=
  let n := nat_of_ascii c in
  if decide (c = backslash) then String backslash (String backslash "")
  else if decide (c = q) then String backslash (String q "")
  else if decide (n = 10%nat) then String backslash "n"
  else if decide (n = 13%nat) then String backslash "r"
  else if decide (n = 9%nat) then String backslash "t"
  else if (n <? 32)%nat || (n =? 127)%nat
       then String backslash
              (String "x" (String (hex_digit (n / 16)) (String (hex_digit (n mod 16)) "")))
  else String c "".

Fixpoint has_char (c : ascii) (s : string) : bool :=
  match s with
  | "" => false
  | String a s' => bool_decide (a = c) || has_char c s'
  end.

Fixpoint repr_body (q : ascii) (s : string) : string :=
  match s with
  | "" => ""
  | String c s' => repr_char q c +:+ repr_body q s'
  end.

(** [repr(s)] for a string: single quotes unless the text holds a
    single quote and no double quote. *)
Definition repr_str (s : string) : string :=
  let q := if has_char squote s && negb (has_char dquote s) then dquote else squote in
  String q (repr_body q s +:+ String q "").

(** [str(v)], which is also what an f-string field [{v}] produces. *)
Definition py_str (v : pyval) : string :=
  match v with
  | PNone => "None"
  | PInt n => pretty n
  | PStr s => s
  | PList l => "[" +:+ join ", " (repr_str <$> l) +:+ "]"
  end.

(** [sep.join(v)]: a list of strings is joined, a string is joined
    character by character, anything else is not iterable. *)
Definition py_join (sep : string) (v : pyval) : outcome string :=
  match v with
  | PList l => Ok (join sep l)
  | PStr s => Ok (join sep (chars s))
  | _ => Raise (Exn TypeError "can only join an iterable")
  end.

(** [d[k]] *)
Definition getitem (d : dict) (k : string) : outcome pyval :=
  match d !! k with
  | Some v => Ok v
  | None => Raise (Exn KeyError (repr_str k))
  end.

(** [d.get(k)] *)
Definition dict_get (d : dict) (k : string) : pyval :=
  default PNone (d !! k).

(** [d.update(other)]: the entries of [other] win. *)
Definition dict_update (d other : dict) : dict := other ∪ d.

(** [a - b]: defined on integers only among the values of [pyval]. *)
Definition py_sub (a b : pyval) : outcome Z :=
  match a, b with
  | PInt x, PInt y => Ok (x - y)
  | _, _ => Raise (Exn TypeError
              ("unsupported operand type(s) for -: " +:+ repr_str (type_name a)
               +:+ " and " +:+ repr_str (type_name b)))
  end.

(** [f"{n:+d}"]: decimal digits with an explicit sign. *)
Definition format_plus_d (n : Z) : string :=
  if 0 <=? n then "+" +:+ pretty n else pretty n.

(** ** Charts *)

(** pandas and plotly are not modelled beyond the calls the program
    makes: a data frame is the record of how it was built, a figure is
    the record of the [px.bar] call that made it. *)
Inductive dataframe :=
| DataFrame (data : list (string * list pyval)) (index : list string)
| Transpose (df : dataframe).

Record figure := Bar { fig_frame : dataframe; barmode : string; title : string }.

Definition is_int (v : pyval) : bool :=
  match v with
  | PInt _ => true
  | _ => false
  end.

(** Every cell of the frame is an integer. *)
Fixpoint numeric (df : dataframe) : bool :=
  match df with
  | DataFrame data _ => forallb (fun column => forallb is_int column.2) data
  | Transpose df' => numeric df'
  end.

(** The dict literal [physical_metrics]; a Python dict literal keeps the
    order in which its items are written, and the subscripts are
    evaluated in that order. *)
Definition physical_metrics (before_data after_data : dict)
  : outcome (list (string * list pyval)) :=
  b1 ← getitem before_data "flexibility"; a1 ← getitem after_data "flexibility";
  b2 ← getitem before_data "strength"; a2 ← getitem after_data "strength";
  b3 ← getitem before_data "balance"; a3 ← getitem after_data "balance";
  b4 ← getitem before_data "pain"; a4 ← getitem after_data "pain";
  b5 ← getitem before_data "posture"; a5 ← getitem after_data "posture";
  b6 ← getitem before_data "breathing"; a6 ← getitem after_data "breathing";
  b7 ← getitem before_data "spine"; a7 ← getitem after_data "spine";
  b8 ← getitem before_data "hips"; a8 ← getitem after_data "hips";
  b9 ← getitem before_data "shoulders"; a9 ← getitem after_data "shoulders";
  b10 ← getitem before_data "core"; a10 ← getitem after_data "core";
  mret [ ("Flexibility", [b1; a1]);
         ("Strength", [b2; a2]);
         ("Balance", [b3; a3]);
         ("Pain Level", [b4; a4]);
         ("Posture", [b5; a5]);
         ("Breathing", [b6; a6]);
         ("Spine", [b7; a7]);
         ("Hips", [b8; a8]);
         ("Shoulders", [b9; a9]);
         ("Core", [b10; a10]) ].

Definition mental_metrics (before_data after_data : dict)
  : outcome (list (string * list pyval)) :=
  b1 ← getitem before_data "stress"; a1 ← getitem after_data "stress";
  b2 ← getitem before_data "energy"; a2 ← getitem after_data "energy";
  b3 ← getitem before_data "focus"; a3 ← getitem after_data "focus";
  b4 ← getitem before_data "sleep"; a4 ← getitem after_data "sleep";
  b5 ← getitem before_data "anxiety"; a5 ← getitem after_data "anxiety";
  b6 ← getitem before_data "mood"; a6 ← getitem after_data "mood";
  b7 ← getitem before_data "mindfulness"; a7 ← getitem after_data "mindfulness";
  mret [ ("Stress", [b1; a1]);
         ("Energy", [b2; a2]);
         ("Focus", [b3; a3]);
         ("Sleep", [b4; a4]);
         ("Anxiety", [b5; a5]);
         ("Mood", [b6; a6]);
         ("Mindfulness", [b7; a7]) ].

(** ** Prompts *)

(** An f-string is the concatenation of its pieces, evaluated from left
    to right: literal text, formatted fields and joined lists.  Strings
    are sequences of UTF-8 bytes, so the arrow of the template takes
    three characters here. *)
Definition lit (s : string) : outcome string := Ok s.
Definition fmt (v : outcome pyval) : outcome string := x ← v; mret (py_str x).
Definition joined (sep : string) (v : outcome pyval) : outcome string :=
  x ← v; py_join sep x.

Fixpoint fstring (parts : list (outcome string)) : outcome string :=
  match parts with
  | [] => Ok ""
  | p :: ps => s ← p; t ← fstring ps; mret (s +:+ t)
  end.

(** The [prompt] of [generate_analysis]. *)
Definition analysis_prompt (before_data after_data client_info : dict) : outcome string :=
  fstring [
    lit nl;
    lit "    As an expert yoga trainer and wellness analyst, provide a detailed progress analysis for:"; lit nl;
    lit "    "; lit nl;
    lit "    CLIENT PROFILE:"; lit nl;
    lit "    Name: "; fmt (getitem client_info "name"); lit nl;
    lit "    Age: "; fmt (getitem client_info "age"); lit nl;
    lit "    Occupation: "; fmt (getitem client_info "occupation"); lit nl;
    lit "    Previous Yoga Experience: "; fmt (getitem client_info "previous_yoga_experience"); lit nl;
    lit "    Primary Goals: "; joined ", " (getitem client_info "primary_goals"); lit nl;
    lit "    "; lit nl;
    lit "    COMPREHENSIVE ASSESSMENT COMPARISON:"; lit nl;
    lit "    "; lit nl;
    lit "    1. PHYSICAL METRICS ANALYSIS:"; lit nl;
    lit "    "; lit nl;
    lit "    Basic Metrics:"; lit nl;
    lit "    Flexibility: Before "; fmt (getitem before_data "flexibility"); lit "/10 → After "; fmt (getitem after_data "flexibility"); lit "/10"; lit nl;
    lit "    Strength: Before "; fmt (getitem before_data "strength"); lit "/10 → After "; fmt (getitem after_data "strength"); lit "/10"; lit nl;
    lit "    Balance: Before "; fmt (getitem before_data "balance"); lit "/10 → After "; fmt (getitem after_data "balance"); lit "/10"; lit nl;
    lit "    Pain Levels: Before "; fmt (getitem before_data "pain"); lit "/10 → After "; fmt (getitem after_data "pain"); lit "/10"; lit nl;
    lit "    "; lit nl;
    lit "    Detailed Physical Assessment:"; lit nl;
    lit "    Posture: Before "; fmt (getitem before_data "posture"); lit "/10 → After "; fmt (getitem after_data "posture"); lit "/10"; lit nl;
    lit "    Breathing: Before "; fmt (getitem before_data "breathing"); lit "/10 → After "; fmt (getitem after_data "breathing"); lit "/10"; lit nl;
    lit "    Spine Flexibility: Before "; fmt (getitem before_data "spine"); lit "/10 → After "; fmt (getitem after_data "spine"); lit "/10"; lit nl;
    lit "    Hip Mobility: Before "; fmt (getitem before_data "hips"); lit "/10 → After "; fmt (getitem after_data "hips"); lit "/10"; lit nl;
    lit "    Shoulder Mobility: Before "; fmt (getitem before_data "shoulders"); lit "/10 → After "; fmt (getitem after_data "shoulders"); lit "/10"; lit nl;
    lit "    Core Strength: Before "; fmt (getitem before_data "core"); lit "/10 → After "; fmt (getitem after_data "core"); lit "/10"; lit nl;
    lit "    "; lit nl;
    lit "    2. MENTAL & EMOTIONAL METRICS:"; lit nl;
    lit "    "; lit nl;
    lit "    Stress Levels: Before "; fmt (getitem before_data "stress"); lit "/10 → After "; fmt (getitem after_data "stress"); lit "/10"; lit nl;
    lit "    Energy Levels: Before "; fmt (getitem before_data "energy"); lit "/10 → After "; fmt (getitem after_data "energy"); lit "/10"; lit nl;
    lit "    Focus & Clarity: Before "; fmt (getitem before_data "focus"); lit "/10 → After "; fmt (getitem after_data "focus"); lit "/10"; lit nl;
    lit "    Sleep Quality: Before "; fmt (getitem before_data "sleep"); lit "/10 → After "; fmt (getitem after_data "sleep"); lit "/10"; lit nl;
    lit "    Anxiety Levels: Before "; fmt (getitem before_data "anxiety"); lit "/10 → After "; fmt (getitem after_data "anxiety"); lit "/10"; lit nl;
    lit "    Overall Mood: Before "; fmt (getitem before_data "mood"); lit "/10 → After "; fmt (getitem after_data "mood"); lit "/10"; lit nl;
    lit "    Mindfulness: Before "; fmt (getitem before_data "mindfulness"); lit "/10 → After "; fmt (getitem after_data "mindfulness"); lit "/10"; lit nl;
    lit "    "; lit nl;
    lit "    Lifestyle Factors:"; lit nl;
    lit "    - Work Activity Level: "; fmt (getitem client_info "work_activity_level"); lit nl;
    lit "    - Exercise Routine: "; fmt (getitem client_info "exercise_routine"); lit nl;
    lit "    - Sleep Hours: "; fmt (getitem client_info "sleep_hours"); lit nl;
    lit "    - Diet Type: "; fmt (getitem client_info "diet_type"); lit nl;
    lit "    - Stress Sources: "; joined ", " (getitem client_info "stress_sources"); lit nl;
    lit "    "; lit nl;
    lit "    Initial Limitations/Symptoms:"; lit nl;
    lit "    "; fmt (getitem before_data "limitations"); lit nl;
    lit "    "; fmt (getitem before_data "symptoms"); lit nl;
    lit "    "; lit nl;
    lit "    Current Notes:"; lit nl;
    lit "    Before: "; fmt (getitem before_data "notes"); lit nl;
    lit "    After: "; fmt (getitem after_data "notes"); lit nl;
    lit "    "; lit nl;
    lit "    Please provide a detailed analysis with the following sections:"; lit nl;
    lit nl;
    lit "    1. EXECUTIVE SUMMARY"; lit nl;
    lit "    Provide a concise overview of the client's overall progress and key achievements."; lit nl;
    lit nl;
    lit "    2. PHYSICAL PROGRESS ANALYSIS"; lit nl;
    lit "    - Detailed analysis of improvements in all physical metrics"; lit nl;
    lit "    - Specific areas of notable improvement"; lit nl;
    lit "    - Areas requiring continued attention"; lit nl;
    lit "    "; lit nl;
    lit "    3. MENTAL & EMOTIONAL WELLNESS PROGRESS"; lit nl;
    lit "    - Comprehensive analysis of mental and emotional improvements"; lit nl;
    lit "    - Impact on daily life and wellbeing"; lit nl;
    lit "    - Notable behavioral changes"; lit nl;
    lit "    "; lit nl;
    lit "    4. KEY ACHIEVEMENTS"; lit nl;
    lit "    List the top 3-5 most significant improvements observed."; lit nl;
    lit "    "; lit nl;
    lit "    5. AREAS FOR FOCUS"; lit nl;
    lit "    Identify 2-3 specific areas that need continued attention and work."; lit nl;
    lit "    "; lit nl;
    lit "    6. PERSONALIZED RECOMMENDATIONS"; lit nl;
    lit "    Provide 4-5 specific, actionable recommendations for:"; lit nl;
    lit "    - Poses or exercises to practice"; lit nl;
    lit "    - Lifestyle adjustments"; lit nl;
    lit "    - Mental wellness practices"; lit nl;
    lit "    - Sleep hygiene improvements (if applicable)"; lit nl;
    lit "    "; lit nl;
    lit "    7. LONG-TERM OUTLOOK"; lit nl;
    lit "    - Projected benefits if current progress continues"; lit nl;
    lit "    - Potential milestones to work towards"; lit nl;
    lit "    - Timeline expectations"; lit nl;
    lit "    "; lit nl;
    lit "    8. MOTIVATIONAL INSIGHTS"; lit nl;
    lit "    End with a personalized motivational message that:"; lit nl;
    lit "    - Acknowledges their progress"; lit nl;
    lit "    - Encourages continued dedication"; lit nl;
    lit "    - Highlights their potential for further growth"; lit nl;
    lit nl;
    lit "    Please format the response clearly with headers and bullet points where appropriate."; lit nl;
    lit "    Focus on being specific, actionable, and encouraging while maintaining a professional tone."; lit nl;
    lit "    " ].

(** The [prompt] of [generate_dietary_plan]; the function receives the two
    assessment records as well. *)
Definition dietary_prompt (client_info before_data after_data : dict) : outcome string :=
  fstring [
    lit nl;
    lit "    As a professional nutritionist, create a detailed 7-day meal plan for:"; lit nl;
    lit nl;
    lit "    CLIENT PROFILE:"; lit nl;
    lit "    Name: "; fmt (getitem client_info "name"); lit nl;
    lit "    Height: "; fmt (getitem client_info "height"); lit " cm"; lit nl;
    lit "    Weight: "; fmt (getitem client_info "weight"); lit " kg"; lit nl;
    lit "    Dietary Restrictions: "; fmt (getitem client_info "dietary_restrictions"); lit nl;
    lit "    Health Goals: "; joined ", " (getitem client_info "health_goals"); lit nl;
    lit "    Food Allergies: "; fmt (getitem client_info "food_allergies"); lit nl;
    lit "    Exercise Level: "; fmt (getitem client_info "exercise_routine"); lit nl;
    lit nl;
    lit "    Please provide a COMPLETE 7-day meal plan following this EXACT format for each day:"; lit nl;
    lit nl;
    lit "    [DAY]"; lit nl;
    lit "    Breakfast (7:00 AM)"; lit nl;
    lit "    Main: [Provide specific meal with portions]"; lit nl;
    lit "    Alternative: [Provide specific alternative meal]"; lit nl;
    lit "    Calories: [Exact number]"; lit nl;
    lit "    Protein: [X]g"; lit nl;
    lit "    Carbs: [X]g"; lit nl;
    lit "    Fat: [X]g"; lit nl;
    lit "    Prep Time: [X] mins"; lit nl;
    lit nl;
    lit "    Morning Snack (10:00 AM)"; lit nl;
    lit "    [Same format as breakfast]"; lit nl;
    lit nl;
    lit "    Lunch (12:30 PM)"; lit nl;
    lit "    [Same format as breakfast]"; lit nl;
    lit nl;
    lit "    Afternoon Snack (3:30 PM)"; lit nl;
    lit "    [Same format as breakfast]"; lit nl;
    lit nl;
    lit "    Dinner (7:00 PM)"; lit nl;
    lit "    [Same format as breakfast]"; lit nl;
    lit nl;
    lit "    IMPORTANT REQUIREMENTS:"; lit nl;
    lit "    1. Provide SPECIFIC meal descriptions with portions"; lit nl;
    lit "    2. Include EXACT nutrient values"; lit nl;
    lit "    3. Consider client's dietary restrictions and allergies"; lit nl;
    lit "    4. Keep total daily calories appropriate for their goals"; lit nl;
    lit "    5. Include realistic prep times"; lit nl;
    lit "    6. Ensure meals are practical and easy to prepare"; lit nl;
    lit "    7. Provide realistic alternatives for each meal"; lit nl;
    lit nl;
    lit "    Please maintain this exact format for all 7 days."; lit nl;
    lit "    " ].


(** ** The outside world *)

(** Byte strings ([bytes], [BytesIO] contents). *)
Abbreviation bytes := string.

(** The chat-completion interface of the Groq client. *)
Record chat_message := ChatMessage { role : string; content : string }.

Record chat_request := ChatRequest {
  messages : list chat_message;
  model : string;
  temperature : Q;
  max_tokens : Z;
  top_p : Q;
  stream : bool
}.

Record chat_choice := ChatChoice { message : chat_message }.
Record chat_response := ChatResponse { choices : list chat_choice }.

(** ReportLab flowables.  A paragraph style is named by its key in the
    style sheet; a table style names one of the three [TableStyle]
    literals of the program. *)
Inductive table_style := SummaryTableStyle | ProfileTableStyle | MealTableStyle.

Inductive flowable :=
| Paragraph (text : string) (style : string)
| Spacer (width height : Z)
| Image (png : bytes) (drawHeight_inch drawWidth_inch : Z)
| Table (data : list (list string)) (colWidths : list Z) (style : table_style).

Inductive pagesize := Letter | LandscapeLetter.

(** Streamlit calls that draw on the page. *)
Inductive ui_call :=
| st_error (msg : string)
| st_success (msg : string)
| st_write (text : string)
| st_subheader (text : string)
| st_markdown (text : string)
| st_spinner (text : string)
| st_plotly_chart (fig : figure)
| st_download_button (label : string) (data : bytes)
                     (file_name mime help : string).

(** Everything the program asks of its libraries, in the order asked.
    The calls that only make a value ([px.bar], [Paragraph]) are not
    events: they return their value or raise, and leave no other
    trace. *)
Inductive event :=
| EvGetenv (name : string)
| EvSecretsContains (name : string)
| EvSecretsGet (name : string)
| EvUi (c : ui_call)
| EvStop
| EvChat (r : chat_request)
| EvToImage (fig : figure) (format : string) (width height scale : Z)
| EvBuild (size : pagesize) (margin : Z) (story : list flowable).

(** The answers of the libraries.  A call either returns or raises.
    - [st_secrets] is the secrets store, or the exception that reading
      it raises (Streamlit raises when there is no secrets file).
    - [px_bar_answer] says whether Plotly Express refuses the data of a
      figure; it is asked for frames that hold something else than
      integers.
    - [paragraph_answer] says whether ReportLab's markup parser refuses
      the text of a paragraph; it is asked for text that holds markup. *)
Record world := World {
  os_environ : gmap string string;
  st_secrets : exn + dict;
  ui_answer : ui_call -> option exn;
  chat_answer : chat_request -> exn + chat_response;
  px_bar_answer : figure -> option exn;
  to_image_answer : figure -> exn + bytes;
  paragraph_answer : string -> string -> option exn;
  build_answer : list flowable -> exn + bytes;
  now_strftime : string -> string
}.

(** ** Session state *)

(** [st.session_state] holds references to dict objects and the bytes
    of the two generated documents.  Dict objects live in a heap, so
    that two attributes that name the same object share its updates. *)
Abbreviation loc := nat.

Inductive attr_val :=
| ARef (l : loc)
| ABytes (b : bytes).

Record session_state := Session {
  heap : gmap loc dict;
  attrs : gmap string attr_val
}.

Record state := State {
  session : session_state;
  log : list event
}.

(** ** The monad of effectful code *)

Definition M (A : Type) : Type := state -> outcome A * state.

Definition ret {A} (a : A) : M A := fun s => (Ok a, s).

Definition bind {A B} (c : M A) (k : A -> M B) : M B :=
  fun s =>
    match c s with
    | (Ok a, s') => k a s'
    | (Raise e, s') => (Raise e, s')
    | (OutOfFuel, s') => (OutOfFuel, s')
    end.

Notation "'do' x <- c ; k" := (bind c (fun x => k))
  (at level 10, x name, c at level 99, k at level 200).
Notation "c ;; k" := (bind c (fun _ => k))
  (at level 100, k at level 200, right associativity).

Definition raise {A} (e : exn) : M A := fun s => (Raise e, s).

Definition out_of_fuel {A} : M A := fun s => (OutOfFuel, s).

(** Pure code that may raise, run inside effectful code. *)
Definition lift {A} (o : outcome A) : M A := fun s => (o, s).

Definition emit (ev : event) : M unit :=
  fun s => (Ok (), State (session s) (log s ++ [ev])).

Definition of_answer {A} (r : exn + A) : M A :=
  match r with
  | inl e => raise e
  | inr a => ret a
  end.

(** [try: body  except Exception as e: handler(e)].  Exceptions outside
    the [Exception] hierarchy pass through, and so does a body that
    does not finish. *)
Definition try_except {A} (body : M A) (handler : exn -> M A) : M A :=
  fun s =>
    match body s with
    | (Raise e, s') => if is_Exception e then handler e s' else (Raise e, s')
    | r => r
    end.

(** [when c: body] *)
Definition when (c : bool) (body : M unit) : M unit :=
  if c then body else ret ().

Definition get_session : M session_state := fun s => (Ok (session s), s).

Definition put_session (ss : session_state) : M unit :=
  fun s => (Ok (), State ss (log s)).

(** [name in st.session_state] *)
Definition session_contains (name : string) : M bool :=
  do ss <- get_session; ret (bool_decide (is_Some (attrs ss !! name))).

(** [st.session_state.name = value] *)
Definition session_set (name : string) (v : attr_val) : M unit :=
  do ss <- get_session;
  put_session (Session (heap ss) (<[name := v]> (attrs ss))).

(** A new dict object at an address that is not in use. *)
Definition alloc_dict (d : dict) : M loc :=
  do ss <- get_session;
  let l := fresh (dom (heap ss)) in
  put_session (Session (<[l := d]> (heap ss)) (attrs ss));;
  ret l.

(** [st.session_state.name], expected to be a dict object: the
    reference it holds. *)
Definition session_ref (name : string) : M loc :=
  do ss <- get_session;
  match attrs ss !! name with
  | Some (ARef l) => ret l
  | Some (ABytes _) =>
      raise (Exn AttributeError "'bytes' object has no such attribute")
  | None =>
      raise (Exn AttributeError
               ("st.session_state has no attribute " +:+ repr_str name))
  end.

(** The dict object behind a reference. *)
Definition deref (l : loc) : M dict :=
  do ss <- get_session;
  match heap ss !! l with
  | Some d => ret d
  | None => raise (Exn OtherException "dangling reference")
  end.

(** [st.session_state.name] read as a dict value. *)
Definition session_dict (name : string) : M dict :=
  do l <- session_ref name; deref l.

(** [st.session_state.name.update(other)] *)
Definition session_update (name : string) (other : dict) : M unit :=
  do l <- session_ref name;
  do d <- deref l;
  do ss <- get_session;
  put_session (Session (<[l := dict_update d other]> (heap ss)) (attrs ss)).

(** ** The program *)

Section Program.

Variable W : world.

(** *** Library calls *)

Definition os_getenv (name : string) : M (option string) :=
  emit (EvGetenv name);; ret (os_environ W !! name).

(** [name in st.secrets]: the store is read first, which raises when
    it cannot be read. *)
Definition secrets_contains (name : string) : M bool :=
  emit (EvSecretsContains name);;
  match st_secrets W with
  | inl e => raise e
  | inr secrets => ret (bool_decide (is_Some (secrets !! name)))
  end.

(** [st.secrets[name]] *)
Definition secrets_getitem (name : string) : M pyval :=
  emit (EvSecretsGet name);;
  match st_secrets W with
  | inl e => raise e
  | inr secrets => lift (getitem secrets name)
  end.

Definition ui (c : ui_call) : M unit :=
  emit (EvUi c);;
  match ui_answer W c with
  | Some e => raise e
  | None => ret ()
  end.

(** [st.stop()] ends the script run by raising a script control
    exception, which is not an [Exception]. *)
Definition st_stop {A} : M A :=
  emit EvStop;; raise (Exn BaseOnly "StopException").

Definition chat_completions_create (r : chat_request) : M chat_response :=
  emit (EvChat r);; of_answer (chat_answer W r).

Definition pio_to_image (fig : figure) (format : string) (width height scale : Z)
  : M bytes :=
  emit (EvToImage fig format width height scale);; of_answer (to_image_answer W fig).

(** [doc.build(story)] on a [SimpleDocTemplate] over a fresh buffer; the
    result is the content of the buffer. *)
Definition doc_build (size : pagesize) (margin : Z) (story : list flowable)
  : M bytes :=
  emit (EvBuild size margin story);; of_answer (build_answer W story).

(** [px.bar(df, barmode=..., title=...)].  A frame of integers is
    plotted.  Other data (strings, [None], lists, mixed columns) Plotly
    Express may refuse with an exception: the world says whether it
    does. *)
Definition px_bar (df : dataframe) (barmode title : string) : outcome figure :=
  let fig := Bar df barmode title in
  if numeric df then Ok fig
  else match px_bar_answer W fig with
       | Some e => Raise e
       | None => Ok fig
       end.

(** [Paragraph(text, styles[style])].  ReportLab parses the text as
    markup when the paragraph is made, not when the document is built.
    Text without [<] and [&] holds nothing to parse and is accepted.
    Other text may be refused with an exception (an unclosed tag, for
    instance): the world says whether it is. *)
Definition paragraph (text style : string) : outcome flowable :=
  if plain_text text then Ok (Paragraph text style)
  else match paragraph_answer W text style with
       | Some e => Raise e
       | None => Ok (Paragraph text style)
       end.

(** *** [create_comparison_charts] *)

(** The two dict literals are evaluated first, then the two frames are
    made, then the two figures. *)
Definition create_comparison_charts (before_data after_data : dict)
  : outcome (figure * figure) :=
  physical ← physical_metrics before_data after_data;
  mental ← mental_metrics before_data after_data;
  let physical_df := Transpose (DataFrame physical ["Before"; "After"]) in
  let mental_df := Transpose (DataFrame mental ["Before"; "After"]) in
  fig1 ← px_bar physical_df "group" "Physical Metrics Comparison";
  fig2 ← px_bar mental_df "group" "Mental & Emotional Metrics Comparison";
  mret (fig1, fig2).

(** *** [get_groq_client] *)

Record groq_client := Groq { api_key : pyval }.

Definition key_not_found_message : string :=
  nl +:+
  "            Groq API key not found. Please set it up:" +:+ nl +:+
  "            1. Local development: Set GROQ_API_KEY environment variable" +:+ nl +:+
  "            2. Streamlit Cloud: Add GROQ_API_KEY to your app secrets" +:+ nl +:+
  "            ".

Definition get_groq_client : M groq_client :=
  do env <- os_getenv "GROQ_API_KEY";
  let api_key := match env with Some s => PStr s | None => PNone end in
  do in_secrets <- (if negb (truthy api_key)
                    then secrets_contains "GROQ_API_KEY"
                    else ret false);
  do api_key <- (if in_secrets
                 then secrets_getitem "GROQ_API_KEY"
                 else ret api_key);
  when (negb (truthy api_key))
       (ui (st_error key_not_found_message);; st_stop);;
  ret (Groq api_key).

(** The module-level initialisation of the client. *)
Definition init_groq_client : M groq_client :=
  try_except get_groq_client
    (fun e => ui (st_error ("Failed to initialize Groq client: " +:+ exn_msg e));;
              st_stop).

(** *** [initialize_session_state] *)

Definition default_data : dict :=
  list_to_map
    [ ("flexibility", PInt 0); ("strength", PInt 0); ("balance", PInt 0);
      ("pain", PInt 0); ("posture", PInt 0); ("breathing", PInt 0);
      ("spine", PInt 0); ("hips", PInt 0); ("shoulders", PInt 0);
      ("core", PInt 0); ("stress", PInt 0); ("energy", PInt 0);
      ("focus", PInt 0); ("sleep", PInt 0); ("anxiety", PInt 0);
      ("mood", PInt 0); ("mindfulness", PInt 0); ("notes", PStr "");
      ("limitations", PStr ""); ("symptoms", PStr "") ].

Definition default_client_info : dict :=
  list_to_map
    [ ("name", PStr ""); ("age", PInt 0); ("medical_history", PStr "");
      ("current_medications", PStr ""); ("previous_yoga_experience", PStr "");
      ("primary_goals", PList []); ("specific_concerns", PStr "");
      ("occupation", PStr ""); ("work_activity_level", PStr "");
      ("stress_sources", PList []); ("exercise_routine", PStr "");
      ("sleep_hours", PInt 7); ("diet_type", PStr "") ].

(** [d.copy()] makes a new object with the same items. *)
Definition init_attr (name : string) (d : dict) : M unit :=
  do present <- session_contains name;
  when (negb present) (do l <- alloc_dict d; session_set name (ARef l)).

Definition initialize_session_state : M unit :=
  init_attr "before_data" default_data;;
  init_attr "after_data" default_data;;
  init_attr "client_info" default_client_info.

(** *** [generate_analysis] and [generate_dietary_plan] *)

(** [l[0]] *)
Definition first_item {A} (l : list A) : outcome A :=
  match l with
  | x :: _ => Ok x
  | [] => Raise (Exn IndexError "list index out of range")
  end.

Definition generate_analysis (before_data after_data client_info : dict) : M string :=
  do prompt <- lift (analysis_prompt before_data after_data client_info);
  do response <- chat_completions_create
                   {| messages := [ChatMessage "user" prompt];
                      model := "meta-llama/llama-4-maverick-17b-128e-instruct";
                      temperature := 7 # 10;
                      max_tokens := 3000;
                      top_p := 95 # 100;
                      stream := false |};
  do choice <- lift (first_item (choices response));
  ret (content (message choice)).

Definition generate_dietary_plan (client_info before_data after_data : dict) : M string :=
  do prompt <- lift (dietary_prompt client_info before_data after_data);
  do response <- chat_completions_create
                   {| messages := [ChatMessage "user" prompt];
                      model := "meta-llama/llama-4-maverick-17b-128e-instruct";
                      temperature := 7 # 10;
                      max_tokens := 3000;
                      top_p := 95 # 100;
                      stream := false |};
  do choice <- lift (first_item (choices response));
  ret (content (message choice)).

(** *** [create_pdf] *)

Definition summary_header : list string := ["Metric"; "Before"; "After"; "Change"].

(** One row of a summary table as the source writes it:
    [[label, f"{before_data[k]}/10", f"{after_data[k]}/10",
      f"{after_data[k] - before_data[k]:+d}"]]. *)
Definition summary_row (label k : string) (before_data after_data : dict)
  : outcome (list string) :=
  b ← getitem before_data k;
  a ← getitem after_data k;
  a' ← getitem after_data k;
  b' ← getitem before_data k;
  change ← py_sub a' b';
  mret [label; py_str b +:+ "/10"; py_str a +:+ "/10"; format_plus_d change].

Definition physical_data (before_data after_data : dict) : outcome (list (list string)) :=
  r1 ← summary_row "Flexibility" "flexibility" before_data after_data;
  r2 ← summary_row "Strength" "strength" before_data after_data;
  r3 ← summary_row "Balance" "balance" before_data after_data;
  r4 ← summary_row "Posture" "posture" before_data after_data;
  r5 ← summary_row "Core Strength" "core" before_data after_data;
  mret [summary_header; r1; r2; r3; r4; r5].

Definition mental_data (before_data after_data : dict) : outcome (list (list string)) :=
  r1 ← summary_row "Stress" "stress" before_data after_data;
  r2 ← summary_row "Energy" "energy" before_data after_data;
  r3 ← summary_row "Focus" "focus" before_data after_data;
  r4 ← summary_row "Sleep" "sleep" before_data after_data;
  r5 ← summary_row "Mindfulness" "mindfulness" before_data after_data;
  mret [summary_header; r1; r2; r3; r4; r5].

(** The flowables of one section of the analysis text.  ([isdigit] is
    the ASCII case of [str.isdigit].)  The paragraphs are made in the
    order of the source, so the heading is parsed before the content. *)
Definition section_flowables (section : string) : outcome (list flowable) :=
  match strip section with
  | "" => Ok []
  | String c _ as stripped =>
      if isdigit c && py_in ". " section then
        match split_once (ascii_of_nat 10) section with
        | [header; content] =>
            heading ← paragraph (strip header) "CustomHeading2";
            body ← paragraph (strip content) "CustomBody";
            mret [heading; body; Spacer 1 10]
        | _ => Raise (Exn ValueError "not enough values to unpack (expected 2, got 1)")
        end
      else
        body ← paragraph stripped "CustomBody";
        mret [body; Spacer 1 10]
  end.

Fixpoint analysis_flowables (sections : list string) : outcome (list flowable) :=
  match sections with
  | [] => Ok []
  | section :: rest =>
      fs ← section_flowables section;
      gs ← analysis_flowables rest;
      mret (fs ++ gs)
  end.

(** The body of the loop over the two charts.  The two titles are
    literals of the program without a tag, which the parser takes as
    they stand; so are the other paragraphs of fixed text below, which
    are written with the constructor. *)
Definition chart_flowables (fig : figure) (title : string) : M (list flowable) :=
  do img_bytes <- pio_to_image fig "png" 800 400 2;
  ret [ Paragraph title "CustomBody"; Image img_bytes 4 7; Spacer 1 20 ].

(** The three custom paragraph styles are added to a style sheet that
    [getSampleStyleSheet] has just made, so the guarded [styles.add]
    calls succeed; a style appears in the story as its name. *)
Definition create_pdf (client_info : dict) (analysis : string)
    (before_data after_data : dict) (fig1 fig2 : figure) : M bytes :=
  do name <- lift (getitem client_info "name");
  do for_name <- lift (paragraph ("for " +:+ py_str name) "CustomTitle");
  let title_page :=
    [ Paragraph "Yoga Progress Report" "CustomTitle";
      for_name;
      Spacer 1 30 ] in
  let date := now_strftime W "%B %d, %Y" in
  do assessment_date <- lift (paragraph ("Assessment Date: " +:+ date) "CustomBody");
  do experience <- lift (getitem client_info "previous_yoga_experience");
  do experience_level <-
    lift (paragraph ("Experience Level: " +:+ py_str experience) "CustomBody");
  let details :=
    [ assessment_date;
      experience_level;
      Spacer 1 30;
      Paragraph "Progress Visualization" "CustomHeading2";
      Spacer 1 10 ] in
  do chart1 <- chart_flowables fig1 "Physical Metrics Comparison";
  do chart2 <- chart_flowables fig2 "Mental & Emotional Metrics Comparison";
  do physical <- lift (physical_data before_data after_data);
  do mental <- lift (mental_data before_data after_data);
  let tables :=
    [ Paragraph "Progress Summary" "CustomHeading2";
      Table physical [120; 80; 80; 80] SummaryTableStyle;
      Spacer 1 20;
      Table mental [120; 80; 80; 80] SummaryTableStyle;
      Spacer 1 30;
      Paragraph "Detailed Progress Analysis" "CustomHeading2";
      Spacer 1 10 ] in
  do sections <- lift (analysis_flowables (split_blank analysis));
  doc_build Letter 50
    (title_page ++ details ++ chart1 ++ chart2 ++ tables ++ sections).

(** *** [create_diet_pdf] *)

Definition day_names : list string :=
  ["Monday"; "Tuesday"; "Wednesday"; "Thursday"; "Friday"; "Saturday"; "Sunday"].

Definition meal_names : list string :=
  ["Breakfast"; "Morning Snack"; "Lunch"; "Afternoon Snack"; "Dinner"].

Definition nutrient_prefixes : list string :=
  ["Calories:"; "Protein:"; "Carbs:"; "Fat:"].

Definition meal_header : list string :=
  ["Meal Time"; "Details"; "Nutrients"; "Prep Time"].

(** The variables of the parse loop. *)
Record parse_state := ParseState {
  idx : nat;                                  (* i *)
  current_day : option string;
  meal_data : option (list (list string));
  story : list flowable
}.

(** [if meal_data and len(meal_data) > 1:] append the table of the day;
    [gap] tells whether a spacer follows (it does inside the loop). *)
Definition flush_table (meal_data : option (list (list string))) (gap : bool)
  : list flowable :=
  match meal_data with
  | Some rows =>
      if (1 <? length rows)%nat
      then Table rows [120; 300; 200; 80] MealTableStyle
             :: (if gap then [Spacer 1 15] else [])
      else []
  | None => []
  end.

(** The inner [while] loop that collects the lines of one meal.  [rest]
    is [lines[i:]], [n] is [len(lines)]. *)
Fixpoint collect_meal (n : nat) (rest : list string) (i : nat)
    (details nutrients : list string) (prep_time : string)
  : outcome (nat * list string * list string * string) :=
  match rest with
  | [] => Ok (i, details, nutrients, prep_time)
  | raw :: rest' =>
      if any_in meal_names raw then Ok (i, details, nutrients, prep_time)
      else
        let line := strip raw in
        r ← (if startswith "Main:" line || startswith "Alternative:" line
             then Ok (details ++ [line], nutrients, prep_time)
             else if existsb (fun p => startswith p line) nutrient_prefixes
             then Ok (details, nutrients ++ [line], prep_time)
             else if startswith "Prep Time:" line
             then match split_on ":" line !! 1%nat with
                  | Some t => Ok (details, nutrients, strip t)
                  | None => Raise (Exn IndexError "list index out of range")
                  end
             else Ok (details, nutrients, prep_time));
        let '(details, nutrients, prep_time) := r in
        let i := S i in
        if (n <=? i)%nat || negb (truthy (PStr line))
        then Ok (i, details, nutrients, prep_time)
        else collect_meal n rest' i details nutrients prep_time
  end.

(** One turn of the outer [while] loop, entered with [i < len(lines)]. *)
Definition loop_body (lines : list string) (st : parse_state) : outcome parse_state :=
  match lines !! idx st with
  | None => Raise (Exn IndexError "list index out of range")
  | Some raw =>
      let line := strip raw in
      if negb (truthy (PStr line)) then
        Ok (ParseState (S (idx st)) (current_day st) (meal_data st) (story st))
      else if any_in day_names line then
        day_header ← paragraph line "CustomDayHeader";
        mret (ParseState (S (idx st)) (Some line) (Some [meal_header])
                (story st ++ flush_table (meal_data st) true ++ [day_header]))
      else if any_in meal_names line then
        let meal_time := line in
        r ← collect_meal (length lines) (drop (idx st) lines) (idx st) [] [] "";
        let '(i, details, nutrients, prep_time) := r in
        if truthy (PList details) && truthy (PList nutrients) then
          match meal_data st with
          | Some rows =>
              Ok (ParseState i (current_day st)
                    (Some (rows ++ [[meal_time; join nl details;
                                     join nl nutrients; prep_time]]))
                    (story st))
          | None =>
              Raise (Exn AttributeError
                       "'NoneType' object has no attribute 'append'")
          end
        else Ok (ParseState i (current_day st) (meal_data st) (story st))
      else
        Ok (ParseState (S (idx st)) (current_day st) (meal_data st) (story st))
  end.

(** The outer [while i < len(lines)] loop.  Each turn costs one unit of
    [fuel]; the loop is left as soon as its condition fails. *)
Fixpoint parse_loop (fuel : nat) (lines : list string) (st : parse_state)
  : outcome parse_state :=
  if (idx st <? length lines)%nat then
    match fuel with
    | O => OutOfFuel
    | S fuel' => st' ← loop_body lines st; parse_loop fuel' lines st'
    end
  else Ok st.

(** The client profile table.  ReportLab draws a cell that is not a
    flowable as its [str]. *)
Definition profile_data (client_info : dict) : outcome (list (list string)) :=
  height ← getitem client_info "height";
  weight ← getitem client_info "weight";
  restrictions ← getitem client_info "dietary_restrictions";
  restrictions ← py_join ", " restrictions;
  goals ← getitem client_info "health_goals";
  goals ← py_join ", " goals;
  allergies ← getitem client_info "food_allergies";
  mret [ ["Client Profile"; ""];
         ["Height"; py_str height +:+ " cm"];
         ["Weight"; py_str weight +:+ " kg"];
         ["Dietary Restrictions"; restrictions];
         ["Health Goals"; goals];
         ["Food Allergies"; py_str allergies] ].

Definition create_diet_pdf (fuel : nat) (client_info : dict) (dietary_plan : string)
  : M bytes :=
  do name <- lift (getitem client_info "name");
  do for_name <- lift (paragraph ("for " +:+ py_str name) "CustomTitle");
  do profile <- lift (profile_data client_info);
  let story0 :=
    [ Paragraph "7-Day Meal Plan" "CustomTitle";
      for_name;
      Spacer 1 20;
      Table profile [200; 300] ProfileTableStyle;
      Spacer 1 30 ] in
  let lines := split_on (ascii_of_nat 10) dietary_plan in
  do st <- lift (parse_loop fuel lines (ParseState 0 None None story0));
  doc_build LandscapeLetter 30 (story st ++ flush_table (meal_data st) false).

(** *** [main]: the widgets and the four button handlers *)

(** The values of the widgets of the Before tab. *)
Record before_form := BeforeForm {
  before_flexibility : Z; before_strength : Z; before_balance : Z;
  before_pain : Z; before_posture : Z; before_breathing : Z;
  before_spine : Z; before_hips : Z; before_shoulders : Z;
  before_core : Z; before_stress : Z; before_energy : Z;
  before_focus : Z; before_sleep : Z; before_anxiety : Z;
  before_mood : Z; before_mindfulness : Z;
  before_notes : string; before_limitations : string; before_symptoms : string
}.

(** The values of the widgets of the After tab. *)
Record after_form := AfterForm {
  after_flexibility : Z; after_strength : Z; after_balance : Z;
  after_pain : Z; after_posture : Z; after_breathing : Z;
  after_spine : Z; after_hips : Z; after_shoulders : Z;
  after_core : Z; after_stress : Z; after_energy : Z;
  after_focus : Z; after_sleep : Z; after_anxiety : Z;
  after_mood : Z; after_mindfulness : Z;
  after_notes : string
}.

(** The values of the widgets of the Diet Plan tab. *)
Record diet_form := DietForm {
  height : Z; weight : Z; target_weight : Z; meal_prep_time : Z;
  dietary_restrictions : list string; food_allergies : string;
  preferred_cuisine : list string;
  medical_conditions : string; digestive_issues : string;
  health_goals : list string; nutritional_needs : string
}.

(** The dict literal passed to [before_data.update]. *)
Definition before_update (f : before_form) : dict :=
  list_to_map
    [ ("flexibility", PInt (before_flexibility f));
      ("strength", PInt (before_strength f));
      ("balance", PInt (before_balance f));
      ("pain", PInt (before_pain f));
      ("posture", PInt (before_posture f));
      ("breathing", PInt (before_breathing f));
      ("spine", PInt (before_spine f));
      ("hips", PInt (before_hips f));
      ("shoulders", PInt (before_shoulders f));
      ("core", PInt (before_core f));
      ("stress", PInt (before_stress f));
      ("energy", PInt (before_energy f));
      ("focus", PInt (before_focus f));
      ("sleep", PInt (before_sleep f));
      ("anxiety", PInt (before_anxiety f));
      ("mood", PInt (before_mood f));
      ("mindfulness", PInt (before_mindfulness f));
      ("notes", PStr (before_notes f));
      ("limitations", PStr (before_limitations f));
      ("symptoms", PStr (before_symptoms f)) ].

(** The dict literal passed to [after_data.update]. *)
Definition after_update (f : after_form) : dict :=
  list_to_map
    [ ("flexibility", PInt (after_flexibility f));
      ("strength", PInt (after_strength f));
      ("balance", PInt (after_balance f));
      ("pain", PInt (after_pain f));
      ("posture", PInt (after_posture f));
      ("breathing", PInt (after_breathing f));
      ("spine", PInt (after_spine f));
      ("hips", PInt (after_hips f));
      ("shoulders", PInt (after_shoulders f));
      ("core", PInt (after_core f));
      ("stress", PInt (after_stress f));
      ("energy", PInt (after_energy f));
      ("focus", PInt (after_focus f));
      ("sleep", PInt (after_sleep f));
      ("anxiety", PInt (after_anxiety f));
      ("mood", PInt (after_mood f));
      ("mindfulness", PInt (after_mindfulness f));
      ("notes", PStr (after_notes f)) ].

(** The body of [if st.button("Save Before Assessment"):]. *)
Definition save_before_assessment (f : before_form) : M unit :=
  session_update "before_data" (before_update f);;
  ui (st_success "Before assessment saved!").

(** The body of [if st.button("Save After Assessment"):]. *)
Definition save_after_assessment (f : after_form) : M unit :=
  session_update "after_data" (after_update f);;
  ui (st_success "After assessment saved!").

Definition incomplete_message : string :=
  "Please complete and save both before and after assessments first!".

(** The [try] block of the Generate Analysis handler. *)
Definition analysis_body (client_info : dict) : M unit :=
  ui (st_spinner "Generating your progress report...");;
  do before_data <- session_dict "before_data";
  do after_data <- session_dict "after_data";
  do figs <- lift (create_comparison_charts before_data after_data);
  let '(fig1, fig2) := figs in
  ui (st_plotly_chart fig1);;
  ui (st_plotly_chart fig2);;
  do before_data <- session_dict "before_data";
  do after_data <- session_dict "after_data";
  do analysis <- generate_analysis before_data after_data client_info;
  ui (st_subheader "Your Progress Journey");;
  ui (st_write analysis);;
  do before_data <- session_dict "before_data";
  do after_data <- session_dict "after_data";
  do progress_pdf <- create_pdf client_info analysis before_data after_data fig1 fig2;
  session_set "progress_pdf" (ABytes progress_pdf);;
  ui (st_markdown "### 📥 Download Your Progress Report");;
  do name <- lift (getitem client_info "name");
  ui (st_download_button
        "Download Complete Progress Report (PDF)"
        progress_pdf
        ("yoga_progress_report_" +:+ py_str name +:+ "_"
           +:+ now_strftime W "%Y%m%d" +:+ ".pdf")
        "application/pdf"
        "Click to download your detailed progress report including charts and analysis").

(** The body of [if st.button("Generate Analysis"):].  The test uses
    [and], so the after record is read only when the before record fails
    the test. *)
Definition generate_analysis_clicked (client_info : dict) : M unit :=
  do before_data <- session_dict "before_data";
  do incomplete <-
    (if negb (truthy (dict_get before_data "flexibility"))
     then do after_data <- session_dict "after_data";
          ret (negb (truthy (dict_get after_data "flexibility")))
     else ret false);
  if incomplete
  then ui (st_error incomplete_message)
  else try_except (analysis_body client_info)
         (fun e => ui (st_error ("An error occurred: " +:+ exn_msg e))).

(** The [try] block of the diet plan handler. *)
Definition diet_body (fuel : nat) (client_info : dict) : M unit :=
  do before_data <- session_dict "before_data";
  do after_data <- session_dict "after_data";
  do dietary_plan <- generate_dietary_plan client_info before_data after_data;
  ui (st_markdown "### Your Personalized Diet Plan");;
  ui (st_write dietary_plan);;
  do diet_pdf <- create_diet_pdf fuel client_info dietary_plan;
  session_set "diet_pdf" (ABytes diet_pdf);;
  do name <- lift (getitem client_info "name");
  ui (st_download_button
        "📥 Download Diet Plan (PDF)"
        diet_pdf
        ("diet_plan_" +:+ py_str name +:+ "_"
           +:+ now_strftime W "%Y%m%d" +:+ ".pdf")
        "application/pdf"
        "Click to download your personalized diet plan").

(** The body of [if st.button("Generate Personalized Diet Plan"):]. *)
Definition generate_diet_plan_clicked (fuel : nat) (client_info : dict) : M unit :=
  try_except (diet_body fuel client_info)
    (fun e => ui (st_error ("An error occurred while generating the diet plan: "
                              +:+ exn_msg e))).

(** The local [client_info] of [main] as first written. *)
Definition main_client_info : dict :=
  list_to_map
    [ ("name", PStr ""); ("age", PInt 0); ("occupation", PStr "");
      ("previous_yoga_experience", PStr ""); ("primary_goals", PList []);
      ("specific_concerns", PStr ""); ("work_activity_level", PStr "");
      ("stress_sources", PList []); ("exercise_routine", PStr "");
      ("sleep_hours", PInt 7); ("diet_type", PStr "");
      ("current_medications", PStr ""); ("height", PInt 170);
      ("weight", PInt 70); ("target_weight", PInt 70);
      ("dietary_restrictions", PList []); ("food_allergies", PStr "");
      ("preferred_cuisine", PList []); ("meal_prep_time", PInt 30);
      ("medical_conditions", PStr ""); ("digestive_issues", PStr "");
      ("health_goals", PList []); ("nutritional_needs", PStr "") ].

(** [client_info] after the assignments of the Diet Plan tab. *)
Definition diet_client_info (f : diet_form) : dict :=
  <["nutritional_needs" := PStr (nutritional_needs f)]>
  (<["health_goals" := PList (health_goals f)]>
  (<["digestive_issues" := PStr (digestive_issues f)]>
  (<["medical_conditions" := PStr (medical_conditions f)]>
  (<["preferred_cuisine" := PList (preferred_cuisine f)]>
  (<["food_allergies" := PStr (food_allergies f)]>
  (<["dietary_restrictions" := PList (dietary_restrictions f)]>
  (<["meal_prep_time" := PInt (meal_prep_time f)]>
  (<["target_weight" := PInt (target_weight f)]>
  (<["weight" := PInt (weight f)]>
  (<["height" := PInt (height f)]> main_client_info)))))))))).

(** The button that was clicked in this run of the script, if any. *)
Inductive click :=
| NoClick
| SaveBeforeAssessment
| SaveAfterAssessment
| GenerateAnalysis
| GeneratePersonalizedDietPlan.

(** One run of [main].  The layout calls that only draw the page are
    left out; the widgets are read as the three forms, and at most one
    button reports a click in a run.  The Analysis tab
    runs before the Diet Plan tab assigns its widgets to [client_info]. *)
Definition main (fuel : nat) (fb : before_form) (fa : after_form) (fd : diet_form)
    (c : click) : M unit :=
  initialize_session_state;;
  match c with
  | NoClick => ret ()
  | SaveBeforeAssessment => save_before_assessment fb
  | SaveAfterAssessment => save_after_assessment fa
  | GenerateAnalysis => generate_analysis_clicked main_client_info
  | GeneratePersonalizedDietPlan =>
      generate_diet_plan_clicked fuel (diet_client_info fd)
  end.

End Program.

(** The session of a browser tab that has just been opened. *)
Definition empty_session : session_state := Session ∅ ∅.

Definition initial_state : state := State empty_session [].

(** The dict object that a session attribute names, if it names one. *)
Definition session_lookup (ss : session_state) (name : string) : option dict :=
  match attrs ss !! name with
  | Some (ARef l) => heap ss !! l
  | _ => None
  end.

(** The three records are present, allocated, and pairwise distinct
    objects. *)
Definition records_separate (ss : session_state) : bool :=
  match attrs ss !! "before_data", attrs ss !! "after_data",
        attrs ss !! "client_info" with
  | Some (ARef lb), Some (ARef la), Some (ARef lc) =>
      bool_decide (lb ≠ la) && bool_decide (lb ≠ lc) && bool_decide (la ≠ lc)
      && bool_decide (is_Some (heap ss !! lb))
      && bool_decide (is_Some (heap ss !! la))
      && bool_decide (is_Some (heap ss !! lc))
  | _, _, _ => false
  end.

(** ** Vocabulary of the statements *)

(** The score fields of an assessment record, and the labels under
    which the charts show them. *)
Definition physical_fields : list string :=
  ["flexibility"; "strength"; "balance"; "pain"; "posture"; "breathing";
   "spine"; "hips"; "shoulders"; "core"].

Definition mental_fields : list string :=
  ["stress"; "energy"; "focus"; "sleep"; "anxiety"; "mood"; "mindfulness"].

Definition physical_labels : list string :=
  ["Flexibility"; "Strength"; "Balance"; "Pain Level"; "Posture"; "Breathing";
   "Spine"; "Hips"; "Shoulders"; "Core"].

Definition mental_labels : list string :=
  ["Stress"; "Energy"; "Focus"; "Sleep"; "Anxiety"; "Mood"; "Mindfulness"].

(** A record holds a value under every key of [ks]. *)
Definition has_keys (ks : list string) (d : dict) : Prop :=
  Forall (fun k => is_Some (d !! k)) ks.

(** Two records agree on the keys of [ks]. *)
Definition agree_on (ks : list string) (d d' : dict) : Prop :=
  Forall (fun k => d !! k = d' !! k) ks.

(** The keys that the prompt of [generate_analysis] reads from the
    client profile and from each assessment record. *)
Definition analysis_client_keys : list string :=
  ["name"; "age"; "occupation"; "previous_yoga_experience"; "primary_goals";
   "work_activity_level"; "exercise_routine"; "sleep_hours"; "diet_type";
   "stress_sources"].

Definition analysis_before_keys : list string :=
  physical_fields ++ mental_fields ++ ["limitations"; "symptoms"; "notes"].

Definition analysis_after_keys : list string :=
  physical_fields ++ mental_fields ++ ["notes"].

(** The keys that the prompt of [generate_dietary_plan] reads. *)
Definition dietary_client_keys : list string :=
  ["name"; "height"; "weight"; "dietary_restrictions"; "health_goals";
   "food_allergies"; "exercise_routine"].

(** The value under [k] can be joined: it is a list of strings or a
    string. *)
Definition joinable (d : dict) (k : string) : Prop :=
  match d !! k with
  | Some (PList _) | Some (PStr _) => True
  | _ => False
  end.

(** The request that both generation functions send for a prompt. *)
Definition fixed_request (prompt : string) : chat_request :=
  {| messages := [ChatMessage "user" prompt];
     model := "meta-llama/llama-4-maverick-17b-128e-instruct";
     temperature := 7 # 10;
     max_tokens := 3000;
     top_p := 95 # 100;
     stream := false |}.

(** The records passed to [generate_analysis] hold every field that its
    prompt formats, and the two joined fields can be joined. *)
Definition analysis_inputs_ok (before_data after_data client_info : dict) : Prop :=
  has_keys analysis_before_keys before_data /\
  has_keys analysis_after_keys after_data /\
  has_keys analysis_client_keys client_info /\
  joinable client_info "primary_goals" /\
  joinable client_info "stress_sources".

(** The same for [generate_dietary_plan]. *)
Definition dietary_inputs_ok (client_info : dict) : Prop :=
  has_keys dietary_client_keys client_info /\
  joinable client_info "health_goals".

(** What a generation function returns once the service has answered
    request [r]. *)
Definition first_choice_content (W : world) (r : chat_request) : outcome string :=
  match chat_answer W r with
  | inl e => Raise e
  | inr response =>
      match choices response with
      | c :: _ => Ok (content (message c))
      | [] => Raise (Exn IndexError "list index out of range")
      end
  end.

(** The events that a run of [c] from state [s] adds to the log. *)
Definition new_events {A} (c : M A) (s : state) : list event :=
  drop (length (log s)) (log (c s).2).

Definition is_table (f : flowable) : bool :=
  match f with
  | Table _ _ _ => true
  | _ => false
  end.

(** The metrics listed in the two summary tables of the progress
    report, as label and record key. *)
Definition summary_physical : list (string * string) :=
  [ ("Flexibility", "flexibility"); ("Strength", "strength");
    ("Balance", "balance"); ("Posture", "posture"); ("Core Strength", "core") ].

Definition summary_mental : list (string * string) :=
  [ ("Stress", "stress"); ("Energy", "energy"); ("Focus", "focus");
    ("Sleep", "sleep"); ("Mindfulness", "mindfulness") ].

(** Every key of [ks] holds an integer. *)
Definition int_scores (ks : list string) (d : dict) : Prop :=
  Forall (fun k => exists n, d !! k = Some (PInt n)) ks.

(** The integer under [k], 0 when there is none. *)
Definition score (d : dict) (k : string) : Z :=
  match d !! k with
  | Some (PInt n) => n
  | _ => 0
  end.

(** The first three cells of the row of a listed metric: its label and
    its two values out of ten. *)
Definition value_cells (before_data after_data : dict) (m : string * string)
  : list string :=
  [ m.1; pretty (score before_data m.2) +:+ "/10";
    pretty (score after_data m.2) +:+ "/10" ].

(** A difference written with its sign and the decimal digits of its
    absolute value. *)
Definition signed_decimal (n : Z) : string :=
  (if 0 <=? n then "+" else "-") +:+ pretty (Z.abs_N n).

(** The whole row of a listed metric as [create_pdf] writes it. *)
Definition full_row (before_data after_data : dict) (m : string * string) : list string :=
  value_cells before_data after_data m
  ++ [format_plus_d (score after_data m.2 - score before_data m.2)].

(** A line of the plan that names a meal and no day, once stripped. *)
Definition meal_line (raw : string) : bool :=
  let line := strip raw in
  truthy (PStr line) && negb (any_in day_names line) && any_in meal_names line.





Definition stop_exception : exn := Exn BaseOnly "StopException".


(** The keys that each save button writes. *)
Definition before_saved_keys : list string :=
  physical_fields ++ mental_fields ++ ["notes"; "limitations"; "symptoms"].

Definition after_saved_keys : list string :=
  physical_fields ++ mental_fields ++ ["notes"].

(** A computation only appends to the log, and every event it appends
    satisfies [P]. *)
Definition emits {A} (P : event -> Prop) (c : M A) : Prop :=
  forall s, exists evs, log (c s).2 = log s ++ evs /\ Forall P evs.

(** The test of the Generate Analysis handler on the two records. *)
Definition both_flexibility_falsy (before_data after_data : dict) : bool :=
  negb (truthy (dict_get before_data "flexibility"))
  && negb (truthy (dict_get after_data "flexibility")).

(** The [except] clauses of the two generation handlers. *)
Definition analysis_except (W : world) (e : exn) : M unit :=
  ui W (st_error ("An error occurred: " +:+ exn_msg e)).

Definition diet_except (W : world) (e : exn) : M unit :=
  ui W (st_error ("An error occurred while generating the diet plan: " +:+ exn_msg e)).

(** [st.error] itself returns in this world. *)
Definition error_box_works (W : world) : Prop :=
  forall msg, ui_answer W (st_error msg) = None.

(** No event of the [try] block of the analysis handler is an error
    box. *)
Definition not_error_box (ev : event) : Prop :=
  forall msg, ev <> EvUi (st_error msg).

(** The reading of the summary tables under which every score field
    has a row: ten rows after the header in the physical table and seven
    in the mental table. *)
Definition tables_list_every_metric (before_data after_data : dict) : Prop :=
  exists physical mental,
    physical_data before_data after_data = Ok physical /\
    mental_data before_data after_data = Ok mental /\
    length physical = S (length physical_fields) /\
    length mental = S (length mental_fields).


(** Every handler of the four buttons keeps every exception to itself. *)
Definition save_before_catches_all : Prop :=
  forall (W : world) (f : before_form) (s : state) (e : exn),
    (save_before_assessment W f s).1 <> Raise e.

(** ** Sample inputs *)

Definition sample_before_form : before_form :=
  BeforeForm 3 4 5 7 4 5 3 4 5 4 8 3 4 5 7 4 3
    "Stiff in the morning" "Lower back" "Occasional headaches".

Definition sample_after_form : after_form :=
  AfterForm 6 6 7 3 7 8 6 6 7 7 4 7 7 8 3 8 7 "Feels lighter".

(** The Diet Plan tab with every widget at its default. *)
Definition default_diet_form : diet_form :=
  DietForm 170 70 70 30 ["None"] "" ["Mediterranean"] "" "" ["Maintenance"] "".

(** The two records after both forms were saved over the defaults. *)
Definition sample_before : dict :=
  dict_update default_data (before_update sample_before_form).

Definition sample_after : dict :=
  dict_update default_data (after_update sample_after_form).

(** The session after [initialize_session_state] has run once: the
    three records are three objects. *)
Definition fresh_session : session_state :=
  Session (<[0%nat := default_data]> (<[1%nat := default_data]>
             (<[2%nat := default_client_info]> ∅)))
          (<["before_data" := ARef 0%nat]> (<["after_data" := ARef 1%nat]>
             (<["client_info" := ARef 2%nat]> ∅))).

(** A session in which both forms have been saved. *)
Definition saved_session : session_state :=
  Session (<[0%nat := sample_before]> (<[1%nat := sample_after]>
             (<[2%nat := default_client_info]> ∅)))
          (<["before_data" := ARef 0%nat]> (<["after_data" := ARef 1%nat]>
             (<["client_info" := ARef 2%nat]> ∅))).

(** The start of a meal plan in the format that the prompt asks for. *)
Definition sample_plan : string :=
  "Monday" +:+ nl +:+
  "Breakfast (7:00 AM)" +:+ nl +:+
  "Main: Oatmeal with berries (1 cup)" +:+ nl +:+
  "Alternative: Greek yogurt with honey" +:+ nl +:+
  "Calories: 350" +:+ nl +:+
  "Protein: 12g" +:+ nl +:+
  "Carbs: 55g" +:+ nl +:+
  "Fat: 8g" +:+ nl +:+
  "Prep Time: 10 mins".

(** A plan without any meal heading. *)
Definition plain_plan : string :=
  "Monday" +:+ nl +:+ "Eat well and drink water.".

(** A world in which every library call returns: the service answers
    each request with [sample_plan]. *)
Definition quiet_world : world :=
  {| os_environ := {[ "GROQ_API_KEY" := "gsk_test" ]};
     st_secrets := inr ∅;
     ui_answer := fun _ => None;
     chat_answer := fun _ =>
       inr (ChatResponse [ChatChoice (ChatMessage "assistant" sample_plan)]);
     px_bar_answer := fun _ => None;
     to_image_answer := fun _ => inr "PNG";
     paragraph_answer := fun _ _ => None;
     build_answer := fun _ => inr "%PDF";
     now_strftime := fun _ => "20240101" |}.

(** A world in which [st.success] raises and the service refuses every
    request; the other calls return as in [quiet_world]. *)
Definition failing_world : world :=
  {| os_environ := os_environ quiet_world;
     st_secrets := st_secrets quiet_world;
     ui_answer := fun c =>
       match c with
       | st_success _ => Some (Exn OtherException "connection lost")
       | _ => None
       end;
     chat_answer := fun _ => inl (Exn OtherException "rate limit");
     px_bar_answer := px_bar_answer quiet_world;
     to_image_answer := to_image_answer quiet_world;
     paragraph_answer := paragraph_answer quiet_world;
     build_answer := build_answer quiet_world;
     now_strftime := now_strftime quiet_world |}.

(** A world without a key in the environment, with one in the secrets. *)
Definition secrets_world : world :=
  {| os_environ := ∅;
     st_secrets := inr {[ "GROQ_API_KEY" := PStr "gsk_secret" ]};
     ui_answer := fun _ => None;
     chat_answer := chat_answer quiet_world;
     px_bar_answer := px_bar_answer quiet_world;
     to_image_answer := to_image_answer quiet_world;
     paragraph_answer := paragraph_answer quiet_world;
     build_answer := build_answer quiet_world;
     now_strftime := now_strftime quiet_world |}.

(** The exception of Streamlit when there is no secrets file. *)
Definition no_secrets_error : exn :=
  Exn OtherException "No secrets found. Valid paths for a secrets.toml file are missing.".

(** A world without a key in the environment and without a secrets
    file. *)
Definition no_secrets_world : world :=
  {| os_environ := ∅;
     st_secrets := inl no_secrets_error;
     ui_answer := fun _ => None;
     chat_answer := chat_answer quiet_world;
     px_bar_answer := px_bar_answer quiet_world;
     to_image_answer := to_image_answer quiet_world;
     paragraph_answer := paragraph_answer quiet_world;
     build_answer := build_answer quiet_world;
     now_strftime := now_strftime quiet_world |}.

(** The exception of the markup parser of ReportLab. *)
Definition markup_error : exn := Exn ValueError "xml parser error in paragraph".

(** A world like [quiet_world] whose libraries are strict: the markup
    parser refuses every text that holds [<] or [&], and Plotly Express
    refuses every frame that holds something else than integers. *)
Definition strict_world : world :=
  {| os_environ := os_environ quiet_world;
     st_secrets := st_secrets quiet_world;
     ui_answer := ui_answer quiet_world;
     chat_answer := chat_answer quiet_world;
     px_bar_answer := fun _ =>
       Some (Exn ValueError "Plotly Express cannot process wide-form data with columns of different type.");
     to_image_answer := to_image_answer quiet_world;
     paragraph_answer := fun _ _ => Some markup_error;
     build_answer := build_answer quiet_world;
     now_strftime := now_strftime quiet_world |}.
(** * Further properties: vocabulary and samples *)

(** Further sample inputs. *)
Definition empty_figure : figure := Bar (DataFrame [] []) "group" "".

(** An analysis text whose first heading is followed by a blank line. *)
Definition lone_heading_analysis : string :=
  "1. EXECUTIVE SUMMARY" +:+ nl +:+ nl +:+ "Good progress.".

(** An analysis text whose heading has its content on the next line. *)
Definition plain_analysis : string :=
  "Good progress." +:+ nl +:+ nl +:+ "1. SUMMARY" +:+ nl +:+ "Steady gains.".

(** An analysis text with a tag that is not closed. *)
Definition markup_analysis : string := "Flexibility is <b>much better".

(** A plan whose day heading has a tag that is not closed, followed by
    a meal line. *)
Definition markup_plan : string :=
  "Monday <b>menu" +:+ nl +:+ "Breakfast (7:00 AM)".

(** A world with strict libraries whose service answers every request
    with [text]. *)
Definition answering_world (text : string) : world :=
  {| os_environ := os_environ strict_world;
     st_secrets := st_secrets strict_world;
     ui_answer := ui_answer strict_world;
     chat_answer := fun _ =>
       inr (ChatResponse [ChatChoice (ChatMessage "assistant" text)]);
     px_bar_answer := px_bar_answer strict_world;
     to_image_answer := to_image_answer strict_world;
     paragraph_answer := paragraph_answer strict_world;
     build_answer := build_answer strict_world;
     now_strftime := now_strftime strict_world |}.

(** The summary tables and the profile table of the sample inputs. *)
Definition sample_physical_table : list (list string) :=
  [ ["Metric"; "Before"; "After"; "Change"];
    ["Flexibility"; "3/10"; "6/10"; "+3"];
    ["Strength"; "4/10"; "6/10"; "+2"];
    ["Balance"; "5/10"; "7/10"; "+2"];
    ["Posture"; "4/10"; "7/10"; "+3"];
    ["Core Strength"; "4/10"; "7/10"; "+3"] ].

(** The mental summary table of the samples. *)
Definition sample_mental_table : list (list string) :=
  [ ["Metric"; "Before"; "After"; "Change"];
    ["Stress"; "8/10"; "4/10"; "-4"];
    ["Energy"; "3/10"; "7/10"; "+4"];
    ["Focus"; "4/10"; "7/10"; "+3"];
    ["Sleep"; "5/10"; "8/10"; "+3"];
    ["Mindfulness"; "3/10"; "7/10"; "+4"] ].

(** The profile table of the default Diet Plan form. *)
Definition sample_profile : list (list string) :=
  [ ["Client Profile"; ""]; ["Height"; "170 cm"]; ["Weight"; "70 kg"];
    ["Dietary Restrictions"; "None"]; ["Health Goals"; "Maintenance"];
    ["Food Allergies"; ""] ].

(** The computation returned. *)
Definition is_ok {A} (o : outcome A) : Prop :=
  match o with Ok _ => True | _ => False end.

(** The exceptions of a subscript and of a join: [KeyError] for a key
    that is not there, [TypeError] for a value that cannot be joined. *)
Definition lookup_error (e : exn) : Prop :=
  exn_cls e = KeyError \/ exn_cls e = TypeError.

(** The text is in the ASCII range, on which [strip] and [isdigit] are
    [str.strip] and [str.isdigit] of Python. *)
Definition ascii_text (s : string) : Prop :=
  forallb (fun c => (nat_of_ascii c <? 128)%nat) (list_ascii_of_string s) = true.

(** A section of the analysis text that [create_pdf] takes for a
    numbered heading although it has no second line: it starts with a
    digit, holds a dot followed by a space, and holds no line feed. *)
Definition heading_alone (section : string) : bool :=
  match strip section with
  | "" => false
  | String c _ =>
      isdigit c && py_in ". " section && negb (has_char (ascii_of_nat 10) section)
  end.

(** What [header, content = section.split(...)] raises on a list of one
    item. *)
Definition unpack_error : exn :=
  Exn ValueError "not enough values to unpack (expected 2, got 1)".

(** The front matter and the tables of the progress report. *)
Definition report_front (W : world) (name experience : pyval) (png1 png2 : bytes)
    (physical mental : list (list string)) : list flowable :=
  [ Paragraph "Yoga Progress Report" "CustomTitle";
    Paragraph ("for " +:+ py_str name) "CustomTitle";
    Spacer 1 30;
    Paragraph ("Assessment Date: " +:+ now_strftime W "%B %d, %Y") "CustomBody";
    Paragraph ("Experience Level: " +:+ py_str experience) "CustomBody";
    Spacer 1 30;
    Paragraph "Progress Visualization" "CustomHeading2";
    Spacer 1 10;
    Paragraph "Physical Metrics Comparison" "CustomBody";
    Image png1 4 7; Spacer 1 20;
    Paragraph "Mental & Emotional Metrics Comparison" "CustomBody";
    Image png2 4 7; Spacer 1 20;
    Paragraph "Progress Summary" "CustomHeading2";
    Table physical [120; 80; 80; 80] SummaryTableStyle;
    Spacer 1 20;
    Table mental [120; 80; 80; 80] SummaryTableStyle;
    Spacer 1 30;
    Paragraph "Detailed Progress Analysis" "CustomHeading2";
    Spacer 1 10 ].

(** The paragraph that a line of the plan puts into the document: a day
    heading when the stripped line names a day, nothing otherwise. *)
Definition day_header_of (raw : string) : list flowable :=
  let line := strip raw in
  if truthy (PStr line) && any_in day_names line
  then [Paragraph line "CustomDayHeader"]
  else [].

Definition day_headers (lines : list string) : list flowable :=
  concat (day_header_of <$> lines).

(** [meal_data] holds no meal row. *)
Definition header_only (meal_data : option (list (list string))) : Prop :=
  meal_data = None \/ meal_data = Some [meal_header].

(** The title and the profile table of the diet plan document. *)
Definition diet_front (name : pyval) (profile : list (list string)) : list flowable :=
  [ Paragraph "7-Day Meal Plan" "CustomTitle";
    Paragraph ("for " +:+ py_str name) "CustomTitle";
    Spacer 1 20;
    Table profile [200; 300] ProfileTableStyle;
    Spacer 1 30 ].

(** The session attributes that [initialize_session_state] creates. *)
Definition record_names : list string := ["before_data"; "after_data"; "client_info"].

(** The default that [initialize_session_state] copies into a record. *)
Definition default_record (name : string) : dict :=
  if bool_decide (name = "client_info") then default_client_info else default_data.

(** What one [if name not in st.session_state] block may do to a
    session: nothing when [name] is there; otherwise it makes one new
    object holding [d] and points [name] to it. *)
Definition init_step (name : string) (d : dict) (ss ss' : session_state) : Prop :=
  (forall l x, heap ss !! l = Some x -> heap ss' !! l = Some x) /\
  (forall n, n <> name -> attrs ss' !! n = attrs ss !! n) /\
  (forall v, attrs ss !! name = Some v -> attrs ss' !! name = Some v) /\
  (attrs ss !! name = None ->
   exists l, attrs ss' !! name = Some (ARef l) /\ heap ss !! l = None /\
             heap ss' !! l = Some d) /\
  (is_Some (attrs ss !! name) -> ss' = ss).

(** A computation leaves the dict objects alone and writes no session
    attribute outside [names]. *)
Definition touches {A} (names : list string) (c : M A) : Prop :=
  forall s, heap (session (c s).2) = heap (session s) /\
            forall n, n ∉ names -> attrs (session (c s).2) !! n = attrs (session s) !! n.

(** Every key of [ks] holds a string. *)
Definition text_fields (ks : list string) (d : dict) : Prop :=
  Forall (fun k => exists t, d !! k = Some (PStr t)) ks.

(** An assessment record as the forms leave it: the seventeen scores
    are integers and the three notes are strings. *)
Definition record_ok (d : dict) : Prop :=
  int_scores (physical_fields ++ mental_fields) d /\
  text_fields ["notes"; "limitations"; "symptoms"] d.

(** A session in order: the three records are separate objects, both
    assessment records are as the forms leave them, and the after record
    still has its empty limitations and symptoms. *)
Definition session_ok (ss : session_state) : Prop :=
  records_separate ss = true /\
  exists before_data after_data,
    session_lookup ss "before_data" = Some before_data /\
    session_lookup ss "after_data" = Some after_data /\
    record_ok before_data /\ record_ok after_data /\
    after_data !! "limitations" = Some (PStr "") /\
    after_data !! "symptoms" = Some (PStr "").

(** The states that runs of [main] lead to from a new session. *)
Inductive reachable : state -> Prop :=
| reachable_start : reachable initial_state
| reachable_run W fuel fb fa fd c s :
    reachable s -> reachable (main W fuel fb fa fd c s).2.

(** The event is not a download button. *)
Definition not_download (ev : event) : Prop :=
  forall label data file_name mime help,
    ev <> EvUi (st_download_button label data file_name mime help).

(** If the event is a download button, it offers [data]. *)
Definition downloads_only (data : bytes) (ev : event) : Prop :=
  forall label data' file_name mime help,
    ev = EvUi (st_download_button label data' file_name mime help) -> data' = data.

(** Among the events [evs] of a run that ends in session [ss], every
    download button offers a document that [doc.build] returned in the
    same run and that the session holds under [attr]. *)
Definition offers_built (W : world) (attr : string) (evs : list event)
    (ss : session_state) : Prop :=
  forall label data file_name mime help,
    EvUi (st_download_button label data file_name mime help) ∈ evs ->
    (exists size margin story,
        EvBuild size margin story ∈ evs /\ build_answer W story = inr data) /\
    attrs ss !! attr = Some (ABytes data).

(** Every run of [c] is such a run. *)
Definition offers {A} (W : world) (attr : string) (c : M A) : Prop :=
  forall s, exists evs,
    log (c s).2 = log s ++ evs /\ offers_built W attr evs (session (c s).2).

(** [c] shows no download button, and the bytes it returns are those
    that a [doc.build] of its own returned. *)
Definition builds (W : world) (c : M bytes) : Prop :=
  forall s, exists evs,
    log (c s).2 = log s ++ evs /\ Forall not_download evs /\
    forall pdf, (c s).1 = Ok pdf ->
      exists size margin story,
        EvBuild size margin story ∈ evs /\ build_answer W story = inr pdf.

(** The profile table of the diet plan document for a Diet Plan form. *)
Definition profile_of_form (fd : diet_form) : list (list string) :=
  [ ["Client Profile"; ""];
    ["Height"; pretty (height fd) +:+ " cm"];
    ["Weight"; pretty (weight fd) +:+ " kg"];
    ["Dietary Restrictions"; join ", " (dietary_restrictions fd)];
    ["Health Goals"; join ", " (health_goals fd)];
    ["Food Allergies"; food_allergies fd] ].
(** * Properties *)

(** ** Sanity checks of the string helpers *)

Example strip_ex : strip "  Monday  " = "Monday". Proof. reflexivity. Qed.
Example split_ex : split_on ":" "Prep Time: 10 mins" = ["Prep Time"; " 10 mins"]. Proof. reflexivity. Qed.
Example split_blank_ex : split_blank ("a" +:+ nl +:+ nl +:+ nl +:+ "b" +:+ nl +:+ nl) = ["a"; nl +:+ "b"; ""]. Proof. reflexivity. Qed.
Example py_in_ex : py_in "day" "Monday" = true /\ py_in "x" "Monday" = false /\ py_in "" "" = true. Proof. done. Qed.
Example repr_ex : py_str (PList ["None"; "Gluten-Free"]) = "['None', 'Gluten-Free']".
Proof. reflexivity. Qed.
Example format_plus_d_ex :
  format_plus_d 3 = "+3" /\ format_plus_d (-2) = "-2" /\ format_plus_d 0 = "+0".
Proof. done. Qed.

(** ** Lookups and runs *)

Lemma getitem_Some d k v : d !! k = Some v -> getitem d k = Ok v.
Proof. intros H. unfold getitem. by rewrite H. Qed.

Lemma getitem_agree d d' k : d !! k = d' !! k -> getitem d k = getitem d' k.
Proof. intros H. unfold getitem. by rewrite H. Qed.

Lemma dict_update_lookup d other k :
  dict_update d other !! k
  = match other !! k with Some v => Some v | None => d !! k end.
Proof.
  unfold dict_update. rewrite lookup_union.
  destruct (other !! k), (d !! k); reflexivity.
Qed.

Ltac split_Forall :=
  repeat match goal with
  | H : Forall _ (_ :: _) |- _ => apply Forall_cons in H as [? H]
  | H : Forall _ [] |- _ => clear H
  end.

(** Facts about the keys of a concrete record, by evaluation of its
    lookups. *)
(** An equation between closed terms, checked by evaluation. *)
Ltac by_vm :=
  lazymatch goal with
  | |- ?l = ?r => vm_cast_no_check (@eq_refl _ r)
  end.

Ltac closed_fact :=
  lazymatch goal with
  | |- _ = _ => by_vm
  | |- _ =>
      vm_compute;
      lazymatch goal with
      | |- True => exact I
      | |- ex _ => eexists; reflexivity
      end
  end.

Ltac by_lookups :=
  unfold has_keys, agree_on, int_scores, joinable;
  lazymatch goal with
  | |- Forall _ _ => repeat (constructor; [closed_fact|]); constructor
  | |- _ => closed_fact
  end.

Lemma new_events_app {A} (c : M A) s evs :
  log (c s).2 = log s ++ evs -> new_events c s = evs.
Proof. unfold new_events. intros ->. by rewrite drop_app_length. Qed.

Lemma ui_run W c s :
  ui W c s
  = (match ui_answer W c with Some e => Raise e | None => Ok () end,
     State (session s) (log s ++ [EvUi c])).
Proof. unfold ui, bind, emit, raise, ret. cbn. by destruct (ui_answer W c). Qed.

Lemma session_lookup_inv ss name d :
  session_lookup ss name = Some d ->
  exists l, attrs ss !! name = Some (ARef l) /\ heap ss !! l = Some d.
Proof.
  unfold session_lookup. destruct (attrs ss !! name) as [[l|]|]; try done. eauto.
Qed.

Lemma session_dict_run name s d :
  session_lookup (session s) name = Some d -> session_dict name s = (Ok d, s).
Proof.
  unfold session_lookup, session_dict, session_ref, deref, get_session, bind, ret.
  cbn. destruct (attrs (session s) !! name) as [[l|]|]; try done. cbn.
  by intros ->.
Qed.

(** [session_update] on a record that is present. *)
Lemma session_update_run name other s l d :
  attrs (session s) !! name = Some (ARef l) -> heap (session s) !! l = Some d ->
  session_update name other s
  = (Ok (),
     State (Session (<[l := dict_update d other]> (heap (session s)))
                    (attrs (session s)))
           (log s)).
Proof.
  intros Ha Hh.
  unfold session_update, session_ref, deref, get_session, put_session, bind, ret.
  cbn. rewrite Ha. cbn. by rewrite Hh.
Qed.

Lemma try_except_caught {A} (body : M A) handler s e s' :
  body s = (Raise e, s') -> is_Exception e = true ->
  try_except body handler s = handler e s'.
Proof. intros Hb He. unfold try_except. by rewrite Hb, He. Qed.

(** ** The log only grows *)

Section Emits.
Context (P : event -> Prop).

Lemma emits_mono {A} (Q : event -> Prop) (c : M A) :
  (forall ev, P ev -> Q ev) -> emits P c -> emits Q c.
Proof.
  intros HPQ Hc s. destruct (Hc s) as (evs & Hl & Hevs). exists evs. split; [done|].
  eapply Forall_impl; [exact Hevs|done].
Qed.

Lemma emits_ret {A} (a : A) : emits P (ret a).
Proof. intros s. exists []. by rewrite app_nil_r. Qed.

Lemma emits_raise {A} e : emits P (raise (A := A) e).
Proof. intros s. exists []. by rewrite app_nil_r. Qed.

Lemma emits_lift {A} (o : outcome A) : emits P (lift o).
Proof. intros s. exists []. by rewrite app_nil_r. Qed.

Lemma emits_emit ev : P ev -> emits P (emit ev).
Proof. intros H s. exists [ev]. split; [done|]. by constructor. Qed.

Lemma emits_bind {A B} (c : M A) (k : A -> M B) :
  emits P c -> (forall a, emits P (k a)) -> emits P (bind c k).
Proof.
  intros Hc Hk s. unfold bind. destruct (Hc s) as (evs & Hl & Hevs).
  destruct (c s) as [[a|e|] s']; cbn in *; [|by eauto..].
  destruct (Hk a s') as (evs' & Hl' & Hevs').
  exists (evs ++ evs'). rewrite Hl', Hl, app_assoc. split; [done|].
  by apply Forall_app.
Qed.

Lemma emits_try_except {A} (body : M A) (handler : exn -> M A) :
  emits P body -> (forall e, emits P (handler e)) -> emits P (try_except body handler).
Proof.
  intros Hc Hk s. unfold try_except. destruct (Hc s) as (evs & Hl & Hevs).
  destruct (body s) as [[a|e|] s']; cbn in *; [by eauto| |by eauto].
  destruct (is_Exception e); [|by eauto].
  destruct (Hk e s') as (evs' & Hl' & Hevs').
  exists (evs ++ evs'). rewrite Hl', Hl, app_assoc. split; [done|].
  by apply Forall_app.
Qed.

Lemma emits_of_answer {A} (r : exn + A) : emits P (of_answer r).
Proof. destruct r; [apply emits_raise|apply emits_ret]. Qed.

Lemma emits_get_session : emits P get_session.
Proof. intros s. exists []. by rewrite app_nil_r. Qed.

Lemma emits_put_session ss : emits P (put_session ss).
Proof. intros s. exists []. by rewrite app_nil_r. Qed.

Lemma emits_session_set name v : emits P (session_set name v).
Proof. apply emits_bind; [apply emits_get_session|intros; apply emits_put_session]. Qed.

Lemma emits_session_dict name : emits P (session_dict name).
Proof.
  unfold session_dict, session_ref, deref.
  apply emits_bind.
  - apply emits_bind; [apply emits_get_session|]. intros ss.
    destruct (attrs ss !! name) as [[?|?]|]; auto using emits_ret, emits_raise.
  - intros l. apply emits_bind; [apply emits_get_session|]. intros ss.
    destruct (heap ss !! l); auto using emits_ret, emits_raise.
Qed.

Lemma emits_ui W c : P (EvUi c) -> emits P (ui W c).
Proof.
  intros H. apply emits_bind; [by apply emits_emit|]. intros _.
  destruct (ui_answer W c); auto using emits_ret, emits_raise.
Qed.

Lemma emits_chat W r : P (EvChat r) -> emits P (chat_completions_create W r).
Proof.
  intros H. apply emits_bind; [by apply emits_emit|]. intros _. apply emits_of_answer.
Qed.

Lemma emits_to_image W fig fmt w h sc :
  P (EvToImage fig fmt w h sc) -> emits P (pio_to_image W fig fmt w h sc).
Proof.
  intros H. apply emits_bind; [by apply emits_emit|]. intros _. apply emits_of_answer.
Qed.

Lemma emits_doc_build W size margin story :
  P (EvBuild size margin story) -> emits P (doc_build W size margin story).
Proof.
  intros H. apply emits_bind; [by apply emits_emit|]. intros _. apply emits_of_answer.
Qed.
End Emits.

Ltac emits_step :=
  first
    [ apply emits_ret | apply emits_raise | apply emits_lift
    | apply emits_session_dict | apply emits_session_set
    | apply emits_ui | apply emits_chat | apply emits_to_image | apply emits_doc_build
    | apply emits_try_except; [|intros ?]
    | apply emits_bind; [|intros ?]
    | match goal with |- emits _ (let '(_, _) := ?p in _) => destruct p end ].

Lemma analysis_body_emits W client_info : emits not_error_box (analysis_body W client_info).
Proof.
  unfold analysis_body, generate_analysis, create_pdf, chart_flowables.
  repeat emits_step; intros msg; discriminate.
Qed.
(** ** Text without markup *)

Lemma all_chars_app P s t : all_chars P (s +:+ t) = all_chars P s && all_chars P t.
Proof.
  induction s as [|c s IH]; [done|].
  change (String c s +:+ t) with (String c (s +:+ t)). cbn [all_chars].
  by rewrite IH, andb_assoc.
Qed.

Lemma all_chars_lstrip P s : all_chars P s = true -> all_chars P (lstrip s) = true.
Proof.
  induction s as [|c s IH]; cbn; [done|]. intros [Hc Hs]%andb_true_iff.
  destruct (is_space c); [by apply IH|]. cbn. by rewrite Hc, Hs.
Qed.

Lemma all_chars_rstrip P s : all_chars P s = true -> all_chars P (rstrip s) = true.
Proof.
  induction s as [|c s IH]; cbn; [done|]. intros [Hc Hs]%andb_true_iff.
  specialize (IH Hs). destruct (rstrip s) as [|b r].
  - destruct (is_space c); cbn; [done|]. by rewrite Hc.
  - change (P c && all_chars P (String b r) = true). by rewrite Hc, IH.
Qed.

Lemma all_chars_strip P s : all_chars P s = true -> all_chars P (strip s) = true.
Proof. intros H. by apply all_chars_rstrip, all_chars_lstrip. Qed.

Lemma all_chars_split_on P c s :
  all_chars P s = true -> Forall (fun w => all_chars P w = true) (split_on c s).
Proof.
  induction s as [|a s IH]; cbn; [by repeat constructor|].
  intros [Ha Hs]%andb_true_iff. specialize (IH Hs).
  case_decide; [by constructor|].
  destruct (split_on c s) as [|w ws]; [repeat constructor; cbn; by rewrite Ha|].
  apply Forall_cons in IH as [Hw Hws]. constructor; [|done]. cbn. by rewrite Ha, Hw.
Qed.

Lemma all_chars_split_once P c s :
  all_chars P s = true -> Forall (fun w => all_chars P w = true) (split_once c s).
Proof.
  induction s as [|a s IH]; cbn; [by repeat constructor|].
  intros [Ha Hs]%andb_true_iff. specialize (IH Hs).
  case_decide; [by repeat constructor|].
  destruct (split_once c s) as [|w ws]; [repeat constructor; cbn; by rewrite Ha|].
  apply Forall_cons in IH as [Hw Hws]. constructor; [|done]. cbn. by rewrite Ha, Hw.
Qed.

Lemma all_chars_split_blank_aux P n : forall s,
  (String.length s <= n)%nat ->
  all_chars P s = true -> Forall (fun w => all_chars P w = true) (split_blank s).
Proof.
  induction n as [|n IH]; intros [|a s] Hlen; cbn in *; try lia;
    [by repeat constructor..|].
  intros [Ha Hs]%andb_true_iff.
  destruct s as [|b s']; [repeat constructor; cbn; by rewrite Ha|].
  destruct (bool_decide (a = ascii_of_nat 10) && bool_decide (b = ascii_of_nat 10)).
  - constructor; [done|]. apply IH; [cbn in Hlen; lia|].
    cbn in Hs. by apply andb_true_iff in Hs as [_ ?].
  - assert (Forall (fun w => all_chars P w = true) (split_blank (String b s'))) as Hrec
      by (apply IH; [lia|done]).
    destruct (split_blank (String b s')) as [|w ws];
      [repeat constructor; cbn; by rewrite Ha|].
    apply Forall_cons in Hrec as [Hw Hws]. constructor; [|done]. cbn. by rewrite Ha, Hw.
Qed.

Lemma all_chars_split_blank P s :
  all_chars P s = true -> Forall (fun w => all_chars P w = true) (split_blank s).
Proof. by apply (all_chars_split_blank_aux P (String.length s)). Qed.

Lemma plain_text_app s t : plain_text (s +:+ t) = plain_text s && plain_text t.
Proof. apply all_chars_app. Qed.

Lemma plain_text_strip s : plain_text s = true -> plain_text (strip s) = true.
Proof. apply all_chars_strip. Qed.

(** ** The calls that make a value *)

Lemma paragraph_plain W text style :
  plain_text text = true -> paragraph W text style = Ok (Paragraph text style).
Proof. intros H. unfold paragraph. by rewrite H. Qed.

(** A paragraph that is made is the paragraph of its text. *)
Lemma paragraph_cases W text style :
  paragraph W text style = Ok (Paragraph text style) \/
  exists e, paragraph W text style = Raise e.
Proof.
  unfold paragraph. destruct (plain_text text); [by left|].
  destruct (paragraph_answer W text style); eauto.
Qed.

Lemma px_bar_numeric W df barmode title :
  numeric df = true -> px_bar W df barmode title = Ok (Bar df barmode title).
Proof. intros H. unfold px_bar. by rewrite H. Qed.

Lemma px_bar_cases W df barmode title :
  px_bar W df barmode title = Ok (Bar df barmode title) \/
  exists e, px_bar W df barmode title = Raise e.
Proof.
  unfold px_bar. destruct (numeric df); [by left|].
  destruct (px_bar_answer W _); eauto.
Qed.

(** Pure code inside effectful code leaves the state alone. *)
Lemma bind_lift {A B} (o : outcome A) (k : A -> M B) s :
  bind (lift o) k s
  = match o with
    | Ok a => k a s
    | Raise e => (Raise e, s)
    | OutOfFuel => (OutOfFuel, s)
    end.
Proof. by destruct o. Qed.

(** ** The records that the application passes around *)

Lemma has_keys_update ks d other : has_keys ks d -> has_keys ks (dict_update d other).
Proof.
  unfold has_keys. intros H. eapply Forall_impl; [exact H|]. intros k [v Hv]. cbn.
  rewrite dict_update_lookup. destruct (other !! k); eauto.
Qed.

Lemma default_data_has_keys : has_keys analysis_before_keys default_data.
Proof. by_lookups. Qed.

Lemma main_client_info_ok before_data after_data :
  has_keys analysis_before_keys before_data ->
  has_keys analysis_after_keys after_data ->
  analysis_inputs_ok before_data after_data main_client_info.
Proof.
  intros Hb Ha. unfold analysis_inputs_ok.
  refine (conj Hb (conj Ha (conj _ (conj _ _)))); by_lookups.
Qed.

(** Whatever the widgets of the Diet Plan tab hold, the record passed to
    the diet plan functions is complete. *)
Lemma diet_client_info_ok f : dietary_inputs_ok (diet_client_info f).
Proof.
  unfold dietary_inputs_ok. refine (conj _ _).
  - unfold has_keys, dietary_client_keys.
    repeat (constructor; [closed_fact|]). constructor.
  - unfold joinable. closed_fact.
Qed.

(** ** Charts *)

(** The two dict literals of [create_comparison_charts], for records
    that hold the seventeen score keys with any values. *)
Lemma metrics_fixed_keys (before_data after_data : dict) :
  has_keys (physical_fields ++ mental_fields) before_data ->
  has_keys (physical_fields ++ mental_fields) after_data ->
  physical_metrics before_data after_data
  = Ok (zip physical_labels
          ((fun k => [dict_get before_data k; dict_get after_data k]) <$> physical_fields)) /\
  mental_metrics before_data after_data
  = Ok (zip mental_labels
          ((fun k => [dict_get before_data k; dict_get after_data k]) <$> mental_fields)).
Proof.
  intros Hb Ha.
  unfold has_keys, physical_fields, mental_fields in *. cbn [app] in Hb, Ha.
  repeat match goal with
  | H : Forall _ (_ :: _) |- _ => apply Forall_cons in H as [[? ?] H]
  end.
  unfold physical_metrics, mental_metrics, dict_get.
  cbn [fmap list_fmap zip zip_with physical_labels mental_labels].
  repeat match goal with
  | H : ?d !! ?k = Some _ |- _ => rewrite !(getitem_Some _ _ _ H); rewrite ?H; clear H
  end.
  split; reflexivity.
Qed.

(** A frame of the scores of two assessment records is a frame of
    integers. *)
Lemma score_frame_numeric (before_data after_data : dict) labels fields index :
  int_scores fields before_data -> int_scores fields after_data ->
  numeric (Transpose (DataFrame
             (zip labels ((fun k => [dict_get before_data k; dict_get after_data k])
                            <$> fields)) index)) = true.
Proof.
  unfold int_scores. intros Hb Ha. cbn [numeric]. apply forallb_forall.
  intros [label column] Hin%list_elem_of_In.
  apply elem_of_zip_r, list_elem_of_fmap in Hin as (k & -> & Hk). cbn [snd].
  rewrite Forall_forall in Hb, Ha.
  destruct (Hb k Hk) as [nb Hnb], (Ha k Hk) as [na Hna].
  unfold dict_get. by rewrite Hnb, Hna.
Qed.

Lemma int_scores_keys ks d : int_scores ks d -> has_keys ks d.
Proof.
  unfold int_scores, has_keys. intros H. eapply Forall_impl; [exact H|].
  intros k [n Hn]. cbn. eauto.
Qed.

(** The figures of two assessment records: with integer scores both
    [px.bar] calls return. *)
Lemma charts_of_int_scores (W : world) (before_data after_data : dict) :
  int_scores (physical_fields ++ mental_fields) before_data ->
  int_scores (physical_fields ++ mental_fields) after_data ->
  create_comparison_charts W before_data after_data
  = Ok (Bar (Transpose (DataFrame
               (zip physical_labels
                  ((fun k => [dict_get before_data k; dict_get after_data k])
                     <$> physical_fields)) ["Before"; "After"]))
            "group" "Physical Metrics Comparison",
        Bar (Transpose (DataFrame
               (zip mental_labels
                  ((fun k => [dict_get before_data k; dict_get after_data k])
                     <$> mental_fields)) ["Before"; "After"]))
            "group" "Mental & Emotional Metrics Comparison").
Proof.
  intros Hb Ha.
  destruct (metrics_fixed_keys _ _ (int_scores_keys _ _ Hb) (int_scores_keys _ _ Ha))
    as [Hp Hm].
  unfold int_scores in Hb, Ha.
  apply Forall_app in Hb as [Hbp Hbm]. apply Forall_app in Ha as [Hap Ham].
  unfold create_comparison_charts. rewrite Hp, Hm.
  cbn [mbind outcome_bind obind].
  rewrite px_bar_numeric by (by apply score_frame_numeric).
  cbn [mbind outcome_bind obind].
  rewrite px_bar_numeric by (by apply score_frame_numeric).
  reflexivity.
Qed.

(** C5. For two assessment records, whose seventeen scores are
    integers, [create_comparison_charts] builds a physical dictionary
    with exactly the ten keys Flexibility .. Core and a mental dictionary
    with exactly the seven keys Stress .. Mindfulness, each key mapped to
    the list of the before and the after value of its field, and returns
    the two grouped bar plots of these dictionaries. *)
Theorem create_comparison_charts_fixed_keys
    (W : world) (before_data after_data : dict) :
  int_scores (physical_fields ++ mental_fields) before_data ->
  int_scores (physical_fields ++ mental_fields) after_data ->
  exists physical mental,
    physical_metrics before_data after_data = Ok physical /\
    mental_metrics before_data after_data = Ok mental /\
    create_comparison_charts W before_data after_data
    = Ok (Bar (Transpose (DataFrame physical ["Before"; "After"]))
              "group" "Physical Metrics Comparison",
          Bar (Transpose (DataFrame mental ["Before"; "After"]))
              "group" "Mental & Emotional Metrics Comparison") /\
    physical
    = zip physical_labels
          ((fun k => [dict_get before_data k; dict_get after_data k]) <$> physical_fields) /\
    mental
    = zip mental_labels
          ((fun k => [dict_get before_data k; dict_get after_data k]) <$> mental_fields).
Proof.
  intros Hb Ha.
  destruct (metrics_fixed_keys _ _ (int_scores_keys _ _ Hb) (int_scores_keys _ _ Ha))
    as [Hp Hm].
  eexists _, _. split; [exact Hp|]. split; [exact Hm|].
  split; [|split; reflexivity]. by apply charts_of_int_scores.
Qed.

Lemma create_comparison_charts_fixed_keys_witness :
  exists physical mental,
    physical_metrics sample_before sample_after = Ok physical /\
    mental_metrics sample_before sample_after = Ok mental /\
    create_comparison_charts strict_world sample_before sample_after
    = Ok (Bar (Transpose (DataFrame physical ["Before"; "After"]))
              "group" "Physical Metrics Comparison",
          Bar (Transpose (DataFrame mental ["Before"; "After"]))
              "group" "Mental & Emotional Metrics Comparison") /\
    physical
    = zip physical_labels
          ((fun k => [dict_get sample_before k; dict_get sample_after k])
             <$> physical_fields) /\
    mental
    = zip mental_labels
          ((fun k => [dict_get sample_before k; dict_get sample_after k])
             <$> mental_fields).
Proof.
  apply (create_comparison_charts_fixed_keys strict_world sample_before sample_after);
    by_lookups.
Defined.

(** Records that hold the keys with other values than integers reach the
    two [px.bar] calls, and Plotly Express may refuse them. *)
Example charts_of_text_scores_may_fail :
  let before_data := <["flexibility" := PStr "low"]> sample_before in
  create_comparison_charts quiet_world before_data sample_after
  = Ok (Bar (Transpose (DataFrame
               (zip physical_labels
                  ((fun k => [dict_get before_data k; dict_get sample_after k])
                     <$> physical_fields)) ["Before"; "After"]))
            "group" "Physical Metrics Comparison",
        Bar (Transpose (DataFrame
               (zip mental_labels
                  ((fun k => [dict_get before_data k; dict_get sample_after k])
                     <$> mental_fields)) ["Before"; "After"]))
            "group" "Mental & Emotional Metrics Comparison") /\
  create_comparison_charts strict_world before_data sample_after
  = Raise (Exn ValueError "Plotly Express cannot process wide-form data with columns of different type.").
Proof. cbn zeta. split; vm_compute; reflexivity. Qed.

Example charts_of_samples :
  physical_metrics sample_before sample_after
  = Ok [ ("Flexibility", [PInt 3; PInt 6]); ("Strength", [PInt 4; PInt 6]);
         ("Balance", [PInt 5; PInt 7]); ("Pain Level", [PInt 7; PInt 3]);
         ("Posture", [PInt 4; PInt 7]); ("Breathing", [PInt 5; PInt 8]);
         ("Spine", [PInt 3; PInt 6]); ("Hips", [PInt 4; PInt 6]);
         ("Shoulders", [PInt 5; PInt 7]); ("Core", [PInt 4; PInt 7]) ].
Proof. vm_compute. reflexivity. Qed.

(** ** Prompts *)

Lemma parts_cons {A} (x x' : A) (l l' : list A) : x = x' -> l = l' -> x :: l = x' :: l'.
Proof. congruence. Qed.

(** Two f-strings with the same literal text whose fields read equal
    values. *)
Ltac same_parts :=
  apply (f_equal fstring);
  repeat (apply parts_cons;
          [ first [ apply (f_equal fmt), getitem_agree; assumption
                  | apply (f_equal (joined _)), getitem_agree; assumption
                  | reflexivity ] | ]);
  reflexivity.

Lemma analysis_prompt_agree
    (before_data after_data client_info before_data' after_data' client_info' : dict) :
  agree_on analysis_before_keys before_data before_data' ->
  agree_on analysis_after_keys after_data after_data' ->
  agree_on analysis_client_keys client_info client_info' ->
  analysis_prompt before_data after_data client_info
  = analysis_prompt before_data' after_data' client_info'.
Proof.
  unfold agree_on, analysis_before_keys, analysis_after_keys, analysis_client_keys,
    physical_fields, mental_fields.
  cbn [app]. intros Hb Ha Hc. split_Forall.
  unfold analysis_prompt. same_parts.
Qed.

Lemma dietary_prompt_agree
    (client_info before_data after_data client_info' before_data' after_data' : dict) :
  agree_on dietary_client_keys client_info client_info' ->
  dietary_prompt client_info before_data after_data
  = dietary_prompt client_info' before_data' after_data'.
Proof.
  unfold agree_on, dietary_client_keys. intros Hc. split_Forall.
  unfold dietary_prompt. same_parts.
Qed.

(** What the two generation functions do with their prompt. *)
Lemma send_prompt W (prompt_of : outcome string) s :
  (do p <- lift prompt_of;
   do response <- chat_completions_create W (fixed_request p);
   do choice <- lift (first_item (choices response));
   ret (content (message choice))) s
  = match prompt_of with
    | Ok prompt =>
        (first_choice_content W (fixed_request prompt),
         State (session s) (log s ++ [EvChat (fixed_request prompt)]))
    | Raise e => (Raise e, s)
    | OutOfFuel => (OutOfFuel, s)
    end.
Proof.
  destruct prompt_of as [prompt|e|]; try reflexivity.
  unfold first_choice_content.
  unfold bind, lift, chat_completions_create, emit, of_answer, ret, raise. cbn.
  destruct (chat_answer W (fixed_request prompt)) as [e|[cs]]; cbn; [done|].
  by destruct cs.
Qed.

(** The requests that a generation function sends are decided by its
    prompt alone. *)
Lemma sent_requests W (prompt_of : outcome string) s :
  new_events
    (do p <- lift prompt_of;
     do response <- chat_completions_create W (fixed_request p);
     do choice <- lift (first_item (choices response));
     ret (content (message choice))) s
  = match prompt_of with
    | Ok prompt => [EvChat (fixed_request prompt)]
    | _ => []
    end.
Proof.
  apply new_events_app. rewrite send_prompt.
  destruct prompt_of; cbn; by rewrite ?app_nil_r.
Qed.

(** C2. The prompts are functions of the listed fields of their input
    records and of nothing else: two calls of [generate_analysis] whose
    records agree on the fields that the prompt formats build the same
    prompt and send the same requests, in any two worlds and session
    states, and likewise for [generate_dietary_plan], whose prompt reads
    the client profile only. *)
Theorem prompts_depend_on_listed_fields_only
    (W W' : world) (s s' : state)
    (before_data after_data client_info before_data' after_data' client_info' : dict)
    (diet_client diet_client' : dict) :
  agree_on analysis_before_keys before_data before_data' ->
  agree_on analysis_after_keys after_data after_data' ->
  agree_on analysis_client_keys client_info client_info' ->
  agree_on dietary_client_keys diet_client diet_client' ->
  analysis_prompt before_data after_data client_info
  = analysis_prompt before_data' after_data' client_info' /\
  dietary_prompt diet_client before_data after_data
  = dietary_prompt diet_client' before_data' after_data' /\
  new_events (generate_analysis W before_data after_data client_info) s
  = new_events (generate_analysis W' before_data' after_data' client_info') s' /\
  new_events (generate_dietary_plan W diet_client before_data after_data) s
  = new_events (generate_dietary_plan W' diet_client' before_data' after_data') s'.
Proof.
  intros Hb Ha Hc Hd.
  pose proof (analysis_prompt_agree _ _ _ _ _ _ Hb Ha Hc) as Hap.
  pose proof (dietary_prompt_agree _ before_data after_data _ before_data' after_data' Hd)
    as Hdp.
  repeat split; try done.
  - unfold generate_analysis. fold fixed_request. rewrite !sent_requests. by rewrite Hap.
  - unfold generate_dietary_plan. fold fixed_request. rewrite !sent_requests. by rewrite Hdp.
Qed.

Lemma prompts_depend_on_listed_fields_only_witness :
  analysis_prompt sample_before sample_after main_client_info
  = analysis_prompt (<["extra" := PInt 1]> sample_before)
                    (<["symptoms" := PStr "none"]> sample_after)
                    (diet_client_info default_diet_form) /\
  dietary_prompt (diet_client_info default_diet_form) sample_before sample_after
  = dietary_prompt (<["age" := PInt 40]> (diet_client_info default_diet_form))
                   (<["extra" := PInt 1]> sample_before)
                   (<["symptoms" := PStr "none"]> sample_after) /\
  new_events (generate_analysis quiet_world sample_before sample_after main_client_info)
             initial_state
  = new_events (generate_analysis failing_world (<["extra" := PInt 1]> sample_before)
                  (<["symptoms" := PStr "none"]> sample_after)
                  (diet_client_info default_diet_form))
               (State saved_session []) /\
  new_events (generate_dietary_plan quiet_world (diet_client_info default_diet_form)
                sample_before sample_after)
             initial_state
  = new_events (generate_dietary_plan failing_world
                  (<["age" := PInt 40]> (diet_client_info default_diet_form))
                  (<["extra" := PInt 1]> sample_before)
                  (<["symptoms" := PStr "none"]> sample_after))
               (State saved_session []).
Proof.
  apply (prompts_depend_on_listed_fields_only quiet_world failing_world
           initial_state (State saved_session [])); by_lookups.
Defined.

(** ** The chat-completion call *)

Lemma fmt_ok d k : is_Some (d !! k) -> exists s, fmt (getitem d k) = Ok s.
Proof. intros [v Hv]. unfold fmt. rewrite (getitem_Some _ _ _ Hv). by eexists. Qed.

Lemma joined_ok sep d k : joinable d k -> exists s, joined sep (getitem d k) = Ok s.
Proof.
  unfold joinable, joined, getitem. destruct (d !! k) as [[| | |]|]; try done; by eexists.
Qed.

Lemma fstring_cons_ok p ps s t :
  p = Ok s -> fstring ps = Ok t -> fstring (p :: ps) = Ok (s +:+ t).
Proof. intros -> H. cbn. by rewrite H. Qed.

Ltac parts_ok :=
  repeat (eapply fstring_cons_ok;
          [ first [ eassumption | reflexivity ] | ]);
  reflexivity.

Ltac name_parts :=
  repeat match goal with
  | H : is_Some (?d !! ?k) |- _ => apply (fmt_ok d k) in H as [? H]
  | H : joinable ?d ?k |- _ => apply (joined_ok ", " d k) in H as [? H]
  end.

Lemma analysis_prompt_ok before_data after_data client_info :
  analysis_inputs_ok before_data after_data client_info ->
  exists prompt, analysis_prompt before_data after_data client_info = Ok prompt.
Proof.
  unfold analysis_inputs_ok, has_keys, analysis_before_keys, analysis_after_keys,
    analysis_client_keys, physical_fields, mental_fields. cbn [app].
  intros (Hb & Ha & Hc & Hg & Hs).
  pose proof Hc as Hc'. split_Forall.
  repeat match goal with
  | H : is_Some (client_info !! "primary_goals") |- _ => clear H
  | H : is_Some (client_info !! "stress_sources") |- _ => clear H
  end.
  name_parts. eexists. unfold analysis_prompt. parts_ok.
Qed.

Lemma dietary_prompt_ok client_info before_data after_data :
  dietary_inputs_ok client_info ->
  exists prompt, dietary_prompt client_info before_data after_data = Ok prompt.
Proof.
  unfold dietary_inputs_ok, has_keys, dietary_client_keys.
  intros (Hc & Hg). split_Forall.
  repeat match goal with
  | H : is_Some (client_info !! "health_goals") |- _ => clear H
  end.
  name_parts. eexists. unfold dietary_prompt. parts_ok.
Qed.

(** C4. Each call of [generate_analysis] and of [generate_dietary_plan]
    on records that hold the fields of its prompt makes exactly one
    chat-completion call.  The call carries the prompt as its single user
    message, the model meta-llama/llama-4-maverick-17b-128e-instruct,
    temperature 0.7, max_tokens 3000, top_p 0.95 and stream=False,
    whatever the records hold, and the function returns the content of
    the message of the first choice of the answer. *)
Theorem generation_sends_one_fixed_request
    (W : world) (before_data after_data client_info diet_client : dict) (s : state) :
  analysis_inputs_ok before_data after_data client_info ->
  dietary_inputs_ok diet_client ->
  (exists prompt,
      analysis_prompt before_data after_data client_info = Ok prompt /\
      generate_analysis W before_data after_data client_info s
      = (first_choice_content W (fixed_request prompt),
         State (session s) (log s ++ [EvChat (fixed_request prompt)]))) /\
  (exists prompt,
      dietary_prompt diet_client before_data after_data = Ok prompt /\
      generate_dietary_plan W diet_client before_data after_data s
      = (first_choice_content W (fixed_request prompt),
         State (session s) (log s ++ [EvChat (fixed_request prompt)]))).
Proof.
  intros Ha Hd. split.
  - destruct (analysis_prompt_ok _ _ _ Ha) as [p Hp]. exists p. split; [done|].
    unfold generate_analysis. fold fixed_request. by rewrite send_prompt, Hp.
  - destruct (dietary_prompt_ok diet_client before_data after_data Hd) as [p Hp].
    exists p. split; [done|].
    unfold generate_dietary_plan. fold fixed_request. by rewrite send_prompt, Hp.
Qed.

Lemma generation_sends_one_fixed_request_witness :
  (exists prompt,
      analysis_prompt sample_before sample_after main_client_info = Ok prompt /\
      generate_analysis quiet_world sample_before sample_after main_client_info
        initial_state
      = (first_choice_content quiet_world (fixed_request prompt),
         State (session initial_state)
               (log initial_state ++ [EvChat (fixed_request prompt)]))) /\
  (exists prompt,
      dietary_prompt (diet_client_info default_diet_form) sample_before sample_after
      = Ok prompt /\
      generate_dietary_plan quiet_world (diet_client_info default_diet_form)
        sample_before sample_after initial_state
      = (first_choice_content quiet_world (fixed_request prompt),
         State (session initial_state)
               (log initial_state ++ [EvChat (fixed_request prompt)]))).
Proof.
  apply (generation_sends_one_fixed_request quiet_world sample_before sample_after
           main_client_info (diet_client_info default_diet_form) initial_state).
  - unfold analysis_inputs_ok.
    refine (conj _ (conj _ (conj _ (conj _ _)))); by_lookups.
  - unfold dietary_inputs_ok. refine (conj _ _); by_lookups.
Defined.

Example fixed_request_parameters prompt :
  model (fixed_request prompt) = "meta-llama/llama-4-maverick-17b-128e-instruct" /\
  temperature (fixed_request prompt) = 7 # 10 /\
  max_tokens (fixed_request prompt) = 3000 /\
  top_p (fixed_request prompt) = 95 # 100 /\
  stream (fixed_request prompt) = false /\
  messages (fixed_request prompt) = [ChatMessage "user" prompt].
Proof. done. Qed.

(** ** The progress report *)

Lemma format_plus_d_signed n : format_plus_d n = signed_decimal n.
Proof.
  unfold format_plus_d, signed_decimal.
  destruct (Z.leb_spec 0 n) as [H|H]; destruct n as [|p|p]; try lia; reflexivity.
Qed.

(** The text of the Change column determines the difference. *)
Lemma format_plus_d_inj n m : format_plus_d n = format_plus_d m -> n = m.
Proof.
  unfold format_plus_d.
  destruct (Z.leb_spec 0 n) as [Hn|Hn], (Z.leb_spec 0 m) as [Hm|Hm]; intros H.
  - injection H as H. by apply pretty_Z_inj in H.
  - destruct m as [|p|p]; try lia. discriminate H.
  - destruct n as [|p|p]; try lia. discriminate H.
  - by apply pretty_Z_inj in H.
Qed.

Lemma summary_row_score label k before_data after_data :
  (exists n, before_data !! k = Some (PInt n)) ->
  (exists n, after_data !! k = Some (PInt n)) ->
  summary_row label k before_data after_data
  = Ok (full_row before_data after_data (label, k)).
Proof.
  intros [nb Hb] [na Ha]. unfold summary_row, full_row, value_cells, score.
  rewrite !(getitem_Some _ _ _ Hb), !(getitem_Some _ _ _ Ha). cbn [fst snd].
  by rewrite Hb, Ha.
Qed.

Lemma physical_data_rows before_data after_data :
  int_scores (summary_physical.*2) before_data ->
  int_scores (summary_physical.*2) after_data ->
  physical_data before_data after_data
  = Ok (summary_header :: (full_row before_data after_data <$> summary_physical)).
Proof.
  unfold int_scores. cbn. intros Hb Ha. split_Forall.
  unfold physical_data.
  rewrite !summary_row_score by assumption. reflexivity.
Qed.

Lemma mental_data_rows before_data after_data :
  int_scores (summary_mental.*2) before_data ->
  int_scores (summary_mental.*2) after_data ->
  mental_data before_data after_data
  = Ok (summary_header :: (full_row before_data after_data <$> summary_mental)).
Proof.
  unfold int_scores. cbn. intros Hb Ha. split_Forall.
  unfold mental_data.
  rewrite !summary_row_score by assumption. reflexivity.
Qed.

Lemma section_flowables_no_table W sec fs :
  section_flowables W sec = Ok fs -> List.filter is_table fs = [].
Proof.
  unfold section_flowables.
  destruct (strip sec) as [|c r]; [by intros [= <-]|].
  destruct (isdigit c && py_in ". " sec).
  - destruct (split_once _ sec) as [|h [|t [|? ?]]]; try done.
    destruct (paragraph_cases W (strip h) "CustomHeading2") as [-> | [e ->]]; [|done].
    destruct (paragraph_cases W (strip t) "CustomBody") as [-> | [e ->]]; [|done].
    by intros [= <-].
  - destruct (paragraph_cases W (String c r) "CustomBody") as [-> | [e ->]]; [|done].
    by intros [= <-].
Qed.

Lemma analysis_flowables_no_table W secs : forall fs,
  analysis_flowables W secs = Ok fs -> List.filter is_table fs = [].
Proof.
  induction secs as [|sec secs IH]; intros fs; cbn.
  - by intros [= <-].
  - destruct (section_flowables W sec) as [gs| |] eqn:Hs; cbn; try done.
    destruct (analysis_flowables W secs) as [hs| |]; cbn; try done.
    intros [= <-]. rewrite List.filter_app, (section_flowables_no_table _ _ _ Hs).
    by rewrite (IH hs).
Qed.

(** The two ways in which [create_pdf] ends.  Either every lookup, every
    paragraph, both image exports and both tables succeed: then the
    story is the front matter followed by the flowables of the sections,
    and [doc.build] is called once on it.  Or it ends without a result
    and without a call of [doc.build], after at most the two image
    exports. *)
Lemma create_pdf_cases W client_info analysis before_data after_data fig1 fig2 s :
  let r := create_pdf W client_info analysis before_data after_data fig1 fig2 s in
  (exists name experience png1 png2 physical mental sections,
      getitem client_info "name" = Ok name /\
      getitem client_info "previous_yoga_experience" = Ok experience /\
      to_image_answer W fig1 = inr png1 /\ to_image_answer W fig2 = inr png2 /\
      physical_data before_data after_data = Ok physical /\
      mental_data before_data after_data = Ok mental /\
      analysis_flowables W (split_blank analysis) = Ok sections /\
      let story := report_front W name experience png1 png2 physical mental ++ sections in
      r = (match build_answer W story with inl e => Raise e | inr pdf => Ok pdf end,
           State (session s)
             (log s ++ [EvToImage fig1 "png" 800 400 2; EvToImage fig2 "png" 800 400 2;
                        EvBuild Letter 50 story]))) \/
  ((forall pdf, r.1 <> Ok pdf) /\ session r.2 = session s /\
   (log r.2 = log s \/
    log r.2 = log s ++ [EvToImage fig1 "png" 800 400 2] \/
    log r.2 = log s ++ [EvToImage fig1 "png" 800 400 2; EvToImage fig2 "png" 800 400 2])).
Proof.
  cbn zeta. unfold create_pdf, chart_flowables, pio_to_image, doc_build.
  unfold bind, lift, emit, of_answer, ret, raise.
  destruct (getitem client_info "name") as [name|e|] eqn:Hname; [|right; by auto..].
  destruct (paragraph_cases W ("for " +:+ py_str name) "CustomTitle") as [-> | [e ->]];
    [|right; by auto].
  destruct (paragraph_cases W ("Assessment Date: " +:+ now_strftime W "%B %d, %Y")
              "CustomBody") as [-> | [e ->]]; [|right; by auto].
  destruct (getitem client_info "previous_yoga_experience") as [experience|e|] eqn:Hexp;
    [|right; by auto..].
  destruct (paragraph_cases W ("Experience Level: " +:+ py_str experience) "CustomBody")
    as [-> | [e ->]]; [|right; by auto].
  cbn [fst snd session log].
  destruct (to_image_answer W fig1) as [e|png1] eqn:Himg1; [right; by auto|].
  cbn [fst snd session log].
  destruct (to_image_answer W fig2) as [e|png2] eqn:Himg2.
  { right. rewrite <- app_assoc. by auto. }
  destruct (physical_data before_data after_data) as [physical|e|] eqn:Hphys;
    [|right; rewrite <- app_assoc; by auto..].
  destruct (mental_data before_data after_data) as [mental|e|] eqn:Hment;
    [|right; rewrite <- app_assoc; by auto..].
  destruct (analysis_flowables W (split_blank analysis)) as [sections|e|] eqn:Hsec;
    [|right; rewrite <- app_assoc; by auto..].
  left. exists name, experience, png1, png2, physical, mental, sections.
  repeat (split; [done|]).
  cbn [fst snd session log]. rewrite <- !app_assoc. cbn [app].
  by destruct (build_answer W _).
Qed.

(** The tables of any story that [create_pdf] hands to [doc.build]. *)
Lemma create_pdf_story W client_info analysis before_data after_data fig1 fig2 s
    size margin story physical mental :
  physical_data before_data after_data = Ok physical ->
  mental_data before_data after_data = Ok mental ->
  EvBuild size margin story
    ∈ new_events (create_pdf W client_info analysis before_data after_data fig1 fig2) s ->
  List.filter is_table story
  = [ Table physical [120; 80; 80; 80] SummaryTableStyle;
      Table mental [120; 80; 80; 80] SummaryTableStyle ].
Proof.
  intros Hp Hm. unfold new_events.
  destruct (create_pdf_cases W client_info analysis before_data after_data fig1 fig2 s)
    as [(name & experience & png1 & png2 & physical' & mental' & sections & _ & _ & _ & _
         & Hp' & Hm' & Hsec & ->)
       |(_ & _ & [-> | [-> | ->]])].
  - rewrite Hp in Hp'. rewrite Hm in Hm'. injection Hp' as <-. injection Hm' as <-.
    cbn [snd log]. rewrite drop_app_length.
    rewrite !elem_of_cons, elem_of_nil. intros [H|[H|[H|[]]]]; try discriminate H.
    injection H as -> -> ->.
    cbn [List.filter is_table]. by rewrite (analysis_flowables_no_table _ _ _ Hsec).
  - rewrite drop_all. by intros ?%elem_of_nil.
  - rewrite drop_app_length, elem_of_cons, elem_of_nil. by intros [?|[]].
  - rewrite drop_app_length, !elem_of_cons, elem_of_nil. by intros [?|[?|[]]].
Qed.

(** C1 (as stated).  With the sample records the physical table has five
    rows after its header and not ten: the reading under which every
    score field has a row fails. *)
Lemma summary_tables_omit_metrics :
  ~ tables_list_every_metric sample_before sample_after.
Proof.
  intros (physical & mental & Hp & _ & Hlen & _).
  rewrite physical_data_rows in Hp by by_lookups.
  injection Hp as <-. discriminate Hlen.
Qed.

Example summary_tables_of_samples :
  physical_data sample_before sample_after
  = Ok [ ["Metric"; "Before"; "After"; "Change"];
         ["Flexibility"; "3/10"; "6/10"; "+3"];
         ["Strength"; "4/10"; "6/10"; "+2"];
         ["Balance"; "5/10"; "7/10"; "+2"];
         ["Posture"; "4/10"; "7/10"; "+3"];
         ["Core Strength"; "4/10"; "7/10"; "+3"] ] /\
  mental_data sample_before sample_after
  = Ok [ ["Metric"; "Before"; "After"; "Change"];
         ["Stress"; "8/10"; "4/10"; "-4"];
         ["Energy"; "3/10"; "7/10"; "+4"];
         ["Focus"; "4/10"; "7/10"; "+3"];
         ["Sleep"; "5/10"; "8/10"; "+3"];
         ["Mindfulness"; "3/10"; "7/10"; "+4"] ].
Proof. split; vm_compute; reflexivity. Qed.

(** C1 (amended).  For records whose listed scores are integers, the
    progress report holds exactly two tables.  The physical table has a
    header and one row for each of Flexibility, Strength, Balance,
    Posture and Core Strength (key [core]); the mental table has a header
    and one row for each of Stress, Energy, Focus, Sleep and Mindfulness.
    Each row starts with the label, the before value and the after value
    of its field, both written out of ten.  Pain, breathing, spine, hips,
    shoulders, anxiety and mood have no row. *)
Theorem summary_tables_list_ten_metrics
    (W : world) (client_info : dict) (analysis : string)
    (before_data after_data : dict) (fig1 fig2 : figure) (s : state) :
  int_scores (summary_physical.*2 ++ summary_mental.*2) before_data ->
  int_scores (summary_physical.*2 ++ summary_mental.*2) after_data ->
  exists physical_rows mental_rows,
    physical_data before_data after_data = Ok (summary_header :: physical_rows) /\
    mental_data before_data after_data = Ok (summary_header :: mental_rows) /\
    take 3 <$> physical_rows = value_cells before_data after_data <$> summary_physical /\
    take 3 <$> mental_rows = value_cells before_data after_data <$> summary_mental /\
    forall size margin story,
      EvBuild size margin story
        ∈ new_events (create_pdf W client_info analysis before_data after_data fig1 fig2) s ->
      List.filter is_table story
      = [ Table (summary_header :: physical_rows) [120; 80; 80; 80] SummaryTableStyle;
          Table (summary_header :: mental_rows) [120; 80; 80; 80] SummaryTableStyle ].
Proof.
  unfold int_scores. intros Hb Ha.
  apply Forall_app in Hb as [Hbp Hbm]. apply Forall_app in Ha as [Hap Ham].
  pose proof (physical_data_rows _ _ Hbp Hap) as Hp.
  pose proof (mental_data_rows _ _ Hbm Ham) as Hm.
  eexists _, _. split; [exact Hp|]. split; [exact Hm|].
  split; [reflexivity|]. split; [reflexivity|].
  intros size margin story. by apply create_pdf_story.
Qed.

(** The report of the sample records in a world whose libraries are
    strict: the document is built, and its tables are the two summary
    tables. *)
Lemma summary_tables_list_ten_metrics_witness :
  exists physical_rows mental_rows story,
    physical_data sample_before sample_after = Ok (summary_header :: physical_rows) /\
    mental_data sample_before sample_after = Ok (summary_header :: mental_rows) /\
    take 3 <$> physical_rows
      = value_cells sample_before sample_after <$> summary_physical /\
    take 3 <$> mental_rows
      = value_cells sample_before sample_after <$> summary_mental /\
    EvBuild Letter 50 story
      ∈ new_events (create_pdf strict_world main_client_info plain_analysis
                      sample_before sample_after empty_figure empty_figure)
                   initial_state /\
    List.filter is_table story
    = [ Table (summary_header :: physical_rows) [120; 80; 80; 80] SummaryTableStyle;
        Table (summary_header :: mental_rows) [120; 80; 80; 80] SummaryTableStyle ].
Proof.
  destruct (summary_tables_list_ten_metrics strict_world main_client_info plain_analysis
              sample_before sample_after empty_figure empty_figure initial_state)
    as (physical_rows & mental_rows & Hp & Hm & Hpc & Hmc & Hbuilt); [by_lookups..|].
  exists physical_rows, mental_rows.
  eexists. split; [exact Hp|]. split; [exact Hm|]. split; [exact Hpc|]. split; [exact Hmc|].
  assert (forall story,
            new_events (create_pdf strict_world main_client_info plain_analysis
                          sample_before sample_after empty_figure empty_figure)
                       initial_state
            = [EvToImage empty_figure "png" 800 400 2;
               EvToImage empty_figure "png" 800 400 2; EvBuild Letter 50 story] ->
            EvBuild Letter 50 story
              ∈ new_events (create_pdf strict_world main_client_info plain_analysis
                              sample_before sample_after empty_figure empty_figure)
                           initial_state) as Hin.
  { intros story ->. rewrite !elem_of_cons. auto. }
  split.
  - apply Hin. vm_compute. reflexivity.
  - apply Hbuilt with (size := Letter) (margin := 50). apply Hin. vm_compute. reflexivity.
Defined.

(** The report of the sample records is built: one story reaches
    [doc.build]. *)
Example report_of_samples_is_built :
  exists story,
    new_events (create_pdf quiet_world main_client_info
                  ("Good progress." +:+ nl +:+ nl +:+ "1. SUMMARY" +:+ nl +:+ "Steady gains.")
                  sample_before sample_after
                  (Bar (DataFrame [] []) "group" "Physical Metrics Comparison")
                  (Bar (DataFrame [] []) "group" "Mental & Emotional Metrics Comparison"))
               initial_state
    = [ EvToImage (Bar (DataFrame [] []) "group" "Physical Metrics Comparison")
                  "png" 800 400 2;
        EvToImage (Bar (DataFrame [] []) "group" "Mental & Emotional Metrics Comparison")
                  "png" 800 400 2;
        EvBuild Letter 50 story ] /\
    length story = 26%nat.
Proof. eexists. split; vm_compute; reflexivity. Qed.

(** C10. In both summary tables of the progress report, the Change cell
    of every listed metric is the difference of the after value and the
    before value of that metric, written with its sign, a plus sign for
    zero included, and the decimal digits of its absolute value. *)
Theorem change_column_is_signed_difference
    (W : world) (client_info : dict) (analysis : string)
    (before_data after_data : dict) (fig1 fig2 : figure) (s : state) :
  int_scores (summary_physical.*2 ++ summary_mental.*2) before_data ->
  int_scores (summary_physical.*2 ++ summary_mental.*2) after_data ->
  exists physical_rows mental_rows,
    physical_data before_data after_data = Ok (summary_header :: physical_rows) /\
    mental_data before_data after_data = Ok (summary_header :: mental_rows) /\
    (fun row => row !! 3%nat) <$> physical_rows
    = (fun m => Some (signed_decimal (score after_data m.2 - score before_data m.2)))
        <$> summary_physical /\
    (fun row => row !! 3%nat) <$> mental_rows
    = (fun m => Some (signed_decimal (score after_data m.2 - score before_data m.2)))
        <$> summary_mental /\
    signed_decimal 0 = "+0" /\
    forall size margin story,
      EvBuild size margin story
        ∈ new_events (create_pdf W client_info analysis before_data after_data fig1 fig2) s ->
      List.filter is_table story
      = [ Table (summary_header :: physical_rows) [120; 80; 80; 80] SummaryTableStyle;
          Table (summary_header :: mental_rows) [120; 80; 80; 80] SummaryTableStyle ].
Proof.
  unfold int_scores. intros Hb Ha.
  apply Forall_app in Hb as [Hbp Hbm]. apply Forall_app in Ha as [Hap Ham].
  pose proof (physical_data_rows _ _ Hbp Hap) as Hp.
  pose proof (mental_data_rows _ _ Hbm Ham) as Hm.
  eexists _, _. split; [exact Hp|]. split; [exact Hm|].
  split; [|split; [|split; [reflexivity|]]].
  - cbn [fmap list_fmap summary_physical full_row value_cells app lookup list_lookup].
    by rewrite !format_plus_d_signed.
  - cbn [fmap list_fmap summary_mental full_row value_cells app lookup list_lookup].
    by rewrite !format_plus_d_signed.
  - intros size margin story. by apply create_pdf_story.
Qed.

Lemma change_column_is_signed_difference_witness :
  exists physical_rows mental_rows,
    physical_data sample_before default_data = Ok (summary_header :: physical_rows) /\
    mental_data sample_before default_data = Ok (summary_header :: mental_rows) /\
    (fun row => row !! 3%nat) <$> physical_rows
    = (fun m => Some (signed_decimal (score default_data m.2 - score sample_before m.2)))
        <$> summary_physical /\
    (fun row => row !! 3%nat) <$> mental_rows
    = (fun m => Some (signed_decimal (score default_data m.2 - score sample_before m.2)))
        <$> summary_mental /\
    signed_decimal 0 = "+0" /\
    forall size margin story,
      EvBuild size margin story
        ∈ new_events (create_pdf quiet_world main_client_info "" sample_before default_data
                        (Bar (DataFrame [] []) "group" "")
                        (Bar (DataFrame [] []) "group" ""))
                     initial_state ->
      List.filter is_table story
      = [ Table (summary_header :: physical_rows) [120; 80; 80; 80] SummaryTableStyle;
          Table (summary_header :: mental_rows) [120; 80; 80; 80] SummaryTableStyle ].
Proof.
  apply (change_column_is_signed_difference quiet_world main_client_info ""
           sample_before default_data); by_lookups.
Defined.

(** ** The diet plan document *)

(** *** Substrings survive stripping *)

Lemma startswith_nil s : startswith "" s = true.
Proof. by destruct s. Qed.

Lemma py_in_nil s : py_in "" s = true.
Proof. destruct s; reflexivity. Qed.

Lemma py_in_cons w c s : py_in w s = true -> py_in w (String c s) = true.
Proof. intros H. cbn [py_in]. rewrite H. apply orb_true_r. Qed.

Lemma py_in_lstrip w s : py_in w (lstrip s) = true -> py_in w s = true.
Proof.
  induction s as [|c s IH]; [done|]. cbn [lstrip].
  destruct (is_space c); [|done]. intros H. by apply py_in_cons, IH.
Qed.

Lemma startswith_rstrip s : forall w,
  startswith w (rstrip s) = true -> startswith w s = true.
Proof.
  induction s as [|c s IH]; intros w; [done|]. cbn [rstrip].
  destruct w as [|a w]; [done|].
  destruct (rstrip s) as [|b r] eqn:Hr.
  - destruct (is_space c); [done|]. cbn. case_decide; [|done].
    destruct w; [|done]. intros _. apply startswith_nil.
  - cbn. case_decide; [|done]. apply IH.
Qed.

Lemma py_in_rstrip w s : py_in w (rstrip s) = true -> py_in w s = true.
Proof.
  induction s as [|c s IH]; [done|].
  intros H. destruct w as [|a w]; [apply py_in_nil|].
  assert (rstrip (String c s) = "" \/
          exists r, rstrip (String c s) = String c r /\ (r = "" \/ r = rstrip s)) as Hcase.
  { cbn [rstrip]. destruct (rstrip s) as [|b r]; [destruct (is_space c)|]; eauto. }
  destruct Hcase as [Hnil|(r & Hc & Hr)].
  - by rewrite Hnil in H.
  - cbn [py_in]. apply orb_true_iff.
    pose proof H as H'. rewrite Hc in H'. cbn [py_in] in H'.
    apply orb_true_iff in H' as [H'|H'].
    + left. apply startswith_rstrip. by rewrite Hc.
    + right. destruct Hr as [->| ->]; [done|]. by apply IH.
Qed.

Lemma py_in_strip w s : py_in w (strip s) = true -> py_in w s = true.
Proof. intros H. by apply py_in_lstrip, py_in_rstrip. Qed.

Lemma any_in_strip ws s : any_in ws (strip s) = true -> any_in ws s = true.
Proof.
  unfold any_in. rewrite !existsb_exists.
  intros (w & Hw & Hin). exists w. split; [done|]. by apply py_in_strip.
Qed.

(** *** The parse loop *)

Lemma drop_lookup_cons {A} (l : list A) i x :
  l !! i = Some x -> exists rest, drop i l = x :: rest.
Proof.
  revert i. induction l as [|y l IH]; intros [|i]; cbn; try done.
  - intros [= ->]. eauto.
  - apply IH.
Qed.

(** A turn of the loop at a meal line changes nothing. *)
Lemma loop_body_meal_line W lines st raw :
  lines !! idx st = Some raw -> meal_line raw = true ->
  loop_body W lines st = Ok st.
Proof.
  intros Hraw Hm. unfold meal_line in Hm.
  apply andb_true_iff in Hm as [Hm Hmeal]. apply andb_true_iff in Hm as [Hne Hday].
  unfold loop_body. rewrite Hraw. cbn zeta. rewrite Hne. cbn [negb].
  apply negb_true_iff in Hday. rewrite Hday, Hmeal.
  destruct (drop_lookup_cons _ _ _ Hraw) as [rest ->].
  cbn [collect_meal]. rewrite (any_in_strip _ _ Hmeal). cbn.
  by destruct st.
Qed.

(** A turn of the loop at any other line moves to the next line, unless
    the line is a day heading that the markup parser refuses. *)
Lemma loop_body_other_line W lines st raw :
  lines !! idx st = Some raw -> meal_line raw = false ->
  (exists st', loop_body W lines st = Ok st' /\ idx st' = S (idx st)) \/
  (exists e, loop_body W lines st = Raise e /\
             paragraph W (strip raw) "CustomDayHeader" = Raise e).
Proof.
  intros Hraw Hm. unfold meal_line in Hm. unfold loop_body. rewrite Hraw. cbn zeta.
  destruct (truthy (PStr (strip raw))); cbn [negb andb] in *; [|left; by eexists].
  destruct (any_in day_names (strip raw)); cbn [negb andb] in *.
  - destruct (paragraph_cases W (strip raw) "CustomDayHeader") as [-> | [e ->]].
    + left. by eexists.
    + right. by exists e.
  - rewrite Hm. left. by eexists.
Qed.

Lemma loop_body_plain_line W lines st raw :
  lines !! idx st = Some raw -> meal_line raw = false -> plain_text raw = true ->
  exists st', loop_body W lines st = Ok st' /\ idx st' = S (idx st).
Proof.
  intros Hraw Hm Hplain.
  destruct (loop_body_other_line W _ _ _ Hraw Hm) as [?|(e & _ & He)]; [done|].
  rewrite paragraph_plain in He by (by apply plain_text_strip). done.
Qed.

(** Once a line ahead names a meal and no day, the loop does not come to
    its end: it stays at that line for ever, unless an earlier day
    heading is refused by the markup parser. *)
Theorem parse_loop_never_returns W lines st j raw :
  (idx st <= j)%nat -> lines !! j = Some raw -> meal_line raw = true ->
  forall fuel st', parse_loop W fuel lines st <> Ok st'.
Proof.
  intros Hj Hraw Hm fuel. revert st Hj.
  pose proof (lookup_lt_Some _ _ _ Hraw) as Hlen.
  induction fuel as [|fuel IH]; intros st Hj st';
    assert ((idx st <? length lines)%nat = true) as Hlt by (apply Nat.ltb_lt; lia);
    cbn [parse_loop]; rewrite Hlt; [done|].
  apply Nat.ltb_lt in Hlt.
  destruct (lookup_lt_is_Some_2 lines (idx st)) as [raw' Hraw']; [done|].
  destruct (meal_line raw') eqn:Hm'.
  - rewrite (loop_body_meal_line _ _ _ _ Hraw' Hm'). cbn. by apply IH.
  - destruct (loop_body_other_line W _ _ _ Hraw' Hm') as [(st1 & -> & Hidx)|(e & -> & _)];
      cbn; [|done].
    assert (idx st <> j) by (intros <-; congruence).
    apply IH. lia.
Qed.

Theorem parse_loop_never_finishes W lines st j raw :
  (idx st <= j)%nat -> lines !! j = Some raw -> meal_line raw = true ->
  Forall (fun line => plain_text line = true) (take j lines) ->
  forall fuel, parse_loop W fuel lines st = OutOfFuel.
Proof.
  intros Hj Hraw Hm Hplain fuel. revert st Hj.
  pose proof (lookup_lt_Some _ _ _ Hraw) as Hlen.
  induction fuel as [|fuel IH]; intros st Hj;
    assert ((idx st <? length lines)%nat = true) as Hlt by (apply Nat.ltb_lt; lia);
    cbn [parse_loop]; rewrite Hlt; [done|].
  apply Nat.ltb_lt in Hlt.
  destruct (lookup_lt_is_Some_2 lines (idx st)) as [raw' Hraw']; [done|].
  destruct (meal_line raw') eqn:Hm'.
  - rewrite (loop_body_meal_line _ _ _ _ Hraw' Hm'). cbn. by apply IH.
  - assert (idx st <> j) by (intros <-; congruence).
    assert (plain_text raw' = true) as Hp.
    { rewrite Forall_forall in Hplain. apply Hplain.
      apply (list_elem_of_lookup_2 _ (idx st)). rewrite lookup_take_lt by lia. done. }
    destruct (loop_body_plain_line W _ _ _ Hraw' Hm' Hp) as (st' & -> & Hidx). cbn.
    apply IH. lia.
Qed.

Theorem parse_loop_finishes W lines :
  Forall (fun raw => meal_line raw = false) lines ->
  Forall (fun raw => plain_text raw = true) lines ->
  forall fuel st, (length lines - idx st <= fuel)%nat ->
    exists st', parse_loop W fuel lines st = Ok st'.
Proof.
  intros Hall Hplain. induction fuel as [|fuel IH]; intros st Hfuel; cbn [parse_loop];
    destruct (Nat.ltb_spec (idx st) (length lines)) as [Hlt|Hge];
    [lia | by eexists | | by eexists].
  destruct (lookup_lt_is_Some_2 lines (idx st)) as [raw Hraw]; [done|].
  assert (meal_line raw = false) as Hm.
  { rewrite Forall_forall in Hall. apply Hall. by eapply list_elem_of_lookup_2. }
  assert (plain_text raw = true) as Hp.
  { rewrite Forall_forall in Hplain. apply Hplain. by eapply list_elem_of_lookup_2. }
  destruct (loop_body_plain_line W _ _ _ Hraw Hm Hp) as (st' & -> & Hidx). cbn.
  apply IH. lia.
Qed.

(** The lines of a plan without markup hold no markup. *)
Lemma plain_lines plan :
  plain_text plan = true ->
  Forall (fun line => plain_text line = true) (split_on (ascii_of_nat 10) plan).
Proof. apply all_chars_split_on. Qed.

Lemma plain_for_name name :
  plain_text (py_str name) = true -> plain_text ("for " +:+ py_str name) = true.
Proof. intros H. by rewrite plain_text_app, H. Qed.

(** [create_diet_pdf] on a plan with a meal line never gets to
    [doc.build]. *)
Lemma create_diet_pdf_stuck W fuel client_info plan s name profile j raw :
  getitem client_info "name" = Ok name ->
  plain_text (py_str name) = true ->
  profile_data client_info = Ok profile ->
  split_on (ascii_of_nat 10) plan !! j = Some raw -> meal_line raw = true ->
  Forall (fun line => plain_text line = true) (take j (split_on (ascii_of_nat 10) plan)) ->
  create_diet_pdf W fuel client_info plan s = (OutOfFuel, s).
Proof.
  intros Hn Hpn Hp Hraw Hm Hplain. unfold create_diet_pdf.
  rewrite bind_lift, Hn, bind_lift, (paragraph_plain _ _ _ (plain_for_name _ Hpn)).
  rewrite bind_lift, Hp. cbn zeta. rewrite bind_lift.
  rewrite (parse_loop_never_finishes _ _ _ j raw); [done| |done..].
  cbn. lia.
Qed.

(** On a plan without meal lines and without markup the loop ends and
    the document is built, with one unit of fuel for each line. *)
Lemma create_diet_pdf_returns W client_info plan s name profile :
  getitem client_info "name" = Ok name ->
  plain_text (py_str name) = true ->
  profile_data client_info = Ok profile ->
  Forall (fun raw => meal_line raw = false) (split_on (ascii_of_nat 10) plan) ->
  plain_text plan = true ->
  exists story,
    create_diet_pdf W (length (split_on (ascii_of_nat 10) plan)) client_info plan s
    = (match build_answer W story with inl e => Raise e | inr pdf => Ok pdf end,
       State (session s) (log s ++ [EvBuild LandscapeLetter 30 story])).
Proof.
  intros Hn Hpn Hp Hall Hplain. unfold create_diet_pdf.
  rewrite bind_lift, Hn, bind_lift, (paragraph_plain _ _ _ (plain_for_name _ Hpn)).
  rewrite bind_lift, Hp. cbn zeta. rewrite bind_lift.
  edestruct (parse_loop_finishes W _ Hall (plain_lines _ Hplain)) as [st' ->]; [|].
  { cbn [idx]. lia. }
  exists (story st' ++ flush_table (meal_data st') false).
  unfold doc_build, bind, emit, of_answer, raise, ret. cbn -[flush_table].
  by destruct (build_answer W _).
Qed.

Example plain_plan_is_laid_out :
  (create_diet_pdf quiet_world 2 (diet_client_info default_diet_form) plain_plan
     initial_state).1
  = Ok "%PDF".
Proof. vm_compute. reflexivity. Qed.

(** C3 (defect of the code).  On a meal plan in the format that the
    prompt asks for, [create_diet_pdf] does not return: the parse loop
    reaches the line [Breakfast (7:00 AM)], leaves the index where it is,
    and so spends every step budget without reaching the end of the line
    list; no document is built. *)
Theorem create_diet_pdf_never_returns (W : world) (fuel : nat) (s : state) :
  create_diet_pdf W fuel (diet_client_info default_diet_form) sample_plan s
  = (OutOfFuel, s).
Proof.
  eapply (create_diet_pdf_stuck W fuel _ _ s _ _ 1%nat "Breakfast (7:00 AM)");
    try (vm_compute; reflexivity).
  repeat constructor.
Qed.

(** The same run seen from the button: the diet plan handler does not
    return either, since running out of fuel is not an exception that
    its [except] clause could catch. *)
Lemma diet_plan_handler_never_returns fuel :
  (generate_diet_plan_clicked quiet_world fuel (diet_client_info default_diet_form)
     (State saved_session [])).1
  = OutOfFuel.
Proof.
  unfold generate_diet_plan_clicked, try_except, diet_body.
  unfold bind at 1. rewrite (session_dict_run "before_data" _ sample_before) by by_lookups.
  unfold bind at 1. rewrite (session_dict_run "after_data" _ sample_after) by by_lookups.
  unfold bind at 1. unfold generate_dietary_plan. fold fixed_request. rewrite send_prompt.
  destruct (dietary_prompt_ok (diet_client_info default_diet_form) sample_before sample_after
              (diet_client_info_ok default_diet_form)) as [p ->].
  change (first_choice_content quiet_world (fixed_request p)) with (Ok sample_plan).
  unfold bind at 1. rewrite ui_run. cbn [ui_answer quiet_world].
  unfold bind at 1. rewrite ui_run. cbn [ui_answer quiet_world].
  unfold bind at 1.
  rewrite (create_diet_pdf_stuck quiet_world fuel _ _ _ (PStr "")
             [ ["Client Profile"; ""]; ["Height"; "170 cm"]; ["Weight"; "70 kg"];
               ["Dietary Restrictions"; "None"]; ["Health Goals"; "Maintenance"];
               ["Food Allergies"; ""] ]
             1%nat "Breakfast (7:00 AM)")
    by first [vm_compute; reflexivity | repeat constructor].
  reflexivity.
Qed.

(** ** The API key *)













Example client_of_quiet_world :
  get_groq_client quiet_world initial_state
  = (Ok (Groq (PStr "gsk_test")), State empty_session [EvGetenv "GROQ_API_KEY"]).
Proof. vm_compute. reflexivity. Qed.

Example client_of_secrets_world :
  get_groq_client secrets_world initial_state
  = (Ok (Groq (PStr "gsk_secret")),
     State empty_session
       [EvGetenv "GROQ_API_KEY"; EvSecretsContains "GROQ_API_KEY";
        EvSecretsGet "GROQ_API_KEY"]).
Proof. vm_compute. reflexivity. Qed.

Example client_of_no_secrets_world :
  get_groq_client no_secrets_world initial_state
  = (Raise no_secrets_error,
     State empty_session [EvGetenv "GROQ_API_KEY"; EvSecretsContains "GROQ_API_KEY"]) /\
  init_groq_client no_secrets_world initial_state
  = (Raise stop_exception,
     State empty_session
       [EvGetenv "GROQ_API_KEY"; EvSecretsContains "GROQ_API_KEY";
        EvUi (st_error "Failed to initialize Groq client: No secrets found. Valid paths for a secrets.toml file are missing.");
        EvStop]).
Proof. split; vm_compute; reflexivity. Qed.

(** ** The session records *)

(** The first run of [initialize_session_state] makes three separate
    objects, because each record is a copy of its default. *)
Lemma initialize_separates log0 :
  initialize_session_state (State empty_session log0) = (Ok (), State fresh_session log0) /\
  records_separate fresh_session = true.
Proof. split; vm_compute; reflexivity. Qed.

Lemma records_separate_inv ss :
  records_separate ss = true ->
  exists lb la lc db da dc,
    attrs ss !! "before_data" = Some (ARef lb) /\
    attrs ss !! "after_data" = Some (ARef la) /\
    attrs ss !! "client_info" = Some (ARef lc) /\
    lb <> la /\ lb <> lc /\ la <> lc /\
    heap ss !! lb = Some db /\ heap ss !! la = Some da /\ heap ss !! lc = Some dc.
Proof.
  unfold records_separate.
  destruct (attrs ss !! "before_data") as [[lb|]|]; try done.
  destruct (attrs ss !! "after_data") as [[la|]|]; try done.
  destruct (attrs ss !! "client_info") as [[lc|]|]; try done.
  rewrite !andb_true_iff, !bool_decide_eq_true.
  intros [[[[[? ?] ?] [db ?]] [da ?]] [dc ?]].
  by exists lb, la, lc, db, da, dc.
Qed.

(** [session_update] on a record that is present. *)
(** In later runs of the script it changes nothing. *)
Lemma initialize_again s :
  records_separate (session s) = true -> initialize_session_state s = (Ok (), s).
Proof.
  intros (lb & la & lc & db & da & dc & Hb & Ha & Hc & _)%records_separate_inv.
  unfold initialize_session_state, init_attr, session_contains, get_session, when,
    bind, ret.
  cbn. rewrite Hb. cbn. rewrite Ha. cbn. rewrite Hc. cbn. by destruct s.
Qed.

Lemma save_before_state W f s l d :
  attrs (session s) !! "before_data" = Some (ARef l) -> heap (session s) !! l = Some d ->
  (save_before_assessment W f s).2
  = State (Session (<[l := dict_update d (before_update f)]> (heap (session s)))
                   (attrs (session s)))
          (log s ++ [EvUi (st_success "Before assessment saved!")]).
Proof.
  intros Ha Hh. unfold save_before_assessment, bind.
  rewrite (session_update_run _ _ _ _ _ Ha Hh).
  unfold ui, bind, emit, raise, ret. cbn. by destruct (ui_answer W _).
Qed.

Lemma save_after_state W f s l d :
  attrs (session s) !! "after_data" = Some (ARef l) -> heap (session s) !! l = Some d ->
  (save_after_assessment W f s).2
  = State (Session (<[l := dict_update d (after_update f)]> (heap (session s)))
                   (attrs (session s)))
          (log s ++ [EvUi (st_success "After assessment saved!")]).
Proof.
  intros Ha Hh. unfold save_after_assessment, bind.
  rewrite (session_update_run _ _ _ _ _ Ha Hh).
  unfold ui, bind, emit, raise, ret. cbn. by destruct (ui_answer W _).
Qed.

Lemma after_update_dom f : dom (after_update f) = list_to_set after_saved_keys.
Proof.
  unfold after_update. rewrite dom_list_to_map_L. reflexivity.
Qed.

Lemma before_update_dom f : dom (before_update f) = list_to_set before_saved_keys.
Proof.
  unfold before_update. rewrite dom_list_to_map_L. reflexivity.
Qed.

(** Saving keeps the three records separate. *)
Lemma save_before_keeps_separate W f s :
  records_separate (session s) = true ->
  records_separate (session (save_before_assessment W f s).2) = true.
Proof.
  intros Hsep.
  destruct (records_separate_inv _ Hsep)
    as (lb & la & lc & db & da & dc & Hb & Ha & Hc & Hba & Hbc & Hac & Hhb & Hha & Hhc).
  rewrite (save_before_state W f s lb db Hb Hhb).
  unfold records_separate. cbn [session heap attrs]. rewrite Hb, Ha, Hc.
  rewrite lookup_insert_eq, !lookup_insert_ne by done. rewrite Hha, Hhc.
  rewrite !andb_true_iff, !bool_decide_eq_true. eauto 10.
Qed.

(** C8. Each save button overwrites its own record only.  Save Before
    Assessment replaces the before record by its update with the twenty
    values of the form and leaves the after record, the client profile
    and the attributes of the session as they were.  Save After
    Assessment does the same to the after record with its eighteen
    values, which do not include the keys limitations and symptoms, and
    leaves the before record and the client profile as they were.  An
    updated record holds the value of the form under each key that the
    button writes and its old value under every other key. *)
Theorem save_buttons_frame (W : world) (fb : before_form) (fa : after_form) (s : state) :
  records_separate (session s) = true ->
  let sb := session (save_before_assessment W fb s).2 in
  let sa := session (save_after_assessment W fa s).2 in
  (session_lookup sb "before_data"
     = (fun d => dict_update d (before_update fb)) <$> session_lookup (session s) "before_data" /\
   session_lookup sb "after_data" = session_lookup (session s) "after_data" /\
   session_lookup sb "client_info" = session_lookup (session s) "client_info" /\
   attrs sb = attrs (session s)) /\
  (session_lookup sa "after_data"
     = (fun d => dict_update d (after_update fa)) <$> session_lookup (session s) "after_data" /\
   session_lookup sa "before_data" = session_lookup (session s) "before_data" /\
   session_lookup sa "client_info" = session_lookup (session s) "client_info" /\
   attrs sa = attrs (session s)) /\
  (forall d k,
     dict_update d (before_update fb) !! k
     = if bool_decide (k ∈ before_saved_keys) then before_update fb !! k else d !! k) /\
  (forall d k,
     dict_update d (after_update fa) !! k
     = if bool_decide (k ∈ after_saved_keys) then after_update fa !! k else d !! k) /\
  ("limitations" ∉ after_saved_keys) /\ ("symptoms" ∉ after_saved_keys).
Proof.
  intros Hsep. cbn zeta.
  destruct (records_separate_inv _ Hsep)
    as (lb & la & lc & db & da & dc & Hb & Ha & Hc & Hba & Hbc & Hac & Hhb & Hha & Hhc).
  rewrite (save_before_state W fb s lb db Hb Hhb).
  rewrite (save_after_state W fa s la da Ha Hha).
  unfold session_lookup. cbn [session heap attrs]. rewrite Hb, Ha, Hc.
  rewrite !lookup_insert_eq, !lookup_insert_ne by done. rewrite Hhb, Hha.
  repeat split; try done.
  - intros d k. rewrite dict_update_lookup. case_bool_decide as Hk.
    + apply (elem_of_list_to_set (C := gset string)) in Hk.
      rewrite <- (before_update_dom fb) in Hk. apply elem_of_dom in Hk as [v ->]. done.
    + assert (before_update fb !! k = None) as ->; [|done].
      apply not_elem_of_dom. rewrite before_update_dom. by rewrite elem_of_list_to_set.
  - intros d k. rewrite dict_update_lookup. case_bool_decide as Hk.
    + apply (elem_of_list_to_set (C := gset string)) in Hk.
      rewrite <- (after_update_dom fa) in Hk. apply elem_of_dom in Hk as [v ->]. done.
    + assert (after_update fa !! k = None) as ->; [|done].
      apply not_elem_of_dom. rewrite after_update_dom. by rewrite elem_of_list_to_set.
  - apply (bool_decide_eq_false_1 _). vm_compute. reflexivity.
  - apply (bool_decide_eq_false_1 _). vm_compute. reflexivity.
Qed.

Lemma save_buttons_frame_witness :
  records_separate fresh_session = true /\
  session_lookup
    (session (save_before_assessment failing_world sample_before_form
                (State fresh_session [])).2) "after_data"
  = session_lookup fresh_session "after_data" /\
  session_lookup
    (session (save_after_assessment quiet_world sample_after_form
                (State fresh_session [])).2) "before_data"
  = session_lookup fresh_session "before_data".
Proof.
  assert (records_separate (session (State fresh_session [])) = true) as Hsep
    by by_vm.
  split; [exact Hsep|].
  pose proof (save_buttons_frame failing_world sample_before_form sample_after_form
                (State fresh_session []) Hsep) as (Hbefore & _).
  pose proof (save_buttons_frame quiet_world sample_before_form sample_after_form
                (State fresh_session []) Hsep) as (_ & Hafter & _).
  split.
  - exact (proj1 (proj2 Hbefore)).
  - exact (proj1 (proj2 Hafter)).
Defined.

Example saved_records :
  let s := (save_after_assessment quiet_world sample_after_form
              (save_before_assessment quiet_world sample_before_form
                 (State fresh_session [])).2).2 in
  session s = saved_session /\
  sample_after !! "limitations" = Some (PStr "") /\
  sample_before !! "limitations" = Some (PStr "Lower back").
Proof. repeat split; vm_compute; reflexivity. Qed.

(** ** The button handlers *)

(** The handler after its two reads of the session. *)
Lemma generate_analysis_clicked_run W client_info s before_data after_data :
  session_lookup (session s) "before_data" = Some before_data ->
  session_lookup (session s) "after_data" = Some after_data ->
  generate_analysis_clicked W client_info s
  = if both_flexibility_falsy before_data after_data
    then ui W (st_error incomplete_message) s
    else try_except (analysis_body W client_info) (analysis_except W) s.
Proof.
  intros Hb Ha. unfold generate_analysis_clicked, both_flexibility_falsy.
  unfold bind at 1. rewrite (session_dict_run _ _ _ Hb).
  destruct (truthy (dict_get before_data "flexibility")); cbn [negb andb].
  - reflexivity.
  - unfold bind at 1. unfold bind at 1. rewrite (session_dict_run _ _ _ Ha).
    unfold ret. by destruct (truthy (dict_get after_data "flexibility")).
Qed.

(** A [try] block that starts with a Streamlit call logs that call
    first, whatever follows. *)
Lemma try_block_first_event {A} W c (k : M A) (handler : exn -> M A) s :
  emits (fun _ => True) k -> (forall e, emits (fun _ => True) (handler e)) ->
  exists rest,
    log (try_except (ui W c;; k) handler s).2 = log s ++ EvUi c :: rest.
Proof.
  intros Hk Hh.
  assert (emits (fun _ => True) (try_except (bind (ret ()) (fun _ => k)) handler)) as Hrest.
  { apply emits_try_except; [|done]. apply emits_bind; [apply emits_ret|done]. }
  unfold try_except, bind in *. rewrite ui_run. cbn.
  destruct (ui_answer W c) as [e|].
  - destruct (is_Exception e).
    + destruct (Hh e (State (session s) (log s ++ [EvUi c]))) as (evs & -> & _).
      exists evs. cbn. by rewrite <- app_assoc.
    + by exists [].
  - destruct (Hrest (State (session s) (log s ++ [EvUi c]))) as (evs & Hl & _).
    cbn in Hl. exists evs. rewrite Hl. by rewrite <- app_assoc.
Qed.

Lemma analysis_except_emits W e :
  emits (fun ev => ev <> EvUi (st_error incomplete_message)) (analysis_except W e).
Proof. apply emits_ui. intros [=]. Qed.

(** C9. The completeness test of the Generate Analysis handler looks at
    the two flexibility values and at nothing else.  When both are falsy
    (0, for instance) the handler shows the message "Please complete and
    save both before and after assessments first!" and does nothing
    more, whatever the other fields hold; when one of them is truthy the
    handler enters its [try] block, whose first act is the spinner, and
    the message is not shown. *)
Theorem analysis_completeness_check
    (W : world) (client_info : dict) (s : state) (before_data after_data : dict) :
  session_lookup (session s) "before_data" = Some before_data ->
  session_lookup (session s) "after_data" = Some after_data ->
  let clicked := generate_analysis_clicked W client_info in
  (both_flexibility_falsy before_data after_data = true ->
     clicked s = ui W (st_error incomplete_message) s /\
     new_events clicked s = [EvUi (st_error incomplete_message)]) /\
  (both_flexibility_falsy before_data after_data = false ->
     clicked s = try_except (analysis_body W client_info) (analysis_except W) s /\
     exists rest,
       new_events clicked s
       = EvUi (st_spinner "Generating your progress report...") :: rest) /\
  (EvUi (st_error incomplete_message) ∈ new_events clicked s
   <-> both_flexibility_falsy before_data after_data = true).
Proof.
  intros Hb Ha. cbn zeta.
  pose proof (generate_analysis_clicked_run W client_info s _ _ Hb Ha) as Hrun.
  destruct (both_flexibility_falsy before_data after_data).
  - assert (new_events (generate_analysis_clicked W client_info) s
            = [EvUi (st_error incomplete_message)]) as Hev.
    { apply new_events_app. rewrite Hrun, ui_run. reflexivity. }
    split; [|split].
    + intros _. by split.
    + intros [=].
    + split; [done|]. intros _. rewrite Hev. by apply list_elem_of_singleton.
  - pose proof (analysis_body_emits W client_info) as Hbody.
    assert (emits (fun ev => ev <> EvUi (st_error incomplete_message))
              (try_except (analysis_body W client_info) (analysis_except W))) as Hem.
    { apply emits_try_except; [|apply analysis_except_emits].
      eapply emits_mono, Hbody. intros ev Hev. apply Hev. }
    destruct (Hem s) as (evs & Hl & Hevs). rewrite <- Hrun in Hl.
    apply new_events_app in Hl.
    split; [|split].
    + intros [=].
    + intros _. split; [done|]. unfold analysis_body in Hrun.
      match type of Hrun with
      | _ = try_except (bind (ui _ ?c) (fun _ => ?k)) _ _ =>
          destruct (try_block_first_event W c k (analysis_except W) s) as [rest Hrest]
      end.
      * unfold generate_analysis, create_pdf, chart_flowables. repeat emits_step; done.
      * intros e. eapply emits_mono, analysis_except_emits. done.
      * exists rest. apply new_events_app. rewrite Hrun. exact Hrest.
    + split; [|done]. rewrite Hl. intros Hin.
      rewrite Forall_forall in Hevs. by destruct (Hevs _ Hin).
Qed.

(** Every score but flexibility is filled in, flexibility is 0 on both
    sides: the report is refused. *)
Lemma analysis_completeness_check_witness :
  new_events (generate_analysis_clicked quiet_world main_client_info)
    (State (Session (<[0%nat := <["flexibility" := PInt 0]> sample_before]>
                       (<[1%nat := <["flexibility" := PInt 0]> sample_after]> ∅))
                    (attrs saved_session)) [])
  = [EvUi (st_error incomplete_message)].
Proof.
  refine (proj2 (proj1 (analysis_completeness_check quiet_world main_client_info
            (State (Session (<[0%nat := <["flexibility" := PInt 0]> sample_before]>
                               (<[1%nat := <["flexibility" := PInt 0]> sample_after]> ∅))
                            (attrs saved_session)) [])
            (<["flexibility" := PInt 0]> sample_before)
            (<["flexibility" := PInt 0]> sample_after) _ _) _));
    by_vm.
Defined.

Example one_flexibility_value_suffices :
  both_flexibility_falsy (<["flexibility" := PInt 0]> sample_before) sample_after = false /\
  both_flexibility_falsy default_data default_data = true.
Proof. split; vm_compute; reflexivity. Qed.

(** With a working error box, no [Exception] leaves a [try] block whose
    handler shows the error. *)
Lemma try_except_no_escape W (body : M unit) (msg : exn -> string) s e :
  error_box_works W ->
  (try_except body (fun e => ui W (st_error (msg e))) s).1 = Raise e ->
  is_Exception e = false.
Proof.
  intros HW. unfold try_except.
  destruct (body s) as [[[]|e'|] s'] eqn:Hb; cbn [fst]; try done.
  destruct (is_Exception e') eqn:He'.
  - rewrite ui_run, HW. done.
  - cbn [fst]. by intros [= <-].
Qed.

Lemma save_before_run W f s d :
  session_lookup (session s) "before_data" = Some d ->
  (save_before_assessment W f s).1
  = match ui_answer W (st_success "Before assessment saved!") with
    | Some e => Raise e
    | None => Ok ()
    end /\
  new_events (save_before_assessment W f) s = [EvUi (st_success "Before assessment saved!")].
Proof.
  intros (l & Ha & Hh)%session_lookup_inv.
  assert (save_before_assessment W f s
          = ui W (st_success "Before assessment saved!")
              (State (Session (<[l := dict_update d (before_update f)]> (heap (session s)))
                              (attrs (session s))) (log s))) as Hrun.
  { unfold save_before_assessment, bind.
    by rewrite (session_update_run _ _ _ _ _ Ha Hh). }
  split.
  - rewrite Hrun, ui_run. reflexivity.
  - apply new_events_app. rewrite Hrun, ui_run. reflexivity.
Qed.

Lemma save_after_run W f s d :
  session_lookup (session s) "after_data" = Some d ->
  (save_after_assessment W f s).1
  = match ui_answer W (st_success "After assessment saved!") with
    | Some e => Raise e
    | None => Ok ()
    end /\
  new_events (save_after_assessment W f) s = [EvUi (st_success "After assessment saved!")].
Proof.
  intros (l & Ha & Hh)%session_lookup_inv.
  assert (save_after_assessment W f s
          = ui W (st_success "After assessment saved!")
              (State (Session (<[l := dict_update d (after_update f)]> (heap (session s)))
                              (attrs (session s))) (log s))) as Hrun.
  { unfold save_after_assessment, bind.
    by rewrite (session_update_run _ _ _ _ _ Ha Hh). }
  split.
  - rewrite Hrun, ui_run. reflexivity.
  - apply new_events_app. rewrite Hrun, ui_run. reflexivity.
Qed.

(** C6 (amended).  The two generation handlers wrap their work in
    [try] / [except Exception]: when [st.error] itself returns, no
    exception derived from [Exception] leaves the Generate Analysis or
    the Generate Personalized Diet Plan handler, and an exception of that
    kind raised by the work is reported through [st.error] with a fixed
    prefix followed by its text.  The completeness test of Generate
    Analysis stands before the [try].  The two save handlers have no
    exception handler: an exception raised by their [st.success] call
    leaves the handler and no error box is shown. *)
Theorem generation_handlers_catch
    (W : world) (fuel : nat) (client_info diet_client : dict) (s : state)
    (before_data after_data : dict) :
  error_box_works W ->
  session_lookup (session s) "before_data" = Some before_data ->
  session_lookup (session s) "after_data" = Some after_data ->
  (forall e, (generate_analysis_clicked W client_info s).1 = Raise e ->
             is_Exception e = false) /\
  (forall e, (generate_diet_plan_clicked W fuel diet_client s).1 = Raise e ->
             is_Exception e = false) /\
  (forall e s',
     both_flexibility_falsy before_data after_data = false ->
     analysis_body W client_info s = (Raise e, s') -> is_Exception e = true ->
     generate_analysis_clicked W client_info s
     = (Ok (),
        State (session s')
          (log s' ++ [EvUi (st_error ("An error occurred: " +:+ exn_msg e))]))) /\
  (forall e s',
     diet_body W fuel diet_client s = (Raise e, s') -> is_Exception e = true ->
     generate_diet_plan_clicked W fuel diet_client s
     = (Ok (),
        State (session s')
          (log s' ++ [EvUi (st_error ("An error occurred while generating the diet plan: "
                                        +:+ exn_msg e))]))) /\
  (forall fb e,
     ui_answer W (st_success "Before assessment saved!") = Some e ->
     (save_before_assessment W fb s).1 = Raise e /\
     new_events (save_before_assessment W fb) s
     = [EvUi (st_success "Before assessment saved!")]) /\
  (forall fa e,
     ui_answer W (st_success "After assessment saved!") = Some e ->
     (save_after_assessment W fa s).1 = Raise e /\
     new_events (save_after_assessment W fa) s
     = [EvUi (st_success "After assessment saved!")]).
Proof.
  intros HW Hb Ha.
  pose proof (generate_analysis_clicked_run W client_info s _ _ Hb Ha) as Hrun.
  repeat apply conj.
  - intros e. rewrite Hrun.
    destruct (both_flexibility_falsy before_data after_data).
    + by rewrite ui_run, HW.
    + by apply try_except_no_escape.
  - intros e. by apply try_except_no_escape.
  - intros e s' Hf Hbody He. rewrite Hrun, Hf.
    rewrite (try_except_caught _ _ _ _ _ Hbody He).
    unfold analysis_except. by rewrite ui_run, HW.
  - intros e s' Hbody He. unfold generate_diet_plan_clicked.
    rewrite (try_except_caught _ _ _ _ _ Hbody He). by rewrite ui_run, HW.
  - intros fb e He. destruct (save_before_run W fb s _ Hb) as [H1 H2].
    by rewrite H1, He.
  - intros fa e He. destruct (save_after_run W fa s _ Ha) as [H1 H2].
    by rewrite H1, He.
Qed.

(** In [failing_world] the refusal of the service is caught by the
    analysis handler and shown, and the exception of [st.success] leaves
    the save handler. *)
Lemma generation_handlers_catch_witness :
  generate_analysis_clicked failing_world main_client_info (State saved_session [])
  = (Ok (),
     State (session (analysis_body failing_world main_client_info
                       (State saved_session [])).2)
           (log (analysis_body failing_world main_client_info
                   (State saved_session [])).2
              ++ [EvUi (st_error "An error occurred: rate limit")])) /\
  (save_before_assessment failing_world sample_before_form (State saved_session [])).1
  = Raise (Exn OtherException "connection lost").
Proof.
  assert (error_box_works failing_world) as HW by (intros msg; reflexivity).
  assert (session_lookup (session (State saved_session [])) "before_data"
          = Some sample_before) as Hb by by_vm.
  assert (session_lookup (session (State saved_session [])) "after_data"
          = Some sample_after) as Ha by by_vm.
  pose proof (generation_handlers_catch failing_world 0 main_client_info
                main_client_info (State saved_session []) sample_before sample_after
                HW Hb Ha) as (_ & _ & Hcaught & _ & Hsave & _).
  split.
  - apply (Hcaught (Exn OtherException "rate limit")); [by_vm|by_vm|reflexivity].
  - apply (Hsave sample_before_form (Exn OtherException "connection lost")). reflexivity.
Defined.

(** C6 (as stated).  In a world whose [st.success] raises, the exception
    leaves the Save Before Assessment handler: it is not true that each
    of the four handlers catches every exception. *)
Lemma save_before_exception_escapes : ~ save_before_catches_all.
Proof.
  intros H.
  apply (H failing_world sample_before_form (State fresh_session [])
           (Exn OtherException "connection lost")).
  vm_compute. reflexivity.
Qed.

Example save_before_in_failing_world :
  (save_before_assessment failing_world sample_before_form (State fresh_session [])).1
  = Raise (Exn OtherException "connection lost") /\
  new_events (save_before_assessment failing_world sample_before_form)
             (State fresh_session [])
  = [EvUi (st_success "Before assessment saved!")].
Proof. split; vm_compute; reflexivity. Qed.

(** A failure inside the [try] block of the analysis handler is shown
    in an error box and the handler returns. *)
Example analysis_failure_is_reported :
  (generate_analysis_clicked failing_world main_client_info (State saved_session [])).1
  = Ok () /\
  last (new_events (generate_analysis_clicked failing_world main_client_info)
          (State saved_session []))
  = Some (EvUi (st_error "An error occurred: rate limit")).
Proof. split; vm_compute; reflexivity. Qed.
(** * Further properties of the code *)

(** ** Missing fields *)

Lemma has_keys_elem ks d k : has_keys ks d -> k ∈ ks -> is_Some (d !! k).
Proof. unfold has_keys. rewrite Forall_forall. auto. Qed.

(** Case analysis on [d !! k] in a goal about a chain of subscripts: the
    missing case must be closed by the key error of [k]. *)
Ltac key_case d k :=
  let H := fresh "Hk" in
  destruct (d !! k) eqn:H; cbn -[repr_str];
  [| exists k; split; [rewrite ?elem_of_cons; tauto|split; [reflexivity|auto]] ].

Ltac key_cases b a ks :=
  lazymatch ks with
  | ?k :: ?ks' => key_case b k; key_case a k; key_cases b a ks'
  | _ => idtac
  end.

Lemma physical_metrics_cases before_data after_data :
  match physical_metrics before_data after_data with
  | Ok _ => has_keys physical_fields before_data /\ has_keys physical_fields after_data
  | Raise e =>
      exists k, k ∈ physical_fields /\ e = Exn KeyError (repr_str k) /\
                (before_data !! k = None \/ after_data !! k = None)
  | OutOfFuel => False
  end.
Proof.
  unfold physical_metrics, getitem, physical_fields.
  let ks := eval cbv in physical_fields in key_cases before_data after_data ks.
  unfold has_keys. split; repeat (constructor; [eauto|]); constructor.
Qed.

Lemma mental_metrics_cases before_data after_data :
  match mental_metrics before_data after_data with
  | Ok _ => has_keys mental_fields before_data /\ has_keys mental_fields after_data
  | Raise e =>
      exists k, k ∈ mental_fields /\ e = Exn KeyError (repr_str k) /\
                (before_data !! k = None \/ after_data !! k = None)
  | OutOfFuel => False
  end.
Proof.
  unfold mental_metrics, getitem, mental_fields.
  let ks := eval cbv in mental_fields in key_cases before_data after_data ks.
  unfold has_keys. split; repeat (constructor; [eauto|]); constructor.
Qed.

(** How [create_comparison_charts] ends: with the figures, only when
    both records hold the seventeen score keys; with the [KeyError] of a
    score key that a record lacks; or, when the keys are there, with the
    exception of a [px.bar] call. *)
Lemma create_comparison_charts_cases W before_data after_data :
  match create_comparison_charts W before_data after_data with
  | Ok _ =>
      has_keys (physical_fields ++ mental_fields) before_data /\
      has_keys (physical_fields ++ mental_fields) after_data
  | Raise e =>
      (exists k, k ∈ physical_fields ++ mental_fields /\
                 e = Exn KeyError (repr_str k) /\
                 (before_data !! k = None \/ after_data !! k = None)) \/
      (has_keys (physical_fields ++ mental_fields) before_data /\
       has_keys (physical_fields ++ mental_fields) after_data)
  | OutOfFuel => False
  end.
Proof.
  unfold create_comparison_charts.
  pose proof (physical_metrics_cases before_data after_data) as Hp.
  pose proof (mental_metrics_cases before_data after_data) as Hm.
  destruct (physical_metrics before_data after_data) as [physical|e|];
    cbn [mbind outcome_bind obind]; [| |done].
  - destruct (mental_metrics before_data after_data) as [mental|e|];
      cbn [mbind outcome_bind obind]; [| |done].
    + destruct Hp as [Hpb Hpa], Hm as [Hmb Hma].
      assert (has_keys (physical_fields ++ mental_fields) before_data /\
              has_keys (physical_fields ++ mental_fields) after_data) as Hkeys
        by (split; by apply Forall_app).
      destruct (px_bar_cases W (Transpose (DataFrame physical ["Before"; "After"]))
                  "group" "Physical Metrics Comparison") as [-> | [e ->]];
        cbn [mbind outcome_bind obind]; [|by right].
      destruct (px_bar_cases W (Transpose (DataFrame mental ["Before"; "After"]))
                  "group" "Mental & Emotional Metrics Comparison") as [-> | [e ->]];
        cbn [mbind outcome_bind obind]; [done|by right].
    + destruct Hm as (k & Hk & He & Hnone). left. exists k.
      split; [apply elem_of_app; by right|done].
  - destruct Hp as (k & Hk & He & Hnone). left. exists k.
    split; [apply elem_of_app; by left|done].
Qed.

(** A record that lacks a score key: the [KeyError] comes from the dict
    literals, before any frame or figure is made. *)
Lemma create_comparison_charts_missing W before_data after_data :
  ~ (has_keys (physical_fields ++ mental_fields) before_data /\
     has_keys (physical_fields ++ mental_fields) after_data) ->
  exists k, k ∈ physical_fields ++ mental_fields /\
            (before_data !! k = None \/ after_data !! k = None) /\
            create_comparison_charts W before_data after_data
            = Raise (Exn KeyError (repr_str k)).
Proof.
  intros Hmissing.
  pose proof (create_comparison_charts_cases W before_data after_data) as Hc.
  destruct (create_comparison_charts W before_data after_data) as [figs|e|];
    [done| |done].
  destruct Hc as [(k & Hk & -> & Hnone)|Hkeys]; [|done]. by exists k.
Qed.

Lemma fstring_cases parts :
  match fstring parts with
  | Ok _ => Forall is_ok parts
  | Raise e => Exists (fun p => p = Raise e) parts
  | OutOfFuel => Exists (fun p => p = OutOfFuel) parts
  end.
Proof.
  induction parts as [|p ps IH]; cbn; [constructor|].
  destruct p as [s|e|]; cbn; try (by constructor).
  destruct (fstring ps) as [t|e|]; cbn.
  - by constructor.
  - by apply Exists_cons_tl.
  - by apply Exists_cons_tl.
Qed.

Lemma fmt_getitem_ok d k : is_ok (fmt (getitem d k)) -> is_Some (d !! k).
Proof. unfold fmt, getitem. destruct (d !! k); [eauto|done]. Qed.

Lemma joined_getitem_ok sep d k :
  is_ok (joined sep (getitem d k)) -> is_Some (d !! k) /\ joinable d k.
Proof.
  unfold joined, getitem, joinable. destruct (d !! k) as [[| | |]|]; cbn; try done; eauto.
Qed.

Lemma fmt_getitem_raise d k e : fmt (getitem d k) = Raise e -> lookup_error e.
Proof.
  unfold fmt, getitem, lookup_error. destruct (d !! k); cbn; [done|].
  intros [= <-]. by left.
Qed.

Lemma joined_getitem_raise sep d k e : joined sep (getitem d k) = Raise e -> lookup_error e.
Proof.
  unfold joined, getitem, lookup_error. destruct (d !! k) as [[| | |]|]; cbn; try done;
    intros [= <-]; auto.
Qed.

Lemma fmt_getitem_fuel d k : fmt (getitem d k) <> OutOfFuel.
Proof. unfold fmt, getitem. by destruct (d !! k). Qed.

Lemma joined_getitem_fuel sep d k : joined sep (getitem d k) <> OutOfFuel.
Proof. unfold joined, getitem. by destruct (d !! k) as [[| | |]|]. Qed.

(** The parts of an f-string that can fail are its fields. *)
Ltac split_parts H :=
  repeat (apply Forall_cons in H as [? H]);
  repeat match goal with
  | X : is_ok (lit _) |- _ => clear X
  | X : is_ok (fmt (getitem _ _)) |- _ => apply fmt_getitem_ok in X
  | X : is_ok (joined _ (getitem _ _)) |- _ => apply joined_getitem_ok in X as [? ?]
  end.

Ltac failing_part H :=
  repeat (apply Exists_cons in H as [H|H];
          [ first [ discriminate H
                  | by apply fmt_getitem_raise in H
                  | by apply joined_getitem_raise in H
                  | by apply fmt_getitem_fuel in H
                  | by apply joined_getitem_fuel in H ] |]);
  by apply Exists_nil in H.

Lemma analysis_prompt_cases before_data after_data client_info :
  match analysis_prompt before_data after_data client_info with
  | Ok _ => analysis_inputs_ok before_data after_data client_info
  | Raise e => lookup_error e
  | OutOfFuel => False
  end.
Proof.
  unfold analysis_prompt.
  match goal with |- match fstring ?ps with _ => _ end => pose proof (fstring_cases ps) as H end.
  destruct (fstring _) as [p|e|].
  - split_parts H.
    unfold analysis_inputs_ok, has_keys, analysis_before_keys, analysis_after_keys,
      analysis_client_keys, physical_fields, mental_fields. cbn [app].
    repeat split; try assumption; repeat (constructor; [assumption|]); constructor.
  - failing_part H.
  - failing_part H.
Qed.

Lemma dietary_prompt_cases client_info before_data after_data :
  match dietary_prompt client_info before_data after_data with
  | Ok _ => dietary_inputs_ok client_info
  | Raise e => lookup_error e
  | OutOfFuel => False
  end.
Proof.
  unfold dietary_prompt.
  match goal with |- match fstring ?ps with _ => _ end => pose proof (fstring_cases ps) as H end.
  destruct (fstring _) as [p|e|].
  - split_parts H.
    unfold dietary_inputs_ok, has_keys, dietary_client_keys.
    repeat split; try assumption; repeat (constructor; [assumption|]); constructor.
  - failing_part H.
  - failing_part H.
Qed.

(** X1. A record that lacks a score key makes
    [create_comparison_charts] raise the [KeyError] of a score key that
    one of the records lacks, whatever the libraries do: the two dict
    literals are evaluated before any frame or figure is made.  The
    function returns figures only for records that hold all seventeen
    score keys, and it does return them for assessment records, whose
    scores are integers. *)
Theorem create_comparison_charts_needs_every_score
    (W : world) (before_data after_data : dict) :
  (~ (has_keys (physical_fields ++ mental_fields) before_data /\
      has_keys (physical_fields ++ mental_fields) after_data) ->
   exists k, k ∈ physical_fields ++ mental_fields /\
             (before_data !! k = None \/ after_data !! k = None) /\
             create_comparison_charts W before_data after_data
             = Raise (Exn KeyError (repr_str k))) /\
  (forall figs, create_comparison_charts W before_data after_data = Ok figs ->
     has_keys (physical_fields ++ mental_fields) before_data /\
     has_keys (physical_fields ++ mental_fields) after_data) /\
  (int_scores (physical_fields ++ mental_fields) before_data ->
   int_scores (physical_fields ++ mental_fields) after_data ->
   exists figs, create_comparison_charts W before_data after_data = Ok figs) /\
  create_comparison_charts W before_data after_data <> OutOfFuel.
Proof.
  split; [apply create_comparison_charts_missing|].
  pose proof (create_comparison_charts_cases W before_data after_data) as Hc.
  split; [|split].
  - intros figs Hfigs. by rewrite Hfigs in Hc.
  - intros Hb Ha. eexists. by apply charts_of_int_scores.
  - intros Hf. by rewrite Hf in Hc.
Qed.

Example missing_score_raises_key_error :
  create_comparison_charts strict_world (delete "pain" sample_before) sample_after
  = Raise (Exn KeyError "'pain'").
Proof. by_vm. Qed.

(** X2. [generate_analysis] sends its one request exactly when the
    records hold every field that the prompt formats and the two joined
    fields can be joined.  Otherwise it raises a [KeyError] or a
    [TypeError] while the prompt is built: no request is sent and the
    state is as before. *)
Theorem generate_analysis_missing_field
    (W : world) (before_data after_data client_info : dict) (s : state) :
  (analysis_inputs_ok before_data after_data client_info <->
   exists r, new_events (generate_analysis W before_data after_data client_info) s
             = [EvChat r]) /\
  (~ analysis_inputs_ok before_data after_data client_info ->
   exists e, lookup_error e /\
             generate_analysis W before_data after_data client_info s = (Raise e, s)).
Proof.
  pose proof (analysis_prompt_cases before_data after_data client_info) as Hc.
  pose proof (analysis_prompt_ok before_data after_data client_info) as Hok.
  unfold generate_analysis. fold fixed_request. rewrite sent_requests, send_prompt.
  destruct (analysis_prompt before_data after_data client_info) as [p|e|]; [| |done].
  - split; [|done]. split; eauto.
  - split; [|eauto].
    split; [|by intros [? ?]]. intros [p Hp]%Hok. discriminate Hp.
Qed.

(** X3. The same for [generate_dietary_plan] and the seven fields of the
    client profile that its prompt formats. *)
Theorem generate_dietary_plan_missing_field
    (W : world) (client_info before_data after_data : dict) (s : state) :
  (dietary_inputs_ok client_info <->
   exists r, new_events (generate_dietary_plan W client_info before_data after_data) s
             = [EvChat r]) /\
  (~ dietary_inputs_ok client_info ->
   exists e, lookup_error e /\
             generate_dietary_plan W client_info before_data after_data s = (Raise e, s)).
Proof.
  pose proof (dietary_prompt_cases client_info before_data after_data) as Hc.
  pose proof (dietary_prompt_ok client_info before_data after_data) as Hok.
  unfold generate_dietary_plan. fold fixed_request. rewrite sent_requests, send_prompt.
  destruct (dietary_prompt client_info before_data after_data) as [p|e|]; [| |done].
  - split; [|done]. split; eauto.
  - split; [|eauto].
    split; [|by intros [? ?]]. intros [p Hp]%Hok. discriminate Hp.
Qed.

Example missing_name_sends_nothing :
  generate_dietary_plan quiet_world (delete "name" (diet_client_info default_diet_form))
    sample_before sample_after initial_state
  = (Raise (Exn KeyError "'name'"), initial_state).
Proof. by_vm. Qed.

(** ** The sections of the analysis text *)

Lemma split_once_cases c s :
  if has_char c s
  then exists h t, split_once c s = [h; t]
  else split_once c s = [s].
Proof.
  induction s as [|a s IH]; cbn; [done|].
  case_decide as Hac.
  - subst. rewrite bool_decide_eq_true_2 by done. cbn. eauto.
  - rewrite bool_decide_eq_false_2 by done. cbn.
    destruct (has_char c s).
    + destruct IH as (h & t & ->). eauto.
    + by rewrite IH.
Qed.

(** A numbered heading without a second line fails at the unpacking,
    before any paragraph of its section is made. *)
Lemma section_flowables_heading_alone W section :
  heading_alone section = true -> section_flowables W section = Raise unpack_error.
Proof.
  unfold heading_alone, section_flowables.
  destruct (strip section) as [|c r]; [done|].
  destruct (isdigit c && py_in ". " section); cbn [andb]; [|done].
  pose proof (split_once_cases (ascii_of_nat 10) section) as H.
  destruct (has_char (ascii_of_nat 10) section); cbn [negb]; [done|].
  intros _. by rewrite H.
Qed.

Lemma section_flowables_cases W section :
  plain_text section = true ->
  if heading_alone section
  then section_flowables W section = Raise unpack_error
  else exists fs, section_flowables W section = Ok fs.
Proof.
  intros Hplain.
  destruct (heading_alone section) eqn:Hh; [by apply section_flowables_heading_alone|].
  pose proof (plain_text_strip _ Hplain) as Hstrip.
  unfold heading_alone in Hh. unfold section_flowables.
  destruct (strip section) as [|c r]; [by eexists|].
  destruct (isdigit c && py_in ". " section); cbn [andb] in Hh.
  - pose proof (split_once_cases (ascii_of_nat 10) section) as H.
    pose proof (all_chars_split_once _ (ascii_of_nat 10) _ Hplain) as Hparts.
    destruct (has_char (ascii_of_nat 10) section); [|done].
    destruct H as (h & t & Heq). rewrite Heq in Hparts |- *.
    apply Forall_cons in Hparts as [Hh' Hparts]. apply Forall_cons in Hparts as [Ht' _].
    rewrite !paragraph_plain by (by apply plain_text_strip). by eexists.
  - rewrite paragraph_plain by done. by eexists.
Qed.

Lemma analysis_flowables_cases W sections :
  Forall (fun section => plain_text section = true) sections ->
  if existsb heading_alone sections
  then analysis_flowables W sections = Raise unpack_error
  else exists fs, analysis_flowables W sections = Ok fs.
Proof.
  induction sections as [|sec secs IH]; cbn; [by eexists|].
  intros [Hsec Hsecs]%Forall_cons. specialize (IH Hsecs).
  pose proof (section_flowables_cases W sec Hsec) as Hs.
  destruct (heading_alone sec); cbn [orb].
  - by rewrite Hs.
  - destruct Hs as [fs ->]. cbn.
    destruct (existsb heading_alone secs).
    + by rewrite IH.
    + destruct IH as [gs ->]. by eexists.
Qed.

Lemma plain_sections analysis :
  plain_text analysis = true ->
  Forall (fun section => plain_text section = true) (split_blank analysis).
Proof. apply all_chars_split_blank. Qed.

Lemma chart_flowables_run W fig title s :
  chart_flowables W fig title s
  = (match to_image_answer W fig with
     | inl e => Raise e
     | inr png => Ok [Paragraph title "CustomBody"; Image png 4 7; Spacer 1 20]
     end,
     State (session s) (log s ++ [EvToImage fig "png" 800 400 2])).
Proof.
  unfold chart_flowables, pio_to_image, bind, emit, of_answer, raise, ret. cbn.
  by destruct (to_image_answer W fig).
Qed.

Section CreatePdfRuns.
Context (W : world) (client_info : dict) (analysis : string)
        (before_data after_data : dict) (fig1 fig2 : figure) (s : state).
Context (name experience : pyval) (png1 png2 : bytes)
        (physical mental : list (list string)).
Hypothesis Hname : getitem client_info "name" = Ok name.
Hypothesis Hexp : getitem client_info "previous_yoga_experience" = Ok experience.
Hypothesis Hplain_name : plain_text (py_str name) = true.
Hypothesis Hplain_exp : plain_text (py_str experience) = true.
Hypothesis Hplain_date : plain_text (now_strftime W "%B %d, %Y") = true.
Hypothesis Himg1 : to_image_answer W fig1 = inr png1.
Hypothesis Himg2 : to_image_answer W fig2 = inr png2.
Hypothesis Hphys : physical_data before_data after_data = Ok physical.
Hypothesis Hment : mental_data before_data after_data = Ok mental.

Lemma create_pdf_run :
  create_pdf W client_info analysis before_data after_data fig1 fig2 s
  = match analysis_flowables W (split_blank analysis) with
    | Ok sections =>
        let story := report_front W name experience png1 png2 physical mental
                       ++ sections in
        (match build_answer W story with inl e => Raise e | inr pdf => Ok pdf end,
         State (session s)
           (log s ++ [EvToImage fig1 "png" 800 400 2; EvToImage fig2 "png" 800 400 2;
                      EvBuild Letter 50 story]))
    | Raise e =>
        (Raise e,
         State (session s)
           (log s ++ [EvToImage fig1 "png" 800 400 2; EvToImage fig2 "png" 800 400 2]))
    | OutOfFuel =>
        (OutOfFuel,
         State (session s)
           (log s ++ [EvToImage fig1 "png" 800 400 2; EvToImage fig2 "png" 800 400 2]))
    end.
Proof.
  unfold create_pdf.
  rewrite bind_lift, Hname, bind_lift, paragraph_plain
    by (by rewrite plain_text_app, Hplain_name).
  cbn zeta. rewrite bind_lift, paragraph_plain by (by rewrite plain_text_app, Hplain_date).
  rewrite bind_lift, Hexp, bind_lift, paragraph_plain
    by (by rewrite plain_text_app, Hplain_exp).
  cbn zeta. unfold bind at 1. rewrite chart_flowables_run, Himg1.
  unfold bind at 1. rewrite chart_flowables_run, Himg2.
  rewrite bind_lift, Hphys, bind_lift, Hment. cbn zeta. rewrite bind_lift.
  cbn [session log]. rewrite <- !app_assoc. cbn [app].
  destruct (analysis_flowables W (split_blank analysis)) as [fs| |]; try reflexivity.
  unfold doc_build, bind, emit, of_answer, ret, raise. cbn [fst snd session log].
  rewrite <- !app_assoc. cbn [app].
  by destruct (build_answer W _).
Qed.

(** X4. When the client profile, the images and the summary tables are
    in order, name, experience, date and analysis hold no markup, and
    some section of the analysis text is a numbered heading without a
    second line, [create_pdf] raises the [ValueError] of the failed
    unpacking after the two image exports, and [doc.build] is not
    called. *)
Theorem create_pdf_lone_heading_fails :
  plain_text analysis = true ->
  existsb heading_alone (split_blank analysis) = true ->
  create_pdf W client_info analysis before_data after_data fig1 fig2 s
  = (Raise unpack_error,
     State (session s)
       (log s ++ [EvToImage fig1 "png" 800 400 2; EvToImage fig2 "png" 800 400 2])).
Proof.
  intros Hplain Hx. rewrite create_pdf_run.
  pose proof (analysis_flowables_cases W _ (plain_sections _ Hplain)) as Hc.
  rewrite Hx in Hc. by rewrite Hc.
Qed.

(** X5. When the client profile, the images and the summary tables are
    in order, name, experience, date and analysis hold no markup, the
    analysis is ASCII text and no section of it is a lone numbered
    heading, [create_pdf] exports the two images, calls [doc.build] once
    on the front matter followed by the flowables of the sections, and
    returns what [doc.build] returns. *)
Theorem create_pdf_builds_once :
  plain_text analysis = true ->
  ascii_text analysis ->
  existsb heading_alone (split_blank analysis) = false ->
  exists sections,
    analysis_flowables W (split_blank analysis) = Ok sections /\
    create_pdf W client_info analysis before_data after_data fig1 fig2 s
    = (match build_answer W (report_front W name experience png1 png2 physical mental
                               ++ sections) with
       | inl e => Raise e
       | inr pdf => Ok pdf
       end,
       State (session s)
         (log s ++ [EvToImage fig1 "png" 800 400 2; EvToImage fig2 "png" 800 400 2;
                    EvBuild Letter 50
                      (report_front W name experience png1 png2 physical mental
                         ++ sections)])).
Proof.
  intros Hplain _ Hx. rewrite create_pdf_run.
  pose proof (analysis_flowables_cases W _ (plain_sections _ Hplain)) as Hc.
  rewrite Hx in Hc. destruct Hc as [sections ->]. by exists sections.
Qed.
End CreatePdfRuns.

Lemma create_pdf_lone_heading_fails_witness :
  create_pdf strict_world main_client_info lone_heading_analysis sample_before sample_after
    empty_figure empty_figure initial_state
  = (Raise unpack_error,
     State (session initial_state)
       (log initial_state ++ [EvToImage empty_figure "png" 800 400 2;
                              EvToImage empty_figure "png" 800 400 2])).
Proof.
  apply (create_pdf_lone_heading_fails strict_world main_client_info lone_heading_analysis
           sample_before sample_after empty_figure empty_figure initial_state
           (PStr "") (PStr "") "PNG" "PNG" sample_physical_table sample_mental_table);
    by_vm.
Defined.

Lemma create_pdf_builds_once_witness :
  exists sections,
    analysis_flowables strict_world (split_blank plain_analysis) = Ok sections /\
    create_pdf strict_world main_client_info plain_analysis sample_before sample_after
      empty_figure empty_figure initial_state
    = (match build_answer strict_world
               (report_front strict_world (PStr "") (PStr "") "PNG" "PNG"
                  sample_physical_table sample_mental_table ++ sections) with
       | inl e => Raise e
       | inr pdf => Ok pdf
       end,
       State (session initial_state)
         (log initial_state
            ++ [EvToImage empty_figure "png" 800 400 2;
                EvToImage empty_figure "png" 800 400 2;
                EvBuild Letter 50
                  (report_front strict_world (PStr "") (PStr "") "PNG" "PNG"
                     sample_physical_table sample_mental_table ++ sections)])).
Proof.
  apply (create_pdf_builds_once strict_world main_client_info plain_analysis
           sample_before sample_after empty_figure empty_figure initial_state
           (PStr "") (PStr "") "PNG" "PNG" sample_physical_table sample_mental_table);
    try unfold ascii_text; by_vm.
Defined.

(** Seen from the button: a report whose first heading stands alone in
    its paragraph ends in an error box, and nothing is stored or offered
    for download. *)
Example lone_heading_at_the_button :
  let r := generate_analysis_clicked (answering_world lone_heading_analysis)
             main_client_info (State saved_session []) in
  r.1 = Ok () /\
  last (log r.2)
  = Some (EvUi (st_error
                  "An error occurred: not enough values to unpack (expected 2, got 1)")) /\
  attrs (session r.2) !! "progress_pdf" = None.
Proof. cbn zeta. repeat split; by_vm. Qed.

(** An analysis with an unclosed tag, when the markup parser refuses it:
    the paragraph fails after the two image exports, the handler shows
    the error, and nothing is built, stored or offered. *)
Example markup_in_the_analysis_is_refused :
  let r := generate_analysis_clicked (answering_world markup_analysis)
             main_client_info (State saved_session []) in
  r.1 = Ok () /\
  last (log r.2)
  = Some (EvUi (st_error "An error occurred: xml parser error in paragraph")) /\
  Forall (fun ev => forall size margin story, ev <> EvBuild size margin story) (log r.2) /\
  attrs (session r.2) !! "progress_pdf" = None.
Proof.
  cbn zeta.
  assert (log (generate_analysis_clicked (answering_world markup_analysis)
                 main_client_info (State saved_session [])).2
          = [ EvUi (st_spinner "Generating your progress report...");
              EvUi (st_plotly_chart
                      (Bar (Transpose (DataFrame
                              (zip physical_labels
                                 ((fun k => [dict_get sample_before k; dict_get sample_after k])
                                    <$> physical_fields)) ["Before"; "After"]))
                           "group" "Physical Metrics Comparison"));
              EvUi (st_plotly_chart
                      (Bar (Transpose (DataFrame
                              (zip mental_labels
                                 ((fun k => [dict_get sample_before k; dict_get sample_after k])
                                    <$> mental_fields)) ["Before"; "After"]))
                           "group" "Mental & Emotional Metrics Comparison"));
              EvChat (fixed_request
                        (match analysis_prompt sample_before sample_after main_client_info
                         with Ok p => p | _ => "" end));
              EvUi (st_subheader "Your Progress Journey");
              EvUi (st_write markup_analysis);
              EvToImage (Bar (Transpose (DataFrame
                              (zip physical_labels
                                 ((fun k => [dict_get sample_before k; dict_get sample_after k])
                                    <$> physical_fields)) ["Before"; "After"]))
                           "group" "Physical Metrics Comparison") "png" 800 400 2;
              EvToImage (Bar (Transpose (DataFrame
                              (zip mental_labels
                                 ((fun k => [dict_get sample_before k; dict_get sample_after k])
                                    <$> mental_fields)) ["Before"; "After"]))
                           "group" "Mental & Emotional Metrics Comparison") "png" 800 400 2;
              EvUi (st_error "An error occurred: xml parser error in paragraph") ])
    as Hlog by by_vm.
  split; [by_vm|]. rewrite Hlog. split; [reflexivity|].
  split; [repeat constructor; discriminate|by_vm].
Qed.

(** Membership in one literal list of keys implies membership in
    another. *)
Ltac key_subset :=
  unfold analysis_before_keys, analysis_after_keys, summary_physical, summary_mental,
    physical_fields, mental_fields;
  cbn [app fmap list_fmap snd];
  rewrite ?elem_of_cons, ?elem_of_nil; tauto.

Lemma int_scores_has_keys ks d : int_scores ks d -> has_keys ks d.
Proof.
  unfold int_scores, has_keys. intros H. eapply Forall_impl; [exact H|].
  intros k [n Hn]. cbn. eauto.
Qed.

Lemma text_fields_has_keys ks d : text_fields ks d -> has_keys ks d.
Proof.
  unfold text_fields, has_keys. intros H. eapply Forall_impl; [exact H|].
  intros k [n Hn]. cbn. eauto.
Qed.

Lemma has_keys_sub ks ks' d : ks' ⊆ ks -> has_keys ks d -> has_keys ks' d.
Proof.
  unfold has_keys. rewrite !Forall_forall. intros Hsub H k Hk. apply H, Hsub, Hk.
Qed.

Lemma record_ok_keys d :
  record_ok d ->
  has_keys (physical_fields ++ mental_fields) d /\
  has_keys analysis_before_keys d /\ has_keys analysis_after_keys d /\
  int_scores (summary_physical.*2) d /\ int_scores (summary_mental.*2) d.
Proof.
  intros [Hi Ht].
  pose proof (int_scores_has_keys _ _ Hi) as Hk.
  pose proof (text_fields_has_keys _ _ Ht) as Hkt.
  assert (has_keys ((physical_fields ++ mental_fields)
                      ++ ["notes"; "limitations"; "symptoms"]) d) as Hall
    by (by apply Forall_app).
  split; [done|].
  split; [|split; [|split]].
  - eapply has_keys_sub; [|exact Hall]. intros k. key_subset.
  - eapply has_keys_sub; [|exact Hall]. intros k. key_subset.
  - unfold int_scores in *. rewrite Forall_forall in Hi. apply Forall_forall.
    intros k Hk'. apply Hi. revert Hk'. key_subset.
  - unfold int_scores in *. rewrite Forall_forall in Hi. apply Forall_forall.
    intros k Hk'. apply Hi. revert Hk'. key_subset.
Qed.

Lemma profile_data_of_form fd :
  getitem (diet_client_info fd) "name" = Ok (PStr "") /\
  profile_data (diet_client_info fd)
  = Ok [ ["Client Profile"; ""];
         ["Height"; pretty (height fd) +:+ " cm"];
         ["Weight"; pretty (weight fd) +:+ " kg"];
         ["Dietary Restrictions"; join ", " (dietary_restrictions fd)];
         ["Health Goals"; join ", " (health_goals fd)];
         ["Food Allergies"; food_allergies fd] ].
Proof.
  split; [by_vm|]. unfold profile_data.
  rewrite (getitem_Some _ "height" (PInt (height fd))) by by_vm.
  rewrite (getitem_Some _ "weight" (PInt (weight fd))) by by_vm.
  rewrite (getitem_Some _ "dietary_restrictions" (PList (dietary_restrictions fd))) by by_vm.
  rewrite (getitem_Some _ "health_goals" (PList (health_goals fd))) by by_vm.
  rewrite (getitem_Some _ "food_allergies" (PStr (food_allergies fd))) by by_vm.
  reflexivity.
Qed.

(** X12. In a session that is in order no lookup of the generation code
    fails: the charts, the prompt of [generate_analysis] on the client
    profile of [main], both summary tables, and, for every content of the
    Diet Plan form, the prompt of [generate_dietary_plan] and the profile
    table are all built. *)
Theorem records_in_order_never_miss_a_field (W : world) (ss : session_state) :
  session_ok ss ->
  exists before_data after_data,
    session_lookup ss "before_data" = Some before_data /\
    session_lookup ss "after_data" = Some after_data /\
    (exists figs, create_comparison_charts W before_data after_data = Ok figs) /\
    (exists prompt, analysis_prompt before_data after_data main_client_info = Ok prompt) /\
    (exists physical mental,
        physical_data before_data after_data = Ok physical /\
        mental_data before_data after_data = Ok mental) /\
    (forall fd,
        (exists prompt,
            dietary_prompt (diet_client_info fd) before_data after_data = Ok prompt) /\
        (exists profile, profile_data (diet_client_info fd) = Ok profile)).
Proof.
  intros [_ (b & a & Hb & Ha & Hbok & Haok & _)].
  destruct (record_ok_keys _ Hbok) as (Hbs & Hbk & _ & Hbp & Hbm).
  destruct (record_ok_keys _ Haok) as (Has & _ & Hak & Hap & Ham).
  exists b, a. split; [done|]. split; [done|].
  split; [|split; [|split]].
  - eexists. apply charts_of_int_scores; [apply Hbok|apply Haok].
  - apply analysis_prompt_ok. by apply main_client_info_ok.
  - eexists _, _. split; [by apply physical_data_rows|by apply mental_data_rows].
  - intros fd. split.
    + apply dietary_prompt_ok, diet_client_info_ok.
    + eexists. apply profile_data_of_form.
Qed.

(** ** What the diet plan document holds *)

Lemma flush_table_header_only md gap : header_only md -> flush_table md gap = [].
Proof. by intros [-> | ->]. Qed.

(** A turn of the loop that ends at a line that is no meal line adds
    the day heading of the line, if it is one, and no meal row. *)
Lemma loop_body_step W lines st st' raw :
  lines !! idx st = Some raw -> meal_line raw = false -> header_only (meal_data st) ->
  loop_body W lines st = Ok st' ->
  idx st' = S (idx st) /\ header_only (meal_data st') /\
  story st' = story st ++ day_header_of raw.
Proof.
  intros Hraw Hm Hmd. unfold meal_line in Hm. unfold loop_body, day_header_of.
  rewrite Hraw. cbn zeta.
  destruct (truthy (PStr (strip raw))); cbn [negb andb] in *.
  2: { intros [= <-]. repeat split; [done|]. cbn. by rewrite app_nil_r. }
  destruct (any_in day_names (strip raw)); cbn [negb andb] in *.
  - destruct (paragraph_cases W (strip raw) "CustomDayHeader") as [-> | [e ->]]; [|done].
    intros [= <-]. repeat split; [by right|]. cbn [story].
    by rewrite (flush_table_header_only _ _ Hmd).
  - rewrite Hm. intros [= <-]. repeat split; [done|]. cbn. by rewrite app_nil_r.
Qed.

(** Whenever the loop ends, it has added the day headings of the lines
    it went over and no meal row. *)
Lemma parse_loop_result W lines : forall fuel st st',
  header_only (meal_data st) ->
  parse_loop W fuel lines st = Ok st' ->
  header_only (meal_data st') /\
  story st' = story st ++ day_headers (drop (idx st) lines).
Proof.
  induction fuel as [|fuel IH]; intros st st' Hmd; cbn [parse_loop];
    destruct (Nat.ltb_spec (idx st) (length lines)) as [Hlt|Hge]; try done.
  - intros [= <-]. rewrite drop_ge by done. unfold day_headers. cbn.
    by rewrite app_nil_r.
  - destruct (lookup_lt_is_Some_2 lines (idx st)) as [raw Hraw]; [done|].
    destruct (meal_line raw) eqn:Hm.
    + rewrite (loop_body_meal_line _ _ _ _ Hraw Hm). cbn. by apply IH.
    + destruct (loop_body W lines st) as [st1|e|] eqn:Hbody; cbn; [|done..].
      destruct (loop_body_step _ _ _ _ _ Hraw Hm Hmd Hbody) as (Hidx & Hmd1 & Hstory).
      intros Hloop. destruct (IH _ _ Hmd1 Hloop) as [Hmd' Hs']. split; [done|].
      rewrite Hs', Hstory, Hidx, <- app_assoc. f_equal.
      rewrite (drop_S _ _ _ Hraw). unfold day_headers. by cbn.
  - intros [= <-]. rewrite drop_ge by done. unfold day_headers. cbn.
    by rewrite app_nil_r.
Qed.

Lemma day_headers_no_table lines : List.filter is_table (day_headers lines) = [].
Proof.
  unfold day_headers. induction lines as [|raw lines IH]; [done|]. cbn.
  rewrite List.filter_app, IH, app_nil_r. unfold day_header_of.
  by destruct (truthy (PStr (strip raw)) && any_in day_names (strip raw)).
Qed.

Lemma existsb_meal_line lines :
  existsb meal_line lines = true -> exists j raw, lines !! j = Some raw /\ meal_line raw = true.
Proof.
  rewrite existsb_exists. intros (raw & Hin & Hm).
  apply list_elem_of_In, list_elem_of_lookup in Hin as [j Hj]. eauto.
Qed.

Lemma existsb_no_meal_line lines :
  existsb meal_line lines = false -> Forall (fun raw => meal_line raw = false) lines.
Proof.
  intros H. apply Forall_forall. intros raw Hin.
  destruct (meal_line raw) eqn:Hm; [|done].
  assert (existsb meal_line lines = true); [|congruence].
  apply existsb_exists. exists raw. split; [by apply list_elem_of_In|done].
Qed.

Section DietRuns.
Context (W : world) (client_info : dict) (dietary_plan : string) (s : state).
Context (name : pyval) (profile : list (list string)).
Hypothesis Hname : getitem client_info "name" = Ok name.
Hypothesis Hprofile : profile_data client_info = Ok profile.

(** The run of [create_diet_pdf]: the paragraph of the name, then the
    loop, then [doc.build]. *)
Lemma create_diet_pdf_run fuel :
  create_diet_pdf W fuel client_info dietary_plan s
  = match paragraph W ("for " +:+ py_str name) "CustomTitle" with
    | Ok _ =>
        match parse_loop W fuel (split_on (ascii_of_nat 10) dietary_plan)
                (ParseState 0 None None (diet_front name profile)) with
        | Ok st =>
            let story := story st ++ flush_table (meal_data st) false in
            (match build_answer W story with inl e => Raise e | inr pdf => Ok pdf end,
             State (session s) (log s ++ [EvBuild LandscapeLetter 30 story]))
        | Raise e => (Raise e, s)
        | OutOfFuel => (OutOfFuel, s)
        end
    | Raise e => (Raise e, s)
    | OutOfFuel => (OutOfFuel, s)
    end.
Proof.
  unfold create_diet_pdf. rewrite bind_lift, Hname, bind_lift.
  destruct (paragraph_cases W ("for " +:+ py_str name) "CustomTitle") as [-> | [e ->]];
    [|done].
  rewrite bind_lift, Hprofile. cbn zeta. rewrite bind_lift. fold (diet_front name profile).
  destruct (parse_loop _ _ _ _) as [st| |]; try reflexivity.
  unfold doc_build, bind, emit, of_answer, raise, ret. cbn -[flush_table].
  by destruct (build_answer W _).
Qed.

(** With a meal line in the plan, no document comes back, whatever the
    libraries do. *)
Lemma create_diet_pdf_no_document fuel pdf :
  existsb meal_line (split_on (ascii_of_nat 10) dietary_plan) = true ->
  (create_diet_pdf W fuel client_info dietary_plan s).1 <> Ok pdf.
Proof.
  intros (j & raw & Hraw & Hm)%existsb_meal_line. rewrite create_diet_pdf_run.
  destruct (paragraph W _ _) as [p|e|]; [|done..].
  destruct (parse_loop _ _ _ _) as [st|e|] eqn:Hloop; [|done..].
  exfalso. eapply (parse_loop_never_returns W _ _ j raw); [|done|done|exact Hloop].
  cbn. lia.
Qed.

(** [create_diet_pdf] on a plan without a meal line and without
    markup. *)
Lemma create_diet_pdf_plain fuel :
  plain_text (py_str name) = true -> plain_text dietary_plan = true ->
  existsb meal_line (split_on (ascii_of_nat 10) dietary_plan) = false ->
  (length (split_on (ascii_of_nat 10) dietary_plan) <= fuel)%nat ->
  create_diet_pdf W fuel client_info dietary_plan s
  = (match build_answer W (diet_front name profile
                             ++ day_headers (split_on (ascii_of_nat 10) dietary_plan)) with
     | inl e => Raise e
     | inr pdf => Ok pdf
     end,
     State (session s)
       (log s ++ [EvBuild LandscapeLetter 30
                    (diet_front name profile
                       ++ day_headers (split_on (ascii_of_nat 10) dietary_plan))])).
Proof.
  intros Hpn Hplain Hall%existsb_no_meal_line Hfuel. rewrite create_diet_pdf_run.
  rewrite (paragraph_plain _ _ _ (plain_for_name _ Hpn)).
  destruct (parse_loop_finishes W _ Hall (plain_lines _ Hplain) fuel
              (ParseState 0 None None (diet_front name profile))) as [st Hst].
  { cbn [idx]. lia. }
  rewrite Hst.
  assert (header_only (@None (list (list string)))) as Hnone by (by left).
  destruct (parse_loop_result _ _ _ (ParseState 0 None None (diet_front name profile))
              _ Hnone Hst) as [Hmd Hstory].
  cbn [idx story drop] in Hstory.
  by rewrite (flush_table_header_only _ _ Hmd), app_nil_r, Hstory.
Qed.

(** X6. For a client profile that is in order: when some line of the
    plan names a meal and no day, [create_diet_pdf] returns no document
    on any step budget, whatever the libraries do, and when name and plan
    hold no markup it does not end at all; when no line names a meal,
    name and plan hold no markup and the plan is ASCII text, it returns
    within one turn of the loop for each line, having called [doc.build]
    once on the title, the profile table and the day headings of the
    plan. *)
Theorem create_diet_pdf_returns_iff_no_meal_line :
  let lines := split_on (ascii_of_nat 10) dietary_plan in
  (existsb meal_line lines = true ->
   (forall fuel pdf, (create_diet_pdf W fuel client_info dietary_plan s).1 <> Ok pdf) /\
   (plain_text (py_str name) = true -> plain_text dietary_plan = true ->
    forall fuel, create_diet_pdf W fuel client_info dietary_plan s = (OutOfFuel, s))) /\
  (existsb meal_line lines = false ->
   plain_text (py_str name) = true -> plain_text dietary_plan = true ->
   ascii_text dietary_plan ->
   forall fuel, (length lines <= fuel)%nat ->
     let story := diet_front name profile ++ day_headers lines in
     create_diet_pdf W fuel client_info dietary_plan s
     = (match build_answer W story with inl e => Raise e | inr pdf => Ok pdf end,
        State (session s) (log s ++ [EvBuild LandscapeLetter 30 story]))).
Proof.
  cbn zeta. split.
  - intros Hmeal. split; [intros fuel pdf; by apply create_diet_pdf_no_document|].
    apply existsb_meal_line in Hmeal as (j & raw & Hraw & Hm).
    intros Hpn Hplain fuel.
    eapply create_diet_pdf_stuck; [done..|].
    apply Forall_take, plain_lines, Hplain.
  - intros Hall Hpn Hplain _ fuel Hfuel. by apply create_diet_pdf_plain.
Qed.

(** X7. Whatever lines the plan holds (as ASCII text), a story that
    [create_diet_pdf] hands to [doc.build] consists of the title, the
    profile table and the day headings: its only table is the profile
    table, and no line of a meal reaches the document. *)
Theorem create_diet_pdf_never_lays_out_a_meal fuel size margin built :
  ascii_text dietary_plan ->
  EvBuild size margin built ∈ new_events (create_diet_pdf W fuel client_info dietary_plan) s ->
  built = diet_front name profile ++ day_headers (split_on (ascii_of_nat 10) dietary_plan) /\
  List.filter is_table built = [Table profile [200; 300] ProfileTableStyle].
Proof.
  intros _. unfold new_events. rewrite create_diet_pdf_run.
  destruct (paragraph W _ _) as [p|e|].
  2,3: rewrite drop_all; by intros ?%elem_of_nil.
  destruct (parse_loop _ _ _ _) as [st| |] eqn:Hst; cbn zeta.
  2,3: rewrite drop_all; by intros ?%elem_of_nil.
  assert (header_only (@None (list (list string)))) as Hnone by (by left).
  destruct (parse_loop_result _ _ _ (ParseState 0 None None (diet_front name profile))
              _ Hnone Hst) as [Hmd Hstory].
  cbn [idx story drop] in Hstory.
  rewrite (flush_table_header_only _ _ Hmd), app_nil_r, Hstory.
  cbn [snd log]. rewrite drop_app_length.
  intros Hin%list_elem_of_singleton. injection Hin as -> -> ->.
  split; [done|]. cbn -[day_headers split_on]. by rewrite day_headers_no_table.
Qed.
End DietRuns.

Lemma create_diet_pdf_returns_iff_no_meal_line_witness :
  create_diet_pdf strict_world 2 (diet_client_info default_diet_form) plain_plan
    initial_state
  = (Ok "%PDF",
     State (session initial_state)
       (log initial_state
          ++ [EvBuild LandscapeLetter 30
                (diet_front (PStr "") sample_profile
                   ++ day_headers (split_on (ascii_of_nat 10) plain_plan))])).
Proof.
  refine (proj2 (create_diet_pdf_returns_iff_no_meal_line strict_world
                   (diet_client_info default_diet_form) plain_plan initial_state
                   (PStr "") sample_profile _ _) _ _ _ _ 2%nat _);
    [by_vm|by_vm|by_vm|by_vm|by_vm|unfold ascii_text; by_vm|].
  vm_compute. lia.
Defined.

Lemma create_diet_pdf_never_lays_out_a_meal_witness :
  List.filter is_table
    (diet_front (PStr "") sample_profile
       ++ day_headers (split_on (ascii_of_nat 10) plain_plan))
  = [Table sample_profile [200; 300] ProfileTableStyle].
Proof.
  refine (proj2 (create_diet_pdf_never_lays_out_a_meal quiet_world
                   (diet_client_info default_diet_form) plain_plan initial_state
                   (PStr "") sample_profile _ _ 2%nat LandscapeLetter 30 _ _ _));
    [by_vm|by_vm|unfold ascii_text; by_vm|].
  assert (new_events (create_diet_pdf quiet_world 2 (diet_client_info default_diet_form)
                        plain_plan) initial_state
          = [EvBuild LandscapeLetter 30
               (diet_front (PStr "") sample_profile
                  ++ day_headers (split_on (ascii_of_nat 10) plain_plan))]) as -> by by_vm.
  apply list_elem_of_here.
Defined.

(** A day heading with an unclosed tag, when the markup parser refuses
    it: [create_diet_pdf] raises at that line, before the meal line
    behind it is reached. *)
Example markup_in_a_day_heading_is_refused :
  forall fuel,
    create_diet_pdf strict_world (S fuel) (diet_client_info default_diet_form)
      markup_plan initial_state
    = (Raise markup_error, initial_state).
Proof.
  intros fuel. rewrite (create_diet_pdf_run strict_world _ _ _ (PStr "") sample_profile)
    by by_vm.
  reflexivity.
Qed.

(** X8. When the plan that the service returns holds no markup and has
    a line that names a meal and no day, the Generate Personalized Diet
    Plan handler writes the plan on the page and then does not return on
    any step budget: no error box is shown and no download is offered. *)
Theorem diet_plan_button_hangs_on_meal_line
    (W : world) (fd : diet_form) (s : state) (before_data after_data : dict)
    (plan : string) :
  session_lookup (session s) "before_data" = Some before_data ->
  session_lookup (session s) "after_data" = Some after_data ->
  (forall r, first_choice_content W r = Ok plan) ->
  ui_answer W (st_markdown "### Your Personalized Diet Plan") = None ->
  ui_answer W (st_write plan) = None ->
  plain_text plan = true ->
  existsb meal_line (split_on (ascii_of_nat 10) plan) = true ->
  forall fuel,
    exists prompt,
      dietary_prompt (diet_client_info fd) before_data after_data = Ok prompt /\
      generate_diet_plan_clicked W fuel (diet_client_info fd) s
      = (OutOfFuel,
         State (session s)
           (log s ++ [EvChat (fixed_request prompt);
                      EvUi (st_markdown "### Your Personalized Diet Plan");
                      EvUi (st_write plan)])).
Proof.
  intros Hb Ha Hchat Hmd Hwr Hplain (j & raw & Hraw & Hm)%existsb_meal_line fuel.
  destruct (dietary_prompt_ok (diet_client_info fd) before_data after_data
              (diet_client_info_ok fd)) as [p Hp].
  exists p. split; [done|].
  destruct (profile_data_of_form fd) as [Hname Hprofile].
  unfold generate_diet_plan_clicked, try_except, diet_body.
  unfold bind at 1. rewrite (session_dict_run _ _ _ Hb).
  unfold bind at 1. rewrite (session_dict_run _ _ _ Ha).
  unfold bind at 1. unfold generate_dietary_plan. fold fixed_request.
  rewrite send_prompt, Hp, Hchat.
  unfold bind at 1. rewrite ui_run, Hmd.
  unfold bind at 1. rewrite ui_run, Hwr.
  unfold bind at 1.
  rewrite (create_diet_pdf_stuck W fuel _ _ _ _ _ j raw Hname eq_refl Hprofile Hraw Hm)
    by apply Forall_take, plain_lines, Hplain.
  cbn [session log]. by rewrite <- !app_assoc.
Qed.

Lemma diet_plan_button_hangs_on_meal_line_witness :
  exists prompt,
    dietary_prompt (diet_client_info default_diet_form) sample_before sample_after
    = Ok prompt /\
    generate_diet_plan_clicked strict_world 1000 (diet_client_info default_diet_form)
      (State saved_session [])
    = (OutOfFuel,
       State (session (State saved_session []))
         (log (State saved_session [])
            ++ [EvChat (fixed_request prompt);
                EvUi (st_markdown "### Your Personalized Diet Plan");
                EvUi (st_write sample_plan)])).
Proof.
  apply (diet_plan_button_hangs_on_meal_line strict_world default_diet_form
           (State saved_session []) sample_before sample_after sample_plan);
    first [by_vm | intros r; reflexivity].
Defined.

(** ** The life of the session *)

Lemma init_attr_step name d s :
  (init_attr name d s).1 = Ok () /\
  log (init_attr name d s).2 = log s /\
  init_step name d (session s) (session (init_attr name d s).2).
Proof.
  unfold init_attr, session_contains, alloc_dict, session_set, get_session, put_session,
    when, bind, ret, init_step. cbn.
  destruct (attrs (session s) !! name) as [v|] eqn:Hn; cbn.
  - rewrite Hn. repeat split; done.
  - set (l := fresh (dom (heap (session s)))).
    assert (heap (session s) !! l = None) as Hl.
    { apply not_elem_of_dom. apply is_fresh. }
    repeat split; try done.
    + intros l' x Hx. rewrite lookup_insert_ne; [done|]. intros <-. congruence.
    + intros n Hne. by rewrite lookup_insert_ne.
    + intros _. exists l. by rewrite !lookup_insert_eq.
Qed.

(** X9. [initialize_session_state] always returns and logs nothing.  It
    keeps every dict object and every attribute that the session has,
    writes no attribute besides the three records, creates each record
    that is missing as a new object holding a copy of its default, gives
    two records that it creates different objects, and leaves a session
    that has the three records as it is. *)
Theorem initialize_session_state_keeps_and_separates (s : state) :
  let r := initialize_session_state s in
  let ss := session s in
  let ss' := session r.2 in
  r.1 = Ok () /\ log r.2 = log s /\
  (forall l x, heap ss !! l = Some x -> heap ss' !! l = Some x) /\
  (forall n v, attrs ss !! n = Some v -> attrs ss' !! n = Some v) /\
  (forall n, n ∉ record_names -> attrs ss' !! n = attrs ss !! n) /\
  (forall n, n ∈ record_names -> attrs ss !! n = None ->
     exists l, attrs ss' !! n = Some (ARef l) /\ heap ss !! l = None /\
               heap ss' !! l = Some (default_record n)) /\
  (forall n1 n2 l, n1 ∈ record_names -> n2 ∈ record_names -> n1 <> n2 ->
     attrs ss !! n1 = None -> attrs ss !! n2 = None ->
     attrs ss' !! n1 = Some (ARef l) -> attrs ss' !! n2 <> Some (ARef l)) /\
  ((forall n, n ∈ record_names -> is_Some (attrs ss !! n)) -> ss' = ss).
Proof.
  destruct (init_attr_step "before_data" default_data s) as (Ho1 & Hl1 & H1).
  destruct (init_attr "before_data" default_data s) as [o1 s1] eqn:E1.
  cbn [fst snd] in *. subst o1.
  destruct (init_attr_step "after_data" default_data s1) as (Ho2 & Hl2 & H2).
  destruct (init_attr "after_data" default_data s1) as [o2 s2] eqn:E2.
  cbn [fst snd] in *. subst o2.
  destruct (init_attr_step "client_info" default_client_info s2) as (Ho3 & Hl3 & H3).
  destruct (init_attr "client_info" default_client_info s2) as [o3 s3] eqn:E3.
  cbn [fst snd] in *. subst o3.
  assert (initialize_session_state s = (Ok (), s3)) as ->.
  { unfold initialize_session_state, bind. by rewrite E1, E2. }
  cbn [fst snd]. clear E1 E2 E3.
  destruct H1 as (Hh1 & Ho1 & Hk1 & Hn1 & Hid1), H2 as (Hh2 & Ho2 & Hk2 & Hn2 & Hid2),
    H3 as (Hh3 & Ho3 & Hk3 & Hn3 & Hid3).
  assert (forall l x, heap (session s) !! l = Some x -> heap (session s3) !! l = Some x)
    as Hheap by auto.
  assert (forall n v, attrs (session s) !! n = Some v -> attrs (session s3) !! n = Some v)
    as Hkeep.
  { intros n v Hv.
    assert (attrs (session s1) !! n = Some v) as Hv1.
    { destruct (decide (n = "before_data")) as [->|?]; [by apply Hk1|by rewrite Ho1]. }
    assert (attrs (session s2) !! n = Some v) as Hv2.
    { destruct (decide (n = "after_data")) as [->|?]; [by apply Hk2|by rewrite Ho2]. }
    destruct (decide (n = "client_info")) as [->|?]; [by apply Hk3|by rewrite Ho3]. }
  assert (forall l, heap (session s1) !! l = None -> heap (session s) !! l = None) as Hb1.
  { intros l Hl. destruct (heap (session s) !! l) eqn:E; [|done]. apply Hh1 in E. congruence. }
  assert (forall l, heap (session s2) !! l = None -> heap (session s1) !! l = None) as Hb2.
  { intros l Hl. destruct (heap (session s1) !! l) eqn:E; [|done]. apply Hh2 in E. congruence. }
  (* the three records, when they are made *)
  assert (attrs (session s) !! "before_data" = None ->
          exists l, attrs (session s3) !! "before_data" = Some (ARef l) /\
                    heap (session s) !! l = None /\ heap (session s1) !! l = Some default_data)
    as Hnew1.
  { intros Hn. destruct (Hn1 Hn) as (l & Ha & Hf & Hd). exists l.
    split; [|done]. rewrite Ho3, Ho2 by done. done. }
  assert (attrs (session s) !! "after_data" = None ->
          exists l, attrs (session s3) !! "after_data" = Some (ARef l) /\
                    heap (session s1) !! l = None /\ heap (session s2) !! l = Some default_data)
    as Hnew2.
  { intros Hn. rewrite <- Ho1 in Hn by done. destruct (Hn2 Hn) as (l & Ha & Hf & Hd).
    exists l. split; [|done]. rewrite Ho3 by done. done. }
  assert (attrs (session s) !! "client_info" = None ->
          exists l, attrs (session s3) !! "client_info" = Some (ARef l) /\
                    heap (session s2) !! l = None /\
                    heap (session s3) !! l = Some default_client_info)
    as Hnew3.
  { intros Hn. rewrite <- Ho1, <- Ho2 in Hn by done. exact (Hn3 Hn). }
  split; [done|]. split; [by rewrite Hl3, Hl2, Hl1|]. split; [done|]. split; [done|].
  split; [|split; [|split]].
  - intros n Hn. unfold record_names in Hn.
    rewrite !not_elem_of_cons in Hn. destruct Hn as (? & ? & ? & _).
    rewrite Ho3, Ho2, Ho1 by done. done.
  - intros n Hn Hnone. unfold record_names in Hn.
    rewrite !elem_of_cons, elem_of_nil in Hn. destruct Hn as [->|[->|[->|[]]]].
    + destruct (Hnew1 Hnone) as (l & Ha & Hf & Hd). exists l. auto.
    + destruct (Hnew2 Hnone) as (l & Ha & Hf & Hd). exists l. auto.
    + destruct (Hnew3 Hnone) as (l & Ha & Hf & Hd). exists l. auto.
  - intros n1 n2 l Hin1 Hin2 Hne Hnone1 Hnone2 Hl1' Hl2'. unfold record_names in *.
    rewrite !elem_of_cons, elem_of_nil in Hin1, Hin2.
    destruct Hin1 as [->|[->|[->|[]]]], Hin2 as [->|[->|[->|[]]]]; try done;
      repeat match goal with
      | H : attrs (session s) !! "before_data" = None |- _ =>
          apply Hnew1 in H as (? & ? & ? & ?)
      | H : attrs (session s) !! "after_data" = None |- _ =>
          apply Hnew2 in H as (? & ? & ? & ?)
      | H : attrs (session s) !! "client_info" = None |- _ =>
          apply Hnew3 in H as (? & ? & ? & ?)
      end; simplify_eq;
      repeat match goal with
      | H : heap (session s1) !! _ = Some _ |- _ => apply Hh2 in H
      end; congruence.
  - intros Hall.
    assert (session s1 = session s) as E1
      by (apply Hid1, Hall; unfold record_names; rewrite !elem_of_cons; tauto).
    assert (session s2 = session s1) as E2.
    { apply Hid2. rewrite E1. apply Hall. unfold record_names. rewrite !elem_of_cons. tauto. }
    assert (session s3 = session s2) as E3.
    { apply Hid3. rewrite E2, E1. apply Hall. unfold record_names.
      rewrite !elem_of_cons. tauto. }
    congruence.
Qed.

Section Touches.
Context (names : list string).

Lemma touches_ret {A} (a : A) : touches names (ret a).
Proof. by intros s. Qed.

Lemma touches_raise {A} e : touches names (raise (A := A) e).
Proof. by intros s. Qed.

Lemma touches_lift {A} (o : outcome A) : touches names (lift o).
Proof. by intros s. Qed.

Lemma touches_emit ev : touches names (emit ev).
Proof. by intros s. Qed.

Lemma touches_get_session : touches names get_session.
Proof. by intros s. Qed.

Lemma touches_bind {A B} (c : M A) (k : A -> M B) :
  touches names c -> (forall a, touches names (k a)) -> touches names (bind c k).
Proof.
  intros Hc Hk s. unfold bind. destruct (Hc s) as [Hh Ha].
  destruct (c s) as [[a|e|] s']; cbn in *; [|done..].
  destruct (Hk a s') as [Hh' Ha']. split; [congruence|].
  intros n Hn. by rewrite Ha', Ha.
Qed.

Lemma touches_try_except {A} (body : M A) (handler : exn -> M A) :
  touches names body -> (forall e, touches names (handler e)) ->
  touches names (try_except body handler).
Proof.
  intros Hc Hk s. unfold try_except. destruct (Hc s) as [Hh Ha].
  destruct (body s) as [[a|e|] s']; cbn in *; [done| |done].
  destruct (is_Exception e); [|done].
  destruct (Hk e s') as [Hh' Ha']. split; [congruence|].
  intros n Hn. by rewrite Ha', Ha.
Qed.

Lemma touches_of_answer {A} (r : exn + A) : touches names (of_answer r).
Proof. destruct r; [apply touches_raise|apply touches_ret]. Qed.

Lemma touches_session_set name v : name ∈ names -> touches names (session_set name v).
Proof.
  intros Hin s. unfold session_set, get_session, put_session, bind. cbn.
  split; [done|]. intros n Hn. rewrite lookup_insert_ne; [done|]. by intros ->.
Qed.

Lemma touches_session_dict name : touches names (session_dict name).
Proof.
  unfold session_dict, session_ref, deref.
  apply touches_bind.
  - apply touches_bind; [apply touches_get_session|]. intros ss.
    destruct (attrs ss !! name) as [[?|?]|]; auto using touches_ret, touches_raise.
  - intros l. apply touches_bind; [apply touches_get_session|]. intros ss.
    destruct (heap ss !! l); auto using touches_ret, touches_raise.
Qed.

Lemma touches_ui W c : touches names (ui W c).
Proof.
  apply touches_bind; [apply touches_emit|]. intros _.
  destruct (ui_answer W c); auto using touches_ret, touches_raise.
Qed.

Lemma touches_chat W r : touches names (chat_completions_create W r).
Proof. apply touches_bind; [apply touches_emit|]. intros _. apply touches_of_answer. Qed.

Lemma touches_to_image W fig fmt w h sc : touches names (pio_to_image W fig fmt w h sc).
Proof. apply touches_bind; [apply touches_emit|]. intros _. apply touches_of_answer. Qed.

Lemma touches_doc_build W size margin story : touches names (doc_build W size margin story).
Proof. apply touches_bind; [apply touches_emit|]. intros _. apply touches_of_answer. Qed.
End Touches.

Ltac touches_step :=
  first
    [ apply touches_ret | apply touches_raise | apply touches_lift
    | apply touches_session_dict
    | apply touches_session_set; apply list_elem_of_singleton; reflexivity
    | apply touches_ui | apply touches_chat | apply touches_to_image | apply touches_doc_build
    | apply touches_try_except; [|intros ?]
    | apply touches_bind; [|intros ?]
    | match goal with |- touches _ (let '(_, _) := ?p in _) => destruct p end
    | match goal with |- touches _ (if ?b then _ else _) => destruct b end ].

Lemma generation_frames
    (W : world) (fuel : nat) (client_info : dict) (s : state) :
  (heap (session (generate_analysis_clicked W client_info s).2) = heap (session s) /\
   forall n, n <> "progress_pdf" ->
     attrs (session (generate_analysis_clicked W client_info s).2) !! n
     = attrs (session s) !! n) /\
  (heap (session (generate_diet_plan_clicked W fuel client_info s).2) = heap (session s) /\
   forall n, n <> "diet_pdf" ->
     attrs (session (generate_diet_plan_clicked W fuel client_info s).2) !! n
     = attrs (session s) !! n).
Proof.
  split.
  - assert (touches ["progress_pdf"] (generate_analysis_clicked W client_info)) as H.
    { unfold generate_analysis_clicked, analysis_body, generate_analysis, create_pdf,
        chart_flowables.
      repeat touches_step. }
    destruct (H s) as [Hh Ha]. split; [done|]. intros n Hn. apply Ha.
    by rewrite list_elem_of_singleton.
  - assert (touches ["diet_pdf"] (generate_diet_plan_clicked W fuel client_info)) as H.
    { unfold generate_diet_plan_clicked, diet_body, generate_dietary_plan, create_diet_pdf.
      repeat touches_step. }
    destruct (H s) as [Hh Ha]. split; [done|]. intros n Hn. apply Ha.
    by rewrite list_elem_of_singleton.
Qed.

(** X10. The two generation handlers change no dict object.  Generate
    Analysis writes no session attribute besides [progress_pdf], Generate
    Personalized Diet Plan none besides [diet_pdf]; the three records
    read the same after the click as before, whatever the libraries
    answer. *)
Theorem generation_handlers_frame
    (W : world) (fuel : nat) (client_info : dict) (s : state) :
  let sa := session (generate_analysis_clicked W client_info s).2 in
  let sd := session (generate_diet_plan_clicked W fuel client_info s).2 in
  (heap sa = heap (session s) /\
   forall n, n <> "progress_pdf" -> attrs sa !! n = attrs (session s) !! n) /\
  (heap sd = heap (session s) /\
   forall n, n <> "diet_pdf" -> attrs sd !! n = attrs (session s) !! n) /\
  (forall name, name ∈ record_names ->
     session_lookup sa name = session_lookup (session s) name /\
     session_lookup sd name = session_lookup (session s) name).
Proof.
  cbn zeta. destruct (generation_frames W fuel client_info s) as [[Hh1 Ha1] [Hh2 Ha2]].
  split; [done|]. split; [done|].
  intros name Hn. unfold record_names in Hn. rewrite !elem_of_cons, elem_of_nil in Hn.
  unfold session_lookup. rewrite Hh1, Hh2, Ha1, Ha2; [done|intros ->..];
    destruct Hn as [?|[?|[?|[]]]]; discriminate.
Qed.

Lemma record_ok_default : record_ok default_data.
Proof.
  unfold record_ok, text_fields, int_scores, physical_fields, mental_fields. cbn [app].
  split; repeat (constructor; [closed_fact|]); constructor.
Qed.

(** The value that an update holds under a key, by evaluation. *)
Ltac eval_update :=
  rewrite dict_update_lookup;
  match goal with
  | |- context [match ?o with Some _ => _ | None => _ end] =>
      let v := eval vm_compute in o in
      replace o with v by by_vm
  end.

Lemma record_ok_before_update d f : record_ok (dict_update d (before_update f)).
Proof.
  unfold record_ok, text_fields, int_scores, physical_fields, mental_fields. cbn [app].
  split; repeat (constructor; [eval_update; by eexists|]); constructor.
Qed.

Lemma record_ok_after_update d f : record_ok d -> record_ok (dict_update d (after_update f)).
Proof.
  unfold record_ok, text_fields, int_scores, physical_fields, mental_fields. cbn [app].
  intros [Hi Ht]. split.
  - repeat (constructor; [eval_update; by eexists|]); constructor.
  - split_Forall. repeat (constructor; [eval_update; first [by eexists|assumption]|]).
    constructor.
Qed.

Lemma after_update_keeps d f k :
  k = "limitations" \/ k = "symptoms" -> dict_update d (after_update f) !! k = d !! k.
Proof. by intros [-> | ->]; eval_update. Qed.

Lemma session_ok_fresh : session_ok fresh_session.
Proof.
  split; [by_vm|]. exists default_data, default_data.
  split; [by_vm|]. split; [by_vm|].
  split; [apply record_ok_default|]. split; [apply record_ok_default|].
  split; by_vm.
Qed.

(** [session_ok] looks at the dict objects and at the three record
    attributes only. *)
Lemma session_ok_frame ss ss' :
  heap ss' = heap ss ->
  (forall n, n ∈ record_names -> attrs ss' !! n = attrs ss !! n) ->
  session_ok ss -> session_ok ss'.
Proof.
  intros Hh Ha. unfold session_ok, records_separate, session_lookup.
  rewrite Hh, !Ha by (unfold record_names; rewrite !elem_of_cons; tauto). done.
Qed.

Lemma save_after_keeps_separate W f s :
  records_separate (session s) = true ->
  records_separate (session (save_after_assessment W f s).2) = true.
Proof.
  intros Hsep.
  destruct (records_separate_inv _ Hsep)
    as (lb & la & lc & db & da & dc & Hb & Ha & Hc & Hba & Hbc & Hac & Hhb & Hha & Hhc).
  rewrite (save_after_state W f s la da Ha Hha).
  unfold records_separate. cbn [session heap attrs]. rewrite Hb, Ha, Hc.
  rewrite lookup_insert_eq, !lookup_insert_ne by done. rewrite Hhb, Hhc.
  rewrite !andb_true_iff, !bool_decide_eq_true. eauto 10.
Qed.

(** The records after a click on a save button. *)
Lemma save_before_records W f s before_data after_data :
  records_separate (session s) = true ->
  session_lookup (session s) "before_data" = Some before_data ->
  session_lookup (session s) "after_data" = Some after_data ->
  session_lookup (session (save_before_assessment W f s).2) "before_data"
  = Some (dict_update before_data (before_update f)) /\
  session_lookup (session (save_before_assessment W f s).2) "after_data"
  = Some after_data.
Proof.
  intros Hsep. unfold session_lookup at 1 2.
  destruct (records_separate_inv _ Hsep)
    as (lb & la & lc & db & da & dc & Hb & Ha & Hc & Hba & Hbc & Hac & Hhb & Hha & Hhc).
  rewrite Hb, Ha, Hhb, Hha. intros [= <-] [= <-].
  rewrite (save_before_state W f s lb db Hb Hhb).
  unfold session_lookup. cbn [session heap attrs]. rewrite Hb, Ha.
  by rewrite lookup_insert_eq, lookup_insert_ne.
Qed.

Lemma save_after_records W f s before_data after_data :
  records_separate (session s) = true ->
  session_lookup (session s) "before_data" = Some before_data ->
  session_lookup (session s) "after_data" = Some after_data ->
  session_lookup (session (save_after_assessment W f s).2) "before_data"
  = Some before_data /\
  session_lookup (session (save_after_assessment W f s).2) "after_data"
  = Some (dict_update after_data (after_update f)).
Proof.
  intros Hsep. unfold session_lookup at 1 2.
  destruct (records_separate_inv _ Hsep)
    as (lb & la & lc & db & da & dc & Hb & Ha & Hc & Hba & Hbc & Hac & Hhb & Hha & Hhc).
  rewrite Hb, Ha, Hhb, Hha. intros [= <-] [= <-].
  rewrite (save_after_state W f s la da Ha Hha).
  unfold session_lookup. cbn [session heap attrs]. rewrite Hb, Ha.
  by rewrite lookup_insert_eq, lookup_insert_ne.
Qed.

Lemma session_ok_save_before W f s :
  session_ok (session s) -> session_ok (session (save_before_assessment W f s).2).
Proof.
  intros [Hsep (b & a & Hb & Ha & Hbok & Haok & Hlim & Hsym)].
  split; [by apply save_before_keeps_separate|].
  destruct (save_before_records W f s b a Hsep Hb Ha) as [Hb' Ha'].
  exists (dict_update b (before_update f)), a.
  split; [done|]. split; [done|]. split; [apply record_ok_before_update|]. done.
Qed.

Lemma session_ok_save_after W f s :
  session_ok (session s) -> session_ok (session (save_after_assessment W f s).2).
Proof.
  intros [Hsep (b & a & Hb & Ha & Hbok & Haok & Hlim & Hsym)].
  split; [by apply save_after_keeps_separate|].
  destruct (save_after_records W f s b a Hsep Hb Ha) as [Hb' Ha'].
  exists b, (dict_update a (after_update f)).
  split; [done|]. split; [done|]. split; [done|].
  split; [by apply record_ok_after_update|].
  rewrite !after_update_keeps by auto. done.
Qed.

Lemma session_ok_generation W fuel client_info s :
  session_ok (session s) ->
  session_ok (session (generate_analysis_clicked W client_info s).2) /\
  session_ok (session (generate_diet_plan_clicked W fuel client_info s).2).
Proof.
  intros Hok.
  destruct (generation_frames W fuel client_info s) as [[Hh1 Ha1] [Hh2 Ha2]].
  split; (eapply session_ok_frame; [eassumption| |exact Hok]);
    intros n Hn; unfold record_names in Hn;
    rewrite !elem_of_cons, elem_of_nil in Hn;
    [apply Ha1|apply Ha2]; intros ->;
    destruct Hn as [?|[?|[?|[]]]]; discriminate.
Qed.

(** One run of [main] on a new session or on a session that is in
    order leaves the session in order. *)
Lemma main_session_ok W fuel fb fa fd c s :
  session s = empty_session \/ session_ok (session s) ->
  session_ok (session (main W fuel fb fa fd c s).2).
Proof.
  intros Hs.
  assert (exists s1, initialize_session_state s = (Ok (), s1) /\ session_ok (session s1))
    as (s1 & Hinit & Hok).
  { destruct Hs as [Hempty|Hok].
    - exists (State fresh_session (log s)). split; [|apply session_ok_fresh].
      destruct s as [ss lg]. cbn in Hempty. subst ss. apply initialize_separates.
    - exists s. split; [|done]. apply initialize_again. apply Hok. }
  unfold main, bind. rewrite Hinit.
  destruct c.
  - done.
  - by apply session_ok_save_before.
  - by apply session_ok_save_after.
  - by apply session_ok_generation.
  - by apply (session_ok_generation W fuel).
Qed.

(** X11. Every state that runs of [main] lead to from a new session is
    in order: the three records are separate objects, the seventeen
    scores of both assessment records are integers, their notes are
    strings, and the limitations and symptoms of the after record are
    still empty. *)
Theorem reachable_sessions_are_in_order (s : state) :
  reachable s -> s = initial_state \/ session_ok (session s).
Proof.
  induction 1 as [|W fuel fb fa fd c s Hr IH]; [by left|].
  right. apply main_session_ok. destruct IH as [->|IH]; [by left|by right].
Qed.

Lemma dict_update_twice (d u1 u2 : dict) :
  dom u1 ⊆ dom u2 -> dict_update (dict_update d u1) u2 = dict_update d u2.
Proof.
  intros Hdom. apply map_eq. intros k. rewrite !dict_update_lookup.
  destruct (u2 !! k) eqn:H2; [done|].
  destruct (u1 !! k) eqn:H1; [|done].
  assert (k ∈ dom u2) as Hk by (apply Hdom, elem_of_dom; eauto).
  apply elem_of_dom in Hk as [? ?]. congruence.
Qed.

(** X13. A second click on a save button replaces everything that the
    first click wrote: saving one form and then another leaves the
    session that saving the second form alone leaves. *)
Theorem second_save_replaces_first
    (W : world) (fb1 fb2 : before_form) (fa1 fa2 : after_form) (s : state)
    (before_data after_data : dict) :
  session_lookup (session s) "before_data" = Some before_data ->
  session_lookup (session s) "after_data" = Some after_data ->
  session (save_before_assessment W fb2 (save_before_assessment W fb1 s).2).2
  = session (save_before_assessment W fb2 s).2 /\
  session (save_after_assessment W fa2 (save_after_assessment W fa1 s).2).2
  = session (save_after_assessment W fa2 s).2.
Proof.
  intros (lb & Hab & Hhb)%session_lookup_inv (la & Haa & Hha)%session_lookup_inv.
  split.
  - rewrite (save_before_state W fb1 s lb _ Hab Hhb).
    rewrite (save_before_state W fb2 s lb _ Hab Hhb).
    erewrite save_before_state;
      [|cbn [session attrs]; exact Hab|cbn [session heap]; apply lookup_insert_eq].
    cbn [session heap attrs]. rewrite insert_insert_eq. f_equal. f_equal.
    apply dict_update_twice. by rewrite !before_update_dom.
  - rewrite (save_after_state W fa1 s la _ Haa Hha).
    rewrite (save_after_state W fa2 s la _ Haa Hha).
    erewrite save_after_state;
      [|cbn [session attrs]; exact Haa|cbn [session heap]; apply lookup_insert_eq].
    cbn [session heap attrs]. rewrite insert_insert_eq. f_equal. f_equal.
    apply dict_update_twice. by rewrite !after_update_dom.
Qed.

(** X14. The two save buttons commute: when the records are separate
    objects, saving the before form and then the after form leaves the
    same session as saving them in the other order. *)
Theorem save_buttons_commute
    (W : world) (fb : before_form) (fa : after_form) (s : state) :
  records_separate (session s) = true ->
  session (save_after_assessment W fa (save_before_assessment W fb s).2).2
  = session (save_before_assessment W fb (save_after_assessment W fa s).2).2.
Proof.
  intros Hsep.
  destruct (records_separate_inv _ Hsep)
    as (lb & la & lc & db & da & dc & Hb & Ha & Hc & Hba & Hbc & Hac & Hhb & Hha & Hhc).
  rewrite (save_before_state W fb s lb db Hb Hhb).
  rewrite (save_after_state W fa s la da Ha Hha).
  erewrite save_after_state;
    [|cbn [session attrs]; exact Ha
     |cbn [session heap]; rewrite lookup_insert_ne by done; exact Hha].
  erewrite save_before_state;
    [|cbn [session attrs]; exact Hb
     |cbn [session heap]; rewrite lookup_insert_ne by done; exact Hhb].
  cbn [session heap attrs]. f_equal. by apply insert_insert_ne.
Qed.

Lemma reachable_sessions_are_in_order_witness :
  (main failing_world 0 sample_before_form sample_after_form default_diet_form
     SaveBeforeAssessment initial_state).2 = initial_state \/
  session_ok
    (session (main failing_world 0 sample_before_form sample_after_form default_diet_form
                SaveBeforeAssessment initial_state).2).
Proof.
  apply reachable_sessions_are_in_order. apply reachable_run, reachable_start.
Defined.

Lemma records_in_order_never_miss_a_field_witness :
  exists before_data after_data,
    session_lookup saved_session "before_data" = Some before_data /\
    session_lookup saved_session "after_data" = Some after_data /\
    (exists figs, create_comparison_charts strict_world before_data after_data = Ok figs) /\
    (exists prompt, analysis_prompt before_data after_data main_client_info = Ok prompt) /\
    (exists physical mental,
        physical_data before_data after_data = Ok physical /\
        mental_data before_data after_data = Ok mental) /\
    (forall fd,
        (exists prompt,
            dietary_prompt (diet_client_info fd) before_data after_data = Ok prompt) /\
        (exists profile, profile_data (diet_client_info fd) = Ok profile)).
Proof.
  apply (records_in_order_never_miss_a_field strict_world saved_session).
  split; [by_vm|]. exists sample_before, sample_after.
  split; [by_vm|]. split; [by_vm|].
  split; [apply record_ok_before_update|].
  split; [apply record_ok_after_update, record_ok_default|].
  split; by_vm.
Defined.

Lemma second_save_replaces_first_witness :
  session (save_before_assessment quiet_world sample_before_form
             (save_before_assessment quiet_world
                (BeforeForm 1 1 1 1 1 1 1 1 1 1 1 1 1 1 1 1 1 "a" "b" "c")
                (State fresh_session [])).2).2
  = session (save_before_assessment quiet_world sample_before_form
               (State fresh_session [])).2 /\
  session (save_after_assessment quiet_world sample_after_form
             (save_after_assessment quiet_world
                (AfterForm 1 1 1 1 1 1 1 1 1 1 1 1 1 1 1 1 1 "a")
                (State fresh_session [])).2).2
  = session (save_after_assessment quiet_world sample_after_form
               (State fresh_session [])).2.
Proof.
  apply (second_save_replaces_first quiet_world _ _ _ _ (State fresh_session [])
           default_data default_data); by_vm.
Defined.

Lemma save_buttons_commute_witness :
  session (save_after_assessment quiet_world sample_after_form
             (save_before_assessment quiet_world sample_before_form
                (State fresh_session [])).2).2
  = session (save_before_assessment quiet_world sample_before_form
               (save_after_assessment quiet_world sample_after_form
                  (State fresh_session [])).2).2.
Proof.
  apply (save_buttons_commute quiet_world sample_before_form sample_after_form
           (State fresh_session [])). by_vm.
Defined.

(** ** What the download buttons offer *)

Lemma offers_built_quiet W attr evs ss : Forall not_download evs -> offers_built W attr evs ss.
Proof.
  rewrite Forall_forall. intros Hq label data file_name mime help Hin.
  by destruct (Hq _ Hin label data file_name mime help).
Qed.

Lemma offers_quiet {A} W attr (c : M A) : emits not_download c -> offers W attr c.
Proof.
  intros Hc s. destruct (Hc s) as (evs & Hl & Hq). exists evs.
  split; [done|]. by apply offers_built_quiet.
Qed.

Lemma offers_bind_quiet {A B} W attr (c : M A) (k : A -> M B) :
  emits not_download c -> (forall a, offers W attr (k a)) -> offers W attr (bind c k).
Proof.
  intros Hc Hk s. unfold bind. destruct (Hc s) as (evs & Hl & Hq).
  destruct (c s) as [[a|e|] s']; cbn [fst snd] in *;
    [|exists evs; split; [done|by apply offers_built_quiet]..].
  destruct (Hk a s') as (evs' & Hl' & Ho). exists (evs ++ evs').
  split; [by rewrite Hl', Hl, app_assoc|].
  intros label data file_name mime help [Hin|Hin]%elem_of_app.
  - rewrite Forall_forall in Hq. by destruct (Hq _ Hin label data file_name mime help).
  - destruct (Ho _ _ _ _ _ Hin) as [(size & margin & story & Hb & Hans) Hattr].
    split; [|done]. exists size, margin, story. split; [|done].
    apply elem_of_app. by right.
Qed.

Lemma offers_try_except {A} W attr (body : M A) (handler : exn -> M A) :
  offers W attr body ->
  (forall e, emits not_download (handler e)) -> (forall e, touches [] (handler e)) ->
  offers W attr (try_except body handler).
Proof.
  intros Hb Hh Ht s. unfold try_except. destruct (Hb s) as (evs & Hl & Ho).
  destruct (body s) as [[a|e|] s']; cbn [fst snd] in *; [by eauto| |by eauto].
  destruct (is_Exception e); [|by eauto].
  destruct (Hh e s') as (evs' & Hl' & Hq). destruct (Ht e s') as [_ Ha].
  exists (evs ++ evs'). split; [by rewrite Hl', Hl, app_assoc|].
  intros label data file_name mime help [Hin|Hin]%elem_of_app.
  - destruct (Ho _ _ _ _ _ Hin) as [(size & margin & story & Hbuilt & Hans) Hattr].
    split.
    + exists size, margin, story. split; [|done]. apply elem_of_app. by left.
    + rewrite Ha by apply not_elem_of_nil. done.
  - rewrite Forall_forall in Hq. by destruct (Hq _ Hin label data file_name mime help).
Qed.

(** The shape of both handlers: build the document, store it, and show
    buttons for nothing else. *)
Lemma offers_build_set {B} W attr (c : M bytes) (k : bytes -> M B) :
  builds W c ->
  (forall pdf, emits (downloads_only pdf) (k pdf)) -> (forall pdf, touches [] (k pdf)) ->
  offers W attr (do pdf <- c; session_set attr (ABytes pdf);; k pdf).
Proof.
  intros Hc Hk Ht s. destruct (Hc s) as (evs & Hl & Hq & Hb).
  assert ((do pdf <- c; session_set attr (ABytes pdf);; k pdf) s
          = match c s with
            | (Ok pdf, s') =>
                k pdf (State (Session (heap (session s'))
                                      (<[attr:=ABytes pdf]> (attrs (session s'))))
                             (log s'))
            | (Raise e, s') => (Raise e, s')
            | (OutOfFuel, s') => (OutOfFuel, s')
            end) as -> by (unfold bind at 1; by destruct (c s) as [[?|?|] ?]).
  destruct (c s) as [[pdf|e|] s']; cbn [fst snd] in *;
    [|exists evs; split; [done|by apply offers_built_quiet]..].
  set (s2 := State (Session (heap (session s')) (<[attr:=ABytes pdf]> (attrs (session s'))))
                   (log s')).
  destruct (Hk pdf s2) as (evs' & Hl' & Hd). destruct (Ht pdf s2) as [_ Ha].
  exists (evs ++ evs'). split; [by rewrite Hl'; cbn [log s2]; rewrite Hl, app_assoc|].
  intros label data file_name mime help [Hin|Hin]%elem_of_app.
  - rewrite Forall_forall in Hq. by destruct (Hq _ Hin label data file_name mime help).
  - rewrite Forall_forall in Hd. rewrite (Hd _ Hin _ _ _ _ _ eq_refl).
    split.
    + destruct (Hb pdf eq_refl) as (size & margin & story & Hbuilt & Hans).
      exists size, margin, story. split; [|done]. apply elem_of_app. by left.
    + rewrite Ha by apply not_elem_of_nil. cbn. apply lookup_insert_eq.
Qed.

Lemma builds_bind_quiet {A} W (c : M A) (k : A -> M bytes) :
  emits not_download c -> (forall a, builds W (k a)) -> builds W (bind c k).
Proof.
  intros Hc Hk s. unfold bind. destruct (Hc s) as (evs & Hl & Hq).
  destruct (c s) as [[a|e|] s']; cbn [fst snd] in *;
    [|exists evs; split; [done|split; [done|discriminate]]..].
  destruct (Hk a s') as (evs' & Hl' & Hq' & Hb). exists (evs ++ evs').
  split; [by rewrite Hl', Hl, app_assoc|]. split; [by apply Forall_app|].
  intros pdf Hpdf. destruct (Hb pdf Hpdf) as (size & margin & story & Hin & Hans).
  exists size, margin, story. split; [|done]. apply elem_of_app. by right.
Qed.

Lemma builds_doc_build W size margin story : builds W (doc_build W size margin story).
Proof.
  intros s. exists [EvBuild size margin story].
  unfold doc_build, bind, emit, of_answer, raise, ret. cbn.
  destruct (build_answer W story) as [e|pdf] eqn:Hans; cbn;
    (split; [done|]); (split; [by constructor|]); [discriminate|].
  intros ? [= <-]. exists size, margin, story. split; [apply list_elem_of_here|done].
Qed.

Ltac quiet_events := solve [repeat emits_step; intros ? ? ? ? ?; discriminate].

Ltac builds_step :=
  lazy zeta;
  first [ apply builds_doc_build
        | apply builds_bind_quiet; [quiet_events|intros ?] ].

Lemma create_pdf_builds W client_info analysis before_data after_data fig1 fig2 :
  builds W (create_pdf W client_info analysis before_data after_data fig1 fig2).
Proof. unfold create_pdf, chart_flowables. repeat builds_step. Qed.

Lemma create_diet_pdf_builds W fuel client_info dietary_plan :
  builds W (create_diet_pdf W fuel client_info dietary_plan).
Proof. unfold create_diet_pdf. repeat builds_step. Qed.

Ltac offers_step :=
  first
    [ match goal with |- offers _ _ (let '(_, _) := ?p in _) => destruct p end
    | apply offers_build_set;
      [first [apply create_pdf_builds | apply create_diet_pdf_builds]
      |intros ?; repeat emits_step;
       first [intros ? ? ? ? ?; discriminate | by intros ? ? ? ? ? [=]]
      |intros ?; repeat touches_step]
    | apply offers_bind_quiet; [quiet_events|intros ?] ].

Lemma generation_handlers_offer W fuel client_info :
  offers W "progress_pdf" (generate_analysis_clicked W client_info) /\
  offers W "diet_pdf" (generate_diet_plan_clicked W fuel client_info).
Proof.
  split.
  - unfold generate_analysis_clicked.
    apply offers_bind_quiet; [quiet_events|intros before_data].
    apply offers_bind_quiet;
      [destruct (negb _); quiet_events|intros [|]].
    + apply offers_quiet. quiet_events.
    + apply offers_try_except;
        [|intros e; quiet_events|intros e; repeat touches_step].
      unfold analysis_body, generate_analysis. repeat offers_step.
  - unfold generate_diet_plan_clicked.
    apply offers_try_except;
      [|intros e; quiet_events|intros e; repeat touches_step].
    unfold diet_body, generate_dietary_plan. repeat offers_step.
Qed.

(** X15. In every run of a generation handler, whatever the libraries
    answer, a download button is shown only for a document that
    [doc.build] returned in the same run, and at the end of the run the
    session holds that same document ([progress_pdf] for the report,
    [diet_pdf] for the diet plan): a document of an earlier click is
    never offered. *)
Theorem downloads_offer_what_was_built
    (W : world) (fuel : nat) (client_info : dict) (s : state) :
  offers_built W "progress_pdf"
    (new_events (generate_analysis_clicked W client_info) s)
    (session (generate_analysis_clicked W client_info s).2) /\
  offers_built W "diet_pdf"
    (new_events (generate_diet_plan_clicked W fuel client_info) s)
    (session (generate_diet_plan_clicked W fuel client_info s).2).
Proof.
  destruct (generation_handlers_offer W fuel client_info) as [Ha Hd].
  unfold new_events. split.
  - destruct (Ha s) as (evs & -> & Ho). by rewrite drop_app_length.
  - destruct (Hd s) as (evs & -> & Ho). by rewrite drop_app_length.
Qed.

(** ** The two generation handlers when every call returns *)

Lemma session_set_run name v s :
  session_set name v s
  = (Ok (), State (Session (heap (session s)) (<[name := v]> (attrs (session s)))) (log s)).
Proof. reflexivity. Qed.

Lemma record_ok_charts W before_data after_data :
  record_ok before_data -> record_ok after_data ->
  exists fig1 fig2, create_comparison_charts W before_data after_data = Ok (fig1, fig2).
Proof.
  intros [Hb _] [Ha _]. eexists _, _. by apply charts_of_int_scores.
Qed.

(** X16. The Generate Analysis handler of [main] when every call
    returns: for records as the forms leave them that pass the
    completeness test, a date and an analysis without markup, the
    analysis being ASCII text without a lone numbered heading, the
    handler shows the spinner and the two charts, sends the
    one request, shows the analysis, exports the two charts, builds the
    report once, stores the built document in [progress_pdf] and offers
    that document for download under the name
    [yoga_progress_report__<date>.pdf]; the title page reads [for ] with
    no name, since [main] leaves [client_info['name']] empty. *)
Theorem analysis_button_delivers_the_report
    (W : world) (s : state) (before_data after_data : dict) (analysis : string)
    (render : figure -> bytes) (typeset : list flowable -> bytes) :
  session_lookup (session s) "before_data" = Some before_data ->
  session_lookup (session s) "after_data" = Some after_data ->
  record_ok before_data -> record_ok after_data ->
  both_flexibility_falsy before_data after_data = false ->
  (forall c, ui_answer W c = None) ->
  (forall r, first_choice_content W r = Ok analysis) ->
  (forall fig, to_image_answer W fig = inr (render fig)) ->
  (forall story, build_answer W story = inr (typeset story)) ->
  plain_text (now_strftime W "%B %d, %Y") = true ->
  plain_text analysis = true ->
  ascii_text analysis ->
  existsb heading_alone (split_blank analysis) = false ->
  exists fig1 fig2 prompt sections,
    create_comparison_charts W before_data after_data = Ok (fig1, fig2) /\
    analysis_prompt before_data after_data main_client_info = Ok prompt /\
    analysis_flowables W (split_blank analysis) = Ok sections /\
    let story :=
      report_front W (PStr "") (PStr "") (render fig1) (render fig2)
        (summary_header :: (full_row before_data after_data <$> summary_physical))
        (summary_header :: (full_row before_data after_data <$> summary_mental))
      ++ sections in
    generate_analysis_clicked W main_client_info s
    = (Ok (),
       State (Session (heap (session s))
                (<["progress_pdf" := ABytes (typeset story)]> (attrs (session s))))
         (log s ++
            [ EvUi (st_spinner "Generating your progress report...");
              EvUi (st_plotly_chart fig1);
              EvUi (st_plotly_chart fig2);
              EvChat (fixed_request prompt);
              EvUi (st_subheader "Your Progress Journey");
              EvUi (st_write analysis);
              EvToImage fig1 "png" 800 400 2;
              EvToImage fig2 "png" 800 400 2;
              EvBuild Letter 50 story;
              EvUi (st_markdown "### 📥 Download Your Progress Report");
              EvUi (st_download_button
                      "Download Complete Progress Report (PDF)"
                      (typeset story)
                      ("yoga_progress_report__" +:+ now_strftime W "%Y%m%d" +:+ ".pdf")
                      "application/pdf"
                      "Click to download your detailed progress report including charts and analysis") ])).
Proof.
  intros Hb Ha Hbok Haok Hflex Hui Hchat Himg Hbuild Hdate Hplain _ Hhead.
  destruct (record_ok_charts W _ _ Hbok Haok) as (fig1 & fig2 & Hfigs).
  destruct (record_ok_keys _ Hbok) as (_ & Hbk & _ & Hbp & Hbm).
  destruct (record_ok_keys _ Haok) as (_ & _ & Hak & Hap & Ham).
  destruct (analysis_prompt_ok before_data after_data main_client_info
              (main_client_info_ok _ _ Hbk Hak)) as [prompt Hp].
  pose proof (analysis_flowables_cases W _ (plain_sections _ Hplain)) as Hsec.
  rewrite Hhead in Hsec. destruct Hsec as [sections Hsec].
  exists fig1, fig2, prompt, sections.
  split; [done|]. split; [done|]. split; [done|]. cbn zeta.
  rewrite (generate_analysis_clicked_run W _ s _ _ Hb Ha), Hflex.
  unfold try_except, analysis_body.
  unfold bind at 1. rewrite ui_run, Hui.
  unfold bind at 1. rewrite (session_dict_run "before_data" _ before_data) by exact Hb.
  unfold bind at 1. rewrite (session_dict_run "after_data" _ after_data) by exact Ha.
  unfold bind at 1. unfold lift at 1. rewrite Hfigs.
  unfold bind at 1. rewrite ui_run, Hui.
  unfold bind at 1. rewrite ui_run, Hui.
  unfold bind at 1. rewrite (session_dict_run "before_data" _ before_data) by exact Hb.
  unfold bind at 1. rewrite (session_dict_run "after_data" _ after_data) by exact Ha.
  unfold bind at 1. unfold generate_analysis. fold fixed_request.
  rewrite send_prompt, Hp, Hchat.
  unfold bind at 1. rewrite ui_run, Hui.
  unfold bind at 1. rewrite ui_run, Hui.
  unfold bind at 1. rewrite (session_dict_run "before_data" _ before_data) by exact Hb.
  unfold bind at 1. rewrite (session_dict_run "after_data" _ after_data) by exact Ha.
  unfold bind at 1.
  rewrite (create_pdf_run W main_client_info analysis before_data after_data fig1 fig2 _
             (PStr "") (PStr "") (render fig1) (render fig2) _ _
             ltac:(by_vm) ltac:(by_vm) ltac:(by_vm) ltac:(by_vm) Hdate
             (Himg fig1) (Himg fig2)
             (physical_data_rows _ _ Hbp Hap) (mental_data_rows _ _ Hbm Ham)).
  rewrite Hsec. cbn zeta. rewrite Hbuild.
  unfold bind at 1. rewrite session_set_run.
  unfold bind at 1. rewrite ui_run, Hui.
  unfold bind at 1. unfold lift at 1.
  replace (getitem main_client_info "name") with (Ok (PStr "")) by by_vm.
  rewrite ui_run, Hui.
  cbn [session log heap attrs]. rewrite <- !app_assoc. reflexivity.
Qed.

Lemma analysis_button_delivers_the_report_witness :
  exists fig1 fig2 prompt sections,
    create_comparison_charts strict_world sample_before sample_after = Ok (fig1, fig2) /\
    analysis_prompt sample_before sample_after main_client_info = Ok prompt /\
    analysis_flowables strict_world (split_blank sample_plan) = Ok sections /\
    let story :=
      report_front strict_world (PStr "") (PStr "") "PNG" "PNG"
        (summary_header :: (full_row sample_before sample_after <$> summary_physical))
        (summary_header :: (full_row sample_before sample_after <$> summary_mental))
      ++ sections in
    generate_analysis_clicked strict_world main_client_info (State saved_session [])
    = (Ok (),
       State (Session (heap saved_session)
                (<["progress_pdf" := ABytes "%PDF"]> (attrs saved_session)))
         ([] ++
            [ EvUi (st_spinner "Generating your progress report...");
              EvUi (st_plotly_chart fig1);
              EvUi (st_plotly_chart fig2);
              EvChat (fixed_request prompt);
              EvUi (st_subheader "Your Progress Journey");
              EvUi (st_write sample_plan);
              EvToImage fig1 "png" 800 400 2;
              EvToImage fig2 "png" 800 400 2;
              EvBuild Letter 50 story;
              EvUi (st_markdown "### 📥 Download Your Progress Report");
              EvUi (st_download_button
                      "Download Complete Progress Report (PDF)"
                      "%PDF"
                      ("yoga_progress_report__" +:+ "20240101" +:+ ".pdf")
                      "application/pdf"
                      "Click to download your detailed progress report including charts and analysis") ])).
Proof.
  apply (analysis_button_delivers_the_report strict_world (State saved_session [])
           sample_before sample_after sample_plan (fun _ => "PNG") (fun _ => "%PDF"));
    [ by_vm | by_vm
    | apply record_ok_before_update
    | apply record_ok_after_update, record_ok_default
    | by_vm
    | intros c; reflexivity | intros r; reflexivity
    | intros fig; reflexivity | intros story; reflexivity
    | by_vm | by_vm
    | unfold ascii_text; by_vm
    | by_vm ].
Defined.

(** X17. The Generate Personalized Diet Plan handler of [main] when
    every call returns and the plan (ASCII text without markup) has no
    line that names a meal without a day: for every content of the Diet Plan form the
    handler sends the one request, shows the plan, builds the document
    once from the title, the profile table of the form and the day
    headings, stores it in [diet_pdf] and offers that document for
    download under the name [diet_plan__<date>.pdf]. *)
Theorem diet_plan_button_delivers_day_headings
    (W : world) (fuel : nat) (fd : diet_form) (s : state)
    (before_data after_data : dict) (plan : string)
    (typeset : list flowable -> bytes) :
  session_lookup (session s) "before_data" = Some before_data ->
  session_lookup (session s) "after_data" = Some after_data ->
  (forall c, ui_answer W c = None) ->
  (forall r, first_choice_content W r = Ok plan) ->
  (forall story, build_answer W story = inr (typeset story)) ->
  plain_text plan = true ->
  ascii_text plan ->
  existsb meal_line (split_on (ascii_of_nat 10) plan) = false ->
  (length (split_on (ascii_of_nat 10) plan) <= fuel)%nat ->
  exists prompt,
    dietary_prompt (diet_client_info fd) before_data after_data = Ok prompt /\
    let story :=
      diet_front (PStr "") (profile_of_form fd)
        ++ day_headers (split_on (ascii_of_nat 10) plan) in
    generate_diet_plan_clicked W fuel (diet_client_info fd) s
    = (Ok (),
       State (Session (heap (session s))
                (<["diet_pdf" := ABytes (typeset story)]> (attrs (session s))))
         (log s ++
            [ EvChat (fixed_request prompt);
              EvUi (st_markdown "### Your Personalized Diet Plan");
              EvUi (st_write plan);
              EvBuild LandscapeLetter 30 story;
              EvUi (st_download_button
                      "📥 Download Diet Plan (PDF)"
                      (typeset story)
                      ("diet_plan__" +:+ now_strftime W "%Y%m%d" +:+ ".pdf")
                      "application/pdf"
                      "Click to download your personalized diet plan") ])).
Proof.
  intros Hb Ha Hui Hchat Hbuild Hplain _ Hmeal Hfuel.
  destruct (dietary_prompt_ok (diet_client_info fd) before_data after_data
              (diet_client_info_ok fd)) as [p Hp].
  exists p. split; [done|]. cbn zeta.
  destruct (profile_data_of_form fd) as [Hname Hprofile].
  fold (profile_of_form fd) in Hprofile.
  unfold generate_diet_plan_clicked, try_except, diet_body.
  unfold bind at 1. rewrite (session_dict_run _ _ _ Hb).
  unfold bind at 1. rewrite (session_dict_run _ _ _ Ha).
  unfold bind at 1. unfold generate_dietary_plan. fold fixed_request.
  rewrite send_prompt, Hp, Hchat.
  unfold bind at 1. rewrite ui_run, Hui.
  unfold bind at 1. rewrite ui_run, Hui.
  unfold bind at 1.
  rewrite (create_diet_pdf_plain W _ plan _ _ _ Hname Hprofile fuel eq_refl Hplain
             Hmeal Hfuel).
  rewrite Hbuild.
  unfold bind at 1. rewrite session_set_run.
  unfold bind at 1. unfold lift at 1. rewrite Hname.
  rewrite ui_run, Hui.
  cbn [session log heap attrs]. rewrite <- !app_assoc. reflexivity.
Qed.

Lemma diet_plan_button_delivers_day_headings_witness :
  exists prompt,
    dietary_prompt (diet_client_info default_diet_form) sample_before sample_after
    = Ok prompt /\
    let story :=
      diet_front (PStr "") (profile_of_form default_diet_form)
        ++ day_headers (split_on (ascii_of_nat 10) plain_plan) in
    generate_diet_plan_clicked (answering_world plain_plan) 2
      (diet_client_info default_diet_form)
      (State saved_session [])
    = (Ok (),
       State (Session (heap saved_session)
                (<["diet_pdf" := ABytes "%PDF"]> (attrs saved_session)))
         ([] ++
            [ EvChat (fixed_request prompt);
              EvUi (st_markdown "### Your Personalized Diet Plan");
              EvUi (st_write plain_plan);
              EvBuild LandscapeLetter 30 story;
              EvUi (st_download_button
                      "📥 Download Diet Plan (PDF)"
                      "%PDF"
                      ("diet_plan__" +:+ "20240101" +:+ ".pdf")
                      "application/pdf"
                      "Click to download your personalized diet plan") ])).
Proof.
  apply (diet_plan_button_delivers_day_headings (answering_world plain_plan) 2
           default_diet_form (State saved_session []) sample_before sample_after
           plain_plan (fun _ => "%PDF"));
    [ by_vm | by_vm
    | intros c; reflexivity | intros r; reflexivity | intros story; reflexivity
    | by_vm
    | unfold ascii_text; by_vm
    | by_vm
    | vm_compute; lia ].
Defined.

